(** * xSpark-bench, [log.py]: the coordinator-log and worker-log parsers

    A shallow embedding of [load_app_data] and [load_worker_data] and of the
    Python built-ins they call ([str.split], [str.rstrip], [str.replace],
    [int], [float], [abs], list indexing, [str.format] with [.2f]).

    Python values are modelled as follows.
    - [str] is [string]; the model is exact on ASCII text (log files of the
      cluster are ASCII), a non-ASCII digit or blank is an ordinary character.
    - [int] is [Z]; [float] is the kernel's binary64 [float]. [int(s)] is
      the one of Python 3.11 with its default settings: a numeral of more
      than 4300 digits raises ValueError (an older interpreter reads it).
    - a [dict] is a [gmap]; a [dict] with a fixed set of optional keys is a
      record of [option] fields.
    - an exception is a value of [exn]; code that may raise returns [result].

    [download_master] and [download_slave] are embedded in [Download], over
    the calls that they make to the node and to the disk. *)

From Stdlib Require Import ZArith Floats Uint63 String Ascii List Lia Bool.
From Stdlib Require Import DecimalString.
From stdpp Require Import gmap strings list.

(** ** Exceptions and the error monad *)

Inductive exn : Set :=
  | IndexError | KeyError | ValueError | OverflowError | AttributeError | TypeError.

Inductive result (A : Type) : Type :=
  | Ok (a : A)
  | Raise (e : exn).
Arguments Ok {A} a.
Arguments Raise {A} e.

#[global] Instance exn_eq_dec : EqDecision exn.
Proof. solve_decision. Defined.

#[global] Instance result_ret : MRet result := λ A a, Ok a.
#[global] Instance result_bind : MBind result := λ A B f m,
  match m with Ok a => f a | Raise e => Raise e end.
#[global] Instance result_fmap : FMap result := λ A B f m,
  match m with Ok a => Ok (f a) | Raise e => Raise e end.

(** [try: body except (catches): handler]. *)
Definition try_except {A} (body : result A) (catches : exn → bool)
    (handler : result A) : result A :=
  match body with
  | Ok a => Ok a
  | Raise e => if catches e then handler else Raise e
  end.

(** What a dictionary lookup [d[k]] does on a missing key. *)
Definition getitem {K V} `{Countable K} (d : gmap K V) (k : K) : result V :=
  match d !! k with Some v => Ok v | None => Raise KeyError end.

(** Reading a key of a [dict] that has optional keys. *)
Definition getkey {V} (o : option V) : result V :=
  match o with Some v => Ok v | None => Raise KeyError end.

(** ** Strings *)

Module Py.

Definition nl : string := String (ascii_of_nat 10) EmptyString.

(** [str.isspace] on the ASCII range: TAB, LF, VT, FF, CR, FS, GS, RS, US
    and the space. *)
Definition is_space (c : ascii) : bool :=
  let n := N_of_ascii c in
  ((9 <=? n) && (n <=? 13) || (28 <=? n) && (n <=? 32))%N.

Fixpoint lstrip (s : string) : string :=
  match s with
  | String c s' => if is_space c then lstrip s' else s
  | EmptyString => EmptyString
  end.

Fixpoint rstrip (s : string) : string :=
  match s with
  | EmptyString => EmptyString
  | String c s' =>
      match rstrip s' with
      | EmptyString => if is_space c then EmptyString else String c EmptyString
      | r => String c r
      end
  end.

Definition strip (s : string) : string := rstrip (lstrip s).

(** [s.replace(c, "")] for a one-character [c]. *)
Fixpoint remove_char (c : ascii) (s : string) : string :=
  match s with
  | EmptyString => EmptyString
  | String a s' =>
      if Ascii.eqb a c then remove_char c s' else String a (remove_char c s')
  end.

(** [s.split(sep)] for a non-empty [sep]: the separators are found from the
    left and do not overlap. [skip] counts the characters of a separator
    that is being stepped over, [acc] is the current token, reversed. *)
Fixpoint split_go (sep : string) (skip : nat) (acc : string) (s : string)
    : list string :=
  match s with
  | EmptyString => [String.rev acc]
  | String c s' =>
      match skip with
      | S k => split_go sep k acc s'
      | O =>
          if String.prefix sep s
          then String.rev acc :: split_go sep (String.length sep - 1) EmptyString s'
          else split_go sep 0 (String c acc) s'
      end
  end.

Definition split (sep : string) (s : string) : list string :=
  split_go sep 0 EmptyString s.

(** [l[i]], with Python's negative indices. *)
Definition item {A} (l : list A) (i : Z) : result A :=
  let n := Z.of_nat (length l) in
  let j := if (i <? 0)%Z then (i + n)%Z else i in
  if (j <? 0)%Z then Raise IndexError
  else match l !! Z.to_nat j with
       | Some x => Ok x
       | None => Raise IndexError
       end.

(** [x in l] for a list of strings. *)
Definition contains (x : string) (l : list string) : bool :=
  existsb (String.eqb x) l.

(** ** Integers: [int(s)] *)

Definition digit_val (c : ascii) : option Z :=
  let n := Z.of_N (N_of_ascii c) in
  if ((48 <=? n) && (n <=? 57))%Z then Some (n - 48)%Z else None.

Definition is_digit (c : ascii) : bool :=
  match digit_val c with Some _ => true | None => false end.

(** Decimal digits in which single underscores may stand between two
    digits. [after_digit] tells that the previous character was a digit. *)
Fixpoint int_digits (s : string) (acc : Z) (after_digit : bool) : option Z :=
  match s with
  | EmptyString => if after_digit then Some acc else None
  | String c s' =>
      match digit_val c with
      | Some d => int_digits s' (10 * acc + d)%Z true
      | None =>
          if Ascii.eqb c "_" && after_digit
          then match s' with
               | String c' _ => if is_digit c' then int_digits s' acc false else None
               | EmptyString => None
               end
          else None
      end
  end.

Definition split_sign (s : string) : bool * string :=
  match s with
  | String "-" r => (true, r)
  | String "+" r => (false, r)
  | _ => (false, s)
  end.

(** The blanks that [int] and [float] skip at both ends of their text:
    TAB, LF, VT, FF, CR and the space. The separators FS, GS, RS and US,
    which [str.isspace] and so [str.rstrip] take for blanks, are not among
    them. *)
Definition is_blank (c : ascii) : bool :=
  let n := N_of_ascii c in
  ((9 <=? n) && (n <=? 13) || (n =? 32))%N.

Fixpoint skip_blanks (s : string) : string :=
  match s with
  | String c s' => if is_blank c then skip_blanks s' else s
  | EmptyString => EmptyString
  end.

Fixpoint drop_blanks (s : string) : string :=
  match s with
  | EmptyString => EmptyString
  | String c s' =>
      match drop_blanks s' with
      | EmptyString => if is_blank c then EmptyString else String c EmptyString
      | r => String c r
      end
  end.

(** The text of a number without the blanks around it. *)
Definition trim (s : string) : string := drop_blanks (skip_blanks s).

(** The number of digits of a numeral, its underscores left out. *)
Fixpoint count_digits (s : string) : Z :=
  match s with
  | EmptyString => 0%Z
  | String c s' => ((if is_digit c then 1 else 0) + count_digits s')%Z
  end.

(** [sys.int_info.default_max_str_digits]: the longest numeral that [int]
    reads. *)
Definition max_str_digits : Z := 4300.

(** [int(s)] in base 10: blanks around, an optional sign, digits; a
    numeral of more digits than [max_str_digits] is refused. *)
Definition int (s : string) : result Z :=
  let '(neg, body) := split_sign (trim s) in
  match int_digits body 0 false with
  | Some n =>
      if (max_str_digits <? count_digits body)%Z then Raise ValueError
      else Ok (if neg then (- n)%Z else n)
  | None => Raise ValueError
  end.

(** ** Floats: binary64 *)

(** The integer nearest to [n / d] ([0 <= n], [0 < d]), ties to even. *)
Definition div_half_even (n d : Z) : Z :=
  let q := (n / d)%Z in
  let r := (n mod d)%Z in
  match (2 * r ?= d)%Z with
  | Lt => q
  | Gt => (q + 1)%Z
  | Eq => if Z.even q then q else (q + 1)%Z
  end.

(** The binary64 number nearest to the rational [p / q] ([0 < p], [0 < q]),
    ties to even, overflowing to infinity: the rounding of a decimal
    literal and of an [int]. The exponent [e] is the one of the binade of
    [p / q], never below the subnormal exponent -1074, so that the quotient
    by [2^e] has at most 53 bits before it is rounded. *)
Definition round_rational (p q : Z) : float :=
  let k := (Z.log2 p - Z.log2 q)%Z in
  let scaled e := if (0 <=? e)%Z then (p, q * 2 ^ e)%Z else (p * 2 ^ (- e), q)%Z in
  let e0 :=
    let '(n, d) := scaled (k - 52)%Z in
    if (2 ^ 52 <=? n / d)%Z then (k - 52)%Z else (k - 53)%Z in
  let e := Z.max e0 (-1074) in
  let '(n, d) := scaled e in
  let m := div_half_even n d in
  Z.ldexp (PrimFloat.of_uint63 (Uint63.of_Z m)) e.

Definition with_sign (neg : bool) (x : float) : float :=
  if neg then PrimFloat.opp x else x.

(** The value [(-1)^neg * m * 10^e10] as a float. *)
Definition float_of_decimal (neg : bool) (m e10 : Z) : float :=
  with_sign neg
    (if (m =? 0)%Z then PrimFloat.zero
     else if (0 <=? e10)%Z then round_rational (m * 10 ^ e10) 1
     else round_rational m (10 ^ (- e10))).

(** [float(n)] for an [int]: OverflowError past the largest float. *)
Definition float_of_int (n : Z) : result float :=
  let x := float_of_decimal (n <? 0)%Z (Z.abs n) 0 in
  if PrimFloat.is_infinity x then Raise OverflowError else Ok x.

(** [int(x)] for a float: truncation towards zero. *)
Definition int_of_float (x : float) : result Z :=
  match Prim2SF x with
  | S754_nan => Raise ValueError
  | S754_infinity _ => Raise OverflowError
  | S754_zero _ => Ok 0%Z
  | S754_finite s m e =>
      let a := Z.shiftl (Zpos m) e in
      Ok (if s then (- a)%Z else a)
  end.

(** A run of digits: its value appended to [acc], its length, the rest. *)
Fixpoint span_digits (s : string) (acc : Z) (n : Z) : Z * Z * string :=
  match s with
  | String c s' =>
      match digit_val c with
      | Some d => span_digits s' (10 * acc + d)%Z (n + 1)%Z
      | None => (acc, n, s)
      end
  | EmptyString => (acc, n, s)
  end.

(** The exponent part [e|E [+|-] digits]; a part that does not parse is
    left unread, and the caller then finds text after the number. *)
Definition exponent (s : string) : Z * string :=
  match s with
  | String c r =>
      if Ascii.eqb c "e" || Ascii.eqb c "E" then
        let '(neg, r') :=
          match r with
          | String "-" t => (true, t)
          | String "+" t => (false, t)
          | _ => (false, r)
          end in
        let '(v, n, rest) := span_digits r' 0 0 in
        if (n =? 0)%Z then (0%Z, s) else ((if neg then - v else v)%Z, rest)
      else (0%Z, s)
  | EmptyString => (0%Z, s)
  end.

Definition lower (c : ascii) : ascii :=
  let n := N_of_ascii c in
  if ((65 <=? n) && (n <=? 90))%N then ascii_of_N (n + 32) else c.

Fixpoint lowercase (s : string) : string :=
  match s with
  | EmptyString => EmptyString
  | String c s' => String (lower c) (lowercase s')
  end.

(** Underscores of a float literal: each stands between two digits. The
    result is the text without them. *)
Fixpoint drop_underscores (s : string) (prev_digit : bool) : option string :=
  match s with
  | EmptyString => Some EmptyString
  | String c s' =>
      if Ascii.eqb c "_" then
        match s' with
        | String c' _ =>
            if prev_digit && is_digit c' then drop_underscores s' false else None
        | EmptyString => None
        end
      else String c <$> drop_underscores s' (is_digit c)
  end.

(** [float(s)]: blanks around; a sign; then [inf], [infinity], [nan] in any
    case, or digits with an optional point and exponent. The whole text
    must be read. *)
Definition float (s : string) : result float :=
  match drop_underscores (trim s) false with
  | None => Raise ValueError
  | Some t =>
      let '(neg, body) := split_sign t in
      let '(ip, ni, r1) := span_digits body 0 0 in
      let '(m, nf, r2) :=
        match r1 with
        | String "." r => span_digits r ip 0
        | _ => (ip, 0%Z, r1)
        end in
      if (0 <? ni + nf)%Z then
        let '(ex, r3) := exponent r2 in
        match r3 with
        | EmptyString => Ok (float_of_decimal neg m (ex - nf))
        | _ => Raise ValueError
        end
      else
        let w := lowercase body in
        if String.eqb w "inf" || String.eqb w "infinity"
        then Ok (with_sign neg PrimFloat.infinity)
        else if String.eqb w "nan" then Ok PrimFloat.nan
        else Raise ValueError
  end.

(** ** [str.format] with the [.2f] presentation *)

Fixpoint decimal_go (fuel : nat) (n : Z) (acc : string) : string :=
  match fuel with
  | O => acc
  | S fuel' =>
      let acc' := String (ascii_of_N (Z.to_N (48 + n mod 10))) acc in
      if (n <? 10)%Z then acc' else decimal_go fuel' (n / 10)%Z acc'
  end.

(** The decimal digits of [0 <= n]. *)
Definition decimal (n : Z) : string :=
  decimal_go (S (Z.to_nat (Z.log2 n))) n EmptyString.

(** ['{0:.2f}'.format(x)]: the exact value of [x] rounded to two decimals,
    ties to even. *)
Definition format_2f (x : PrimFloat.float) : string :=
  match Prim2SF x with
  | S754_nan => "nan"
  | S754_infinity s => if s then "-inf" else "inf"
  | S754_zero s => if s then "-0.00" else "0.00"
  | S754_finite s m e =>
      let n :=
        if (0 <=? e)%Z then (Zpos m * 100 * 2 ^ e)%Z
        else div_half_even (Zpos m * 100) (2 ^ (- e)) in
      let frac := decimal (n mod 100) in
      (if s then "-" else EmptyString)
        +:+ decimal (n / 100) +:+ "."
        +:+ (if (n mod 100 <? 10)%Z then "0" +:+ frac else frac)
  end.

(** [float('{0:.2f}'.format(x))] *)
Definition round2 (x : PrimFloat.float) : result PrimFloat.float :=
  float (format_2f x).

End Py.

(** [a and b], where evaluating [b] may raise. *)
Definition and_then (a : bool) (b : result bool) : result bool :=
  if a then b else Ok false.

(** ** Time

    [string_to_datetime] is imported from [util.utils], which is not among
    the sources, and [datetime] / [timedelta] are the standard library's: the
    parsers only move the values they return around, so the three calls are
    taken as an interface over the type [datetime] of those values.
    - [string_to_datetime s] is the call of that name;
    - [add_milliseconds d ms] is [d + timedelta(milliseconds=ms)];
    - [strptime_sar s] is [dt.strptime(s, '%I:%M:%S %p').replace(year=2016)]. *)
Class Clock (datetime : Type) := {
  string_to_datetime : string → result datetime;
  add_milliseconds : datetime → float → result datetime;
  strptime_sar : string → result datetime;
}.

(** * [load_app_data] *)

Module AppData.
Section coordinator.
Context {datetime : Type} `{!Clock datetime}.

(** [app_info[app_id][stage_id]]: a dict with the keys below, each set by
    one kind of event. *)
Record stage_info := StageInfo {
  tasks : option Z;
  start : option datetime;
  deadline : option datetime;
  end_ : option datetime;
  tasktimestamps : option (list datetime);
}.

(** [dict_to_plot[app_id]]; the three keys are always set together. *)
Record plot_series := PlotSeries {
  dealineTimeStages : list datetime;
  startTimeStages : list datetime;
  finishTimeStages : list datetime;
}.

(** The local variables of [load_app_data]. *)
Record app_state := AppState {
  dict_to_plot : gmap string plot_series;
  app_info : gmap string (gmap Z stage_info);
  app_id : string;
}.

Definition empty_stage : stage_info := StageInfo None None None None None.
Definition empty_plot : plot_series := PlotSeries [] [] [].

Definition set_tasks (v : Z) (s : stage_info) : stage_info :=
  StageInfo (Some v) (start s) (deadline s) (end_ s) (tasktimestamps s).
Definition set_start (v : datetime) (s : stage_info) : stage_info :=
  StageInfo (tasks s) (Some v) (deadline s) (end_ s) (tasktimestamps s).
Definition set_deadline (v : datetime) (s : stage_info) : stage_info :=
  StageInfo (tasks s) (start s) (Some v) (end_ s) (tasktimestamps s).
Definition set_end (v : datetime) (s : stage_info) : stage_info :=
  StageInfo (tasks s) (start s) (deadline s) (Some v) (tasktimestamps s).
Definition set_tasktimestamps (v : list datetime) (s : stage_info) : stage_info :=
  StageInfo (tasks s) (start s) (deadline s) (end_ s) (Some v).

(** [app_info[app_id][stage_id] = v], once [app_info[app_id]] is known to
    be [stages]. *)
Definition put_stage (st : app_state) (stages : gmap Z stage_info)
    (stage_id : Z) (v : stage_info) : app_state :=
  AppState (dict_to_plot st)
    (<[app_id st := <[stage_id := v]> stages]> (app_info st)) (app_id st).

Definition put_plot (st : app_state) (p : plot_series) : app_state :=
  AppState (<[app_id st := p]> (dict_to_plot st)) (app_info st) (app_id st).

Definition catches_key_value (e : exn) : bool :=
  match e with KeyError | ValueError => true | _ => false end.

(** [int(float(line[9]))] *)
Definition finished_stage_id (line : list string) : result Z :=
  l9 ← Py.item line 9; x ← Py.float l9; Py.int_of_float x.

(** [app_info[app_id][int(float(line[9]))]["tasktimestamps"].append(
      string_to_datetime(line[1]))] *)
Definition append_tasktimestamp (st : app_state) (line : list string)
    : result app_state :=
  stages ← getitem (app_info st) (app_id st);
  stage_id ← finished_stage_id line;
  stage ← getitem stages stage_id;
  stamps ← getkey (tasktimestamps stage);
  l1 ← Py.item line 1;
  t ← string_to_datetime l1;
  Ok (put_stage st stages stage_id (set_tasktimestamps (stamps ++ [t]) stage)).

(** [app_info[app_id][int(float(line[9]))]["tasktimestamps"] = []] *)
Definition reset_tasktimestamps (st : app_state) (line : list string)
    : result app_state :=
  stages ← getitem (app_info st) (app_id st);
  stage_id ← finished_stage_id line;
  stage ← getitem stages stage_id;
  Ok (put_stage st stages stage_id (set_tasktimestamps [] stage)).

(** The [TaskSetManager: Finished] branch, lines 133-139. *)
Definition task_finished (st : app_state) (line : list string)
    : result app_state :=
  try_except (append_tasktimestamp st line) catches_key_value
    (st' ← reset_tasktimestamps st line; append_tasktimestamp st' line).

(** The [StandaloneSchedulerBackend: Connected] branch, lines 141-146. *)
Definition connected (st : app_state) (line : list string) : result app_state :=
  last ← Py.item line (-1);
  let id := Py.rstrip last in
  Ok (AppState (<[id := empty_plot]> (dict_to_plot st))
        (<[id := ∅]> (app_info st)) id).

(** The [DAGScheduler:] branch, lines 148-161. *)
Definition dag_scheduler (st : app_state) (line : list string)
    : result app_state :=
  l4 ← Py.item line 4;
  submitting ← and_then (String.eqb l4 "Submitting")
                 (l6 ← Py.item line 6; Ok (String.eqb l6 "missing"));
  if (submitting : bool) return result app_state then
    l10 ← Py.item line 10;
    stage_id ← Py.int l10;
    stages ← getitem (app_info st) (app_id st);
    l5 ← Py.item line 5;
    n ← Py.int l5;
    Ok (put_stage st stages stage_id (set_tasks n empty_stage))
  else
    l ← Py.item line (-4);
    if String.eqb l "finished" return result app_state then
      if negb (String.eqb (app_id st) EmptyString) return result app_state then
        l5 ← Py.item line 5;
        stage_id ← Py.int l5;
        l1 ← Py.item line 1;
        t ← string_to_datetime l1;
        stages ← getitem (app_info st) (app_id st);
        stage ← getitem stages stage_id;
        let st1 := put_stage st stages stage_id (set_end t stage) in
        plot ← getitem (dict_to_plot st1) (app_id st1);
        if length (finishTimeStages plot) <? length (startTimeStages plot)
           return result app_state
        then Ok (put_plot st1
                   (PlotSeries (dealineTimeStages plot) (startTimeStages plot)
                      (finishTimeStages plot ++ [t])))
        else Ok st1
      else Ok st
    else Ok st.

(** The [ControllerJob:] branch, lines 163-187. *)
Definition controller_job (st : app_state) (line : list string)
    : result app_state :=
  l5 ← Py.item line 5;
  if String.eqb l5 "INIT" return result app_state then
    plot ← getitem (dict_to_plot st) (app_id st);
    let size_finish := length (finishTimeStages plot) + 1 in
    if length (dealineTimeStages plot) <? size_finish return result app_state then
      l12 ← Py.item line 12;
      stage_id ← Py.int (Py.remove_char "," l12);
      l1 ← Py.item line 1;
      t ← string_to_datetime l1;
      stages ← getitem (app_info st) (app_id st);
      stage ← getitem stages stage_id;
      let stage1 := set_start t stage in
      let starts := startTimeStages plot ++ [t] in
      l16 ← Py.item line 16;
      deadline_ms ← Py.float (Py.remove_char "," l16);
      last_start ← Py.item starts (-1);
      d ← add_milliseconds last_start deadline_ms;
      Ok (put_plot (put_stage st stages stage_id (set_deadline d stage1))
            (PlotSeries (dealineTimeStages plot ++ [d]) starts
               (finishTimeStages plot)))
    else Ok st
  else
    needed ← and_then (String.eqb l5 "NEEDED")
               (l4 ← Py.item line 4; Ok (String.eqb l4 "SEND"));
    if (needed : bool) return result app_state then
      last ← Py.item line (-1);
      let next_app_id := Py.remove_char (ascii_of_nat 10) last in
      if negb (String.eqb (app_id st) next_app_id) return result app_state
      then Ok (AppState (<[next_app_id := empty_plot]> (dict_to_plot st))
                 (app_info st) next_app_id)
      else Ok st
    else Ok st.

(** The body of the loop over the lines of the log, lines 130-187, on the
    tokens of a line. *)
Definition app_tokens (st : app_state) (line : list string) : result app_state :=
  if 3 <? length line return result app_state then
    l3 ← Py.item line 3;
    c ← and_then (String.eqb l3 "TaskSetManager:")
          (l4 ← Py.item line 4; Ok (String.eqb l4 "Finished"));
    if (c : bool) return result app_state then task_finished st line else
    c ← and_then (String.eqb l3 "StandaloneSchedulerBackend:")
          (l4 ← Py.item line 4; Ok (String.eqb l4 "Connected"));
    if (c : bool) return result app_state then connected st line else
    if String.eqb l3 "DAGScheduler:" return result app_state then dag_scheduler st line else
    if String.eqb l3 "ControllerJob:" return result app_state then controller_job st line else
    Ok st
  else Ok st.

Definition app_line (st : app_state) (line : string) : result app_state :=
  app_tokens st (Py.split " " line).

(** The loop: an exception raised by a line leaves the function. *)
Fixpoint app_loop (st : app_state) (app_log : list string) : result app_state :=
  match app_log with
  | [] => Ok st
  | line :: rest => st' ← app_line st line; app_loop st' rest
  end.

Definition app_init : app_state := AppState ∅ ∅ EmptyString.

(** The state in which the loop ends. *)
Definition app_scan (app_log : list string) : result app_state :=
  app_loop app_init app_log.

(** [load_app_data], on the lines of the file at [app_log_path]: line 188
    returns [app_info]. *)
Definition load_app_data (app_log : list string)
    : result (gmap string (gmap Z stage_info)) :=
  st ← app_scan app_log; Ok (app_info st).

(** The plot series of [app] when the loop ends: [dict_to_plot[app]]. *)
Definition plot_series_of (app_log : list string) (app : string)
    : result plot_series :=
  st ← app_scan app_log; getitem (dict_to_plot st) app.

End coordinator.
End AppData.

(** * [load_worker_data] *)

(** The two entries of [config] that [load_worker_data] reads:
    [config["Aws"]["HyperThreading"]] and [config["Control"]["CoreVM"]]. *)
Record config := Config {
  HyperThreading : bool;
  CoreVM : Z;
}.

Module WorkerData.
Section worker.
Context {datetime : Type} `{!Clock datetime}.

(** [worker_dict[app_id][sid]]; the four keys are set together. *)
Record stage_series := StageSeries {
  cpu : list float;
  time : list datetime;
  sp_real : list float;
  sp : list float;
}.

(** A value of [worker_dict]: the list under ["cpu_real"], the list under
    ["time_cpu"], or the dict of an application. *)
Inductive entry :=
  | CpuReal (samples : list float)
  | TimeCpu (stamps : list datetime)
  | App (stages : gmap Z stage_series).

(** [len(worker_dict[k])] *)
Definition entry_len (e : entry) : nat :=
  match e with
  | CpuReal l => length l
  | TimeCpu l => length l
  | App m => size m
  end.

(** The local variables of the scan of the worker log, and what the loop
    printed. *)
Record worker_state := WorkerState {
  worker_dict : gmap string entry;
  app_id : string;
  sid : Z;
  stdout : list string;
}.

Definition empty_series : stage_series := StageSeries [] [] [] [].

(** [worker_dict[app_id]] as a dict of stages. The scan binds [app_id] only
    to keys it has just set to a dict, so the other case does not arise. *)
Definition app_stages (st : worker_state) : result (gmap Z stage_series) :=
  e ← getitem (worker_dict st) (app_id st);
  match e with
  | App m => Ok m
  | _ => Raise TypeError
  end.

(** [worker_dict[app_id][k] = v] *)
Definition put_series (st : worker_state) (stages : gmap Z stage_series)
    (k : Z) (v : stage_series) : worker_state :=
  WorkerState (<[app_id st := App (<[k := v]> stages)]> (worker_dict st))
    (app_id st) (sid st) (stdout st).

(** [float(line[-1].replace("\n", ""))] *)
Definition last_float (line : list string) : result float :=
  last ← Py.item line (-1);
  Py.float (Py.remove_char (ascii_of_nat 10) last).

(** The [Created] branch, lines 212-222. *)
Definition created (st : worker_state) (line : list string)
    : result worker_state :=
  l8 ← Py.item line 8;
  n ← Py.int l8;
  st1 ← (if negb (sid st =? n)%Z return result worker_state then
           stages ← app_stages st;
           Ok (put_series (WorkerState (worker_dict st) (app_id st) n (stdout st))
                 stages n empty_series)
         else Ok st);
  stages ← app_stages st1;
  s ← getitem stages (sid st1);
  x ← last_float line;
  l1 ← Py.item line 1;
  t ← string_to_datetime l1;
  Ok (put_series st1 stages (sid st1)
        (StageSeries (cpu s ++ [x]) (time s ++ [t])
           (sp_real s ++ [0%float]) (sp s ++ [0%float]))).

Definition catches_key (e : exn) : bool :=
  match e with KeyError => true | _ => false end.

(** The [Scaled] branch, lines 225-231. *)
Definition scaled (st : worker_state) (line : list string)
    : result worker_state :=
  differs ← (if String.eqb (app_id st) EmptyString return result bool
             then Ok true
             else l10 ← Py.item line 10; Ok (negb (String.eqb (app_id st) l10)));
  if (differs : bool) return result worker_state then
    next_app_id ← Py.item line 10;
    try_except
      (Ok (WorkerState (<[next_app_id := App ∅]> (worker_dict st))
             next_app_id (sid st) (stdout st)))
      catches_key
      (Ok (WorkerState (worker_dict st) (app_id st) (sid st)
             (stdout st ++ [next_app_id +:+ " NOT FOUND BEFORE IN BENCHMARK LOGS"])))
  else Ok st.

(** The [CoreToAllocate:] branch, line 235. *)
Definition core_to_allocate (st : worker_state) (line : list string)
    : result worker_state :=
  stages ← app_stages st;
  s ← getitem stages (sid st);
  x ← last_float line;
  Ok (put_series st stages (sid st)
        (StageSeries (cpu s ++ [x]) (time s) (sp_real s) (sp s))).

(** The [Real:] branch, lines 237-238. *)
Definition real_speedup (st : worker_state) (line : list string)
    : result worker_state :=
  stages ← app_stages st;
  s ← getitem stages (sid st);
  x ← last_float line;
  Ok (put_series st stages (sid st)
        (StageSeries (cpu s) (time s) (sp_real s ++ [x]) (sp s))).

(** Lines 244-247: what is stored for a progress value. *)
Definition normalize (progress : float) : float :=
  if (progress <? 0)%float then (PrimFloat.abs progress / 100)%float
  else progress.

(** The [SP] branch, lines 240-247. *)
Definition progress_event (st : worker_state) (line : list string)
    : result worker_state :=
  stages ← app_stages st;
  s ← getitem stages (sid st);
  l1 ← Py.item line 1;
  t ← string_to_datetime l1;
  progress ← last_float line;
  Ok (put_series st stages (sid st)
        (StageSeries (cpu s) (time s ++ [t]) (sp_real s)
           (sp s ++ [normalize progress]))).

(** The body of the loop over the worker log, lines 209-247, on the tokens
    of a line. *)
Definition worker_tokens (st : worker_state) (line : list string)
    : result worker_state :=
  if 3 <? length line return result worker_state then
    l4 ← Py.item line 4;
    st1 ← (if String.eqb l4 "Created" && negb (String.eqb (app_id st) EmptyString)
             return result worker_state
           then created st line else Ok st);
    st2 ← (if String.eqb l4 "Scaled" return result worker_state
           then scaled st1 line else Ok st1);
    if negb (String.eqb (app_id st2) EmptyString) return result worker_state then
      st3 ← (if String.eqb l4 "CoreToAllocate:" return result worker_state
             then core_to_allocate st2 line else Ok st2);
      st4 ← (if String.eqb l4 "Real:" return result worker_state
             then real_speedup st3 line else Ok st3);
      if String.eqb l4 "SP" return result worker_state
      then progress_event st4 line else Ok st4
    else Ok st2
  else Ok st.

Definition worker_line (st : worker_state) (line : string) : result worker_state :=
  worker_tokens st (Py.split " " line).

Fixpoint worker_loop (st : worker_state) (wlog : list string)
    : result worker_state :=
  match wlog with
  | [] => Ok st
  | line :: rest => st' ← worker_line st line; worker_loop st' rest
  end.

(** Lines 202-207. *)
Definition worker_init : worker_state :=
  WorkerState (<["time_cpu" := TimeCpu []]> (<["cpu_real" := CpuReal []]> ∅))
    EmptyString (-1) [].

Definition worker_scan (wlog : list string) : result worker_state :=
  worker_loop worker_init wlog.

(** Lines 256-261: the utilisation of a telemetry line as a number of
    cores. *)
Definition cpu_real_of (cfg : config) (raw : float) : result float :=
  cores ← Py.float_of_int (CoreVM cfg);
  if HyperThreading cfg
  then Py.round2 (raw * cores * 2 / 100)%float
  else Py.round2 (raw * cores / 100)%float.

(** [worker_dict["time_cpu"].append(t)] and [worker_dict["cpu_real"].append(x)];
    a dict has no [append]. *)
Definition append_time_cpu (d : gmap string entry) (t : result datetime)
    : result (gmap string entry) :=
  e ← getitem d "time_cpu";
  match e with
  | TimeCpu l => t' ← t; Ok (<["time_cpu" := TimeCpu (l ++ [t'])]> d)
  | _ => Raise AttributeError
  end.

Definition append_cpu_real (d : gmap string entry) (x : float)
    : result (gmap string entry) :=
  e ← getitem d "cpu_real";
  match e with
  | CpuReal l => Ok (<["cpu_real" := CpuReal (l ++ [x])]> d)
  | _ => Raise AttributeError
  end.

(** The body of the loop over the telemetry log, lines 251-262. *)
Definition cpu_line (cfg : config) (d : gmap string entry) (raw : string)
    : result (gmap string entry) :=
  let line := Py.split "    " raw in
  l0 ← Py.item line 0;
  let words := Py.split " " l0 in
  data ← and_then (negb (Py.contains "Linux" words || Py.contains Py.nl words))
           (l1 ← Py.item line 1;
            and_then (negb (String.eqb l1 " CPU"))
              (Ok (negb (String.eqb l0 "Average:"))));
  if (data : bool) return result (gmap string entry) then
    d1 ← append_time_cpu d (strptime_sar l0);
    l2 ← Py.item line 2;
    x ← Py.float l2;
    cpu_real ← cpu_real_of cfg x;
    append_cpu_real d1 cpu_real
  else Ok d.

Fixpoint cpu_loop (cfg : config) (d : gmap string entry) (cpu_log : list string)
    : result (gmap string entry) :=
  match cpu_log with
  | [] => Ok d
  | line :: rest => d' ← cpu_line cfg d line; cpu_loop cfg d' rest
  end.

(** Lines 263-266: every key whose value has length 0 is deleted. *)
Definition prune (d : gmap string entry) : gmap string entry :=
  filter (λ kv, 0 < entry_len kv.2) d.

(** [load_worker_data], on the lines of the two files. *)
Definition load_worker_data (worker_log cpu_log : list string) (cfg : config)
    : result (gmap string entry) :=
  st ← worker_scan worker_log;
  d ← cpu_loop cfg (worker_dict st) cpu_log;
  Ok (prune d).

End worker.
End WorkerData.

(** * [download_master] and [download_slave]

    The two functions talk to a node of the cluster through an SSH client
    and write to the local disk. What the node and the disk answer is not
    part of [log.py]: the calls are the methods of the class [Cluster]
    below, over a state [W] of the world that they are free to change, and
    each of them may raise. The functions are run in a process that keeps
    the world, the calls made so far, in order, and what was printed. *)

Module Download.

(** The exceptions that matter to the two functions: the two that they
    catch, and any other, by name. *)
Inductive error :=
  | FileExistsError
  | FileNotFoundError
  | OtherError (name : string).

Inductive outcome (A : Type) : Type :=
  | Done (a : A)
  | Failed (e : error).
Arguments Done {A} a.
Arguments Failed {A} e.

(** The attributes of an instance that the functions read. *)
Record instance := MkInstance {
  public_dns_name : string;
  private_ip_address : string;
}.

(** [config["Spark"]["SparkHome"]] and [config["Control"]["CoreVM"]]. *)
Record cluster_config := ClusterConfig {
  SparkHome : string;
  Node : config;
}.

(** [sshclient_from_instance(i, KEY_PAIR_PATH, user_name='ubuntu')], the
    methods [listdir], [run] and [get_file] of the client of instance [i],
    and [os.makedirs]. *)
Class Cluster (W : Type) := {
  sshclient_from_instance : instance → W → outcome unit * W;
  listdir : instance → string → W → outcome (list string) * W;
  run : instance → string → W → outcome unit * W;
  get_file : instance → string → string → W → outcome unit * W;
  makedirs : string → W → outcome unit * W;
}.

Inductive call :=
  | Connect (i : instance)
  | Listdir (i : instance) (path : string)
  | Run (i : instance) (command : string)
  | GetFile (i : instance) (src dst : string)
  | Makedirs (path : string).

(** [str(n)] for an [int]. *)
Definition str (n : Z) : string := NilZero.string_of_int (Z.to_int n).

(** [s.replace(a, b)] for one-character [a] and [b]. *)
Fixpoint replace (a b : ascii) (s : string) : string :=
  match s with
  | EmptyString => EmptyString
  | String c s' => String (if Ascii.eqb c a then b else c) (replace a b s')
  end.

(** [a in s] for a one-character [a]. *)
Fixpoint has_char (a : ascii) (s : string) : bool :=
  match s with
  | EmptyString => false
  | String c s' => Ascii.eqb c a || has_char a s'
  end.

Section process.
Context {W : Type} `{!Cluster W}.

Record process := Process {
  world : W;
  calls : list call;
  stdout : list string;
}.

Definition io (A : Type) : Type := process → outcome A * process.

#[export] Instance io_ret : MRet io := λ A a p, (Done a, p).
#[export] Instance io_bind : MBind io := λ A B f m p,
  match m p with
  | (Done a, p') => f a p'
  | (Failed e, p') => (Failed e, p')
  end.

(** A call is recorded, and the world answers it. *)
Definition perform {A} (c : call) (op : W → outcome A * W) : io A := λ p,
  let '(r, w) := op (world p) in
  (r, Process w (calls p ++ [c]) (stdout p)).

Definition print (s : string) : io unit := λ p,
  (Done tt, Process (world p) (calls p) (stdout p ++ [s])).

(** [try: body except (catches): handler]; the handler finds the world
    as the body left it. *)
Definition try_io {A} (body : io A) (catches : error → bool) (handler : io A)
    : io A := λ p,
  match body p with
  | (Failed e, p') => if catches e then handler p' else (Failed e, p')
  | r => r
  end.

Definition catches_exists (e : error) : bool :=
  match e with FileExistsError => true | _ => false end.

Definition catches_not_found (e : error) : bool :=
  match e with FileNotFoundError => true | _ => false end.

(** The loop of lines 30-46 over the event files, with the two variables
    that it updates. *)
Fixpoint fetch_events (i : instance) (log_folder : string)
    (cfg : cluster_config) (files : list string)
    (output_folder app_id : string) : io (string * string) :=
  match files with
  | [] => mret (output_folder, app_id)
  | file :: rest =>
      print ("BENCHMARK: " +:+ file);;
      print ("LOG FOLDER: " +:+ log_folder);;
      print ("OUTPUT FOLDER: " +:+ output_folder);;
      let app_id := file in
      let output_folder :=
        if negb (String.eqb log_folder output_folder)
        then output_folder +:+ app_id else output_folder in
      try_io (perform (Makedirs output_folder) (makedirs output_folder))
        catches_exists (print "Output folder already exists");;
      let input_file := SparkHome cfg +:+ "spark-events/" +:+ file in
      let output_bz := input_file +:+ ".bz" in
      print "Bzipping event log...";;
      let command :=
        "pbzip2 -9 -p" +:+ str (CoreVM (Node cfg)) +:+ " -c " +:+ input_file
        +:+ " > " +:+ output_bz in
      perform (Run i command) (run i command);;
      let dst := output_folder +:+ "/" +:+ file +:+ ".bz" in
      perform (GetFile i output_bz dst) (get_file i output_bz dst);;
      fetch_events i log_folder cfg rest output_folder app_id
  end.

(** The loop of lines 47-51 over the files of the log folder. *)
Fixpoint fetch_logs (i : instance) (log_folder output_folder : string)
    (files : list string) : io unit :=
  match files with
  | [] => mret tt
  | file :: rest =>
      print file;;
      (if negb (String.eqb file "bench-report.dat") return io unit then
         let output_file := replace ":" "-" (output_folder +:+ "/" +:+ file) in
         perform (GetFile i (log_folder +:+ "/" +:+ file) output_file)
           (get_file i (log_folder +:+ "/" +:+ file) output_file)
       else mret tt);;
      fetch_logs i log_folder output_folder rest
  end.

(** [download_master], lines 20-52. *)
Definition download_master (i : instance) (output_folder log_folder : string)
    (cfg : cluster_config) : io (string * string) :=
  perform (Connect i) (sshclient_from_instance i);;
  let events_folder := SparkHome cfg +:+ "spark-events/" in
  events ← perform (Listdir i events_folder) (listdir i events_folder);
  r ← fetch_events i log_folder cfg events output_folder EmptyString;
  logs ← perform (Listdir i log_folder) (listdir i log_folder);
  fetch_logs i log_folder r.1 logs;;
  mret (r.1, r.2).

Definition kill_screens : string :=
  "screen -ls | grep Detached | cut -d. -f1 | awk '{print $1}' | xargs -r kill".

Definition worker_log_name (ip : string) : string :=
  "spark-ubuntu-org.apache.spark.deploy.worker.Worker-1-ip-" +:+ ip +:+ ".out".

(** The body of the first [try], lines 67-78. *)
Definition fetch_worker_log (i : instance) (output_folder : string)
    (cfg : cluster_config) : io unit :=
  let worker_ip_fixed := replace "." "-" (private_ip_address i) in
  let worker_log := SparkHome cfg +:+ "logs/" +:+ worker_log_name worker_ip_fixed in
  print worker_log;;
  perform (Run i kill_screens) (run i kill_screens);;
  let output_worker_log :=
    output_folder +:+ "/" +:+ worker_log_name (private_ip_address i) in
  perform (GetFile i worker_log output_worker_log)
    (get_file i worker_log output_worker_log);;
  let sar := "sar-" +:+ private_ip_address i +:+ ".log" in
  perform (GetFile i sar (output_folder +:+ "/" +:+ sar))
    (get_file i sar (output_folder +:+ "/" +:+ sar)).

(** The loop of lines 82-86 over the executors of the application. *)
Fixpoint fetch_executors (i : instance) (output_folder app_id : string)
    (cfg : cluster_config) (files : list string) : io unit :=
  match files with
  | [] => mret tt
  | file :: rest =>
      print ("Executor ID: " +:+ file);;
      let src :=
        SparkHome cfg +:+ "work/" +:+ app_id +:+ "/" +:+ file +:+ "/stderr" in
      let dst :=
        output_folder +:+ "/" +:+ public_dns_name i +:+ "-" +:+ file
        +:+ ".stderr" in
      perform (GetFile i src dst) (get_file i src dst);;
      fetch_executors i output_folder app_id cfg rest
  end.

(** The body of the second [try], lines 82-86. *)
Definition fetch_stderr (i : instance) (output_folder app_id : string)
    (cfg : cluster_config) : io unit :=
  let work := SparkHome cfg +:+ "work/" +:+ app_id +:+ "/" in
  files ← perform (Listdir i work) (listdir i work);
  fetch_executors i output_folder app_id cfg files.

(** [download_slave], lines 55-89. *)
Definition download_slave (i : instance) (output_folder app_id : string)
    (cfg : cluster_config) : io string :=
  perform (Connect i) (sshclient_from_instance i);;
  print ("Downloading log from slave: " +:+ public_dns_name i);;
  try_io (fetch_worker_log i output_folder cfg) catches_not_found
    (print "worker log not found");;
  try_io (fetch_stderr i output_folder app_id cfg) catches_not_found
    (print "stderr not found");;
  mret output_folder.

End process.
End Download.

(** * A clock for the worked examples

    Times of day, counted in microseconds from midnight: [HH:MM:SS] for the
    scheduler and controller logs, [HH:MM:SS AM|PM] for the telemetry
    log. *)

Module WallClock.

(** A field of one or two digits with a value in [lo, hi]. *)
Definition field (lo hi : Z) (s : string) : result Z :=
  if (String.length s =? 1)%nat || (String.length s =? 2)%nat then
    match Py.int_digits s 0 false with
    | Some v => if ((lo <=? v) && (v <=? hi))%Z then Ok v else Raise ValueError
    | None => Raise ValueError
    end
  else Raise ValueError.

Definition micros (h m s : Z) : Z := (((h * 60 + m) * 60 + s) * 1000000)%Z.

(** [HH:MM:SS], the hour in [lo, hi]. *)
Definition hms (lo hi : Z) (s : string) : result (Z * Z * Z) :=
  match Py.split ":" s with
  | [h; m; sec] =>
      h' ← field lo hi h; m' ← field 0 59 m; s' ← field 0 61 sec;
      Ok (h', m', s')
  | _ => Raise ValueError
  end.

Definition parse_24h (s : string) : result Z :=
  '(h, m, sec) ← hms 0 23 s; Ok (micros h m sec).

Definition parse_12h (s : string) : result Z :=
  match Py.split " " s with
  | [t; half] =>
      '(h, m, sec) ← hms 1 12 t;
      let w := Py.lowercase half in
      if String.eqb w "am" then Ok (micros (h mod 12) m sec)
      else if String.eqb w "pm" then Ok (micros (h mod 12 + 12) m sec)
      else Raise ValueError
  | _ => Raise ValueError
  end.

(** [d + timedelta(milliseconds=ms)]: the milliseconds are rounded to a
    whole number of microseconds. *)
Definition plus_ms (d : Z) (ms : float) : result Z :=
  match Prim2SF ms with
  | S754_nan => Raise ValueError
  | S754_infinity _ => Raise OverflowError
  | S754_zero _ => Ok d
  | S754_finite s m e =>
      let us :=
        if (0 <=? e)%Z then (Zpos m * 1000 * 2 ^ e)%Z
        else Py.div_half_even (Zpos m * 1000) (2 ^ (- e)) in
      if (86399999999999999999 <? us)%Z then Raise OverflowError
      else Ok (if s then d - us else d + us)%Z
  end.

#[export] Instance clock : Clock Z := {|
  string_to_datetime := parse_24h;
  add_milliseconds := plus_ms;
  strptime_sar := parse_12h;
|}.

End WallClock.

(** * Logs for the worked examples *)

Module Logs.

Definition line (s : string) : string := s +:+ Py.nl.

Definition connected (app : string) : string :=
  line ("17/03/01 12:00:00 INFO StandaloneSchedulerBackend: Connected to Spark cluster with app ID " +:+ app).

Definition submitting (stage tasks : string) : string :=
  line ("17/03/01 12:00:01 INFO DAGScheduler: Submitting " +:+ tasks
        +:+ " missing tasks from ResultStage " +:+ stage
        +:+ " (MapPartitionsRDD[1] at map at Job.scala:31)").

Definition task_finished (ts task : string) : string :=
  line ("17/03/01 " +:+ ts +:+ " INFO TaskSetManager: Finished task " +:+ task
        +:+ " in stage 0.0 (TID " +:+ task +:+ ") in 57 ms on 10.0.0.4 (executor 0)").

Definition stage_finished (ts stage : string) : string :=
  line ("17/03/01 " +:+ ts +:+ " INFO DAGScheduler: ResultStage " +:+ stage
        +:+ " (count at Job.scala:31) finished in 11.230 s").

Definition init (ts stage deadline : string) : string :=
  line ("17/03/01 " +:+ ts
        +:+ " INFO ControllerJob: SEND INIT TO EXECUTOR CONTROLLER EID 0, SID "
        +:+ stage +:+ ", TASK 10, DL " +:+ deadline +:+ ", C 8").

Definition needed (app : string) : string :=
  line ("17/03/01 12:00:30 INFO ControllerJob: SEND NEEDED CORE TO MASTER " +:+ app).

Definition created (ts stage cores : string) : string :=
  line ("17/03/01 " +:+ ts +:+ " INFO Worker: Created ControllerExecutor: 0 , "
        +:+ stage +:+ " , 80330 , 10 , " +:+ cores).

Definition scaled (app : string) : string :=
  line ("17/03/01 12:00:00 INFO Worker: Scaled executorId 0  of appId " +:+ app
        +:+ " to  8 Core").

Definition progress (ts value : string) : string :=
  line ("17/03/01 " +:+ ts +:+ " INFO ControllerExecutor: SP Updated: " +:+ value).

Definition sar (ts util : string) : string :=
  line (ts +:+ "    all    " +:+ util +:+ "    0.00    1.25    0.10    0.00    48.65").

(** The end-to-end scenario of the specification: one registration of
    [app-1], one submission of stage 0 with 10 tasks, 10 task-finished lines
    and one stage-finished line. *)
Definition task_stamps : list string :=
  ["12:00:02"; "12:00:03"; "12:00:04"; "12:00:05"; "12:00:06";
   "12:00:07"; "12:00:08"; "12:00:09"; "12:00:10"; "12:00:11"].

Definition task_ids : list string :=
  ["0.0"; "1.0"; "2.0"; "3.0"; "4.0"; "5.0"; "6.0"; "7.0"; "8.0"; "9.0"].

Definition scenario : list string :=
  connected "app-1" :: submitting "0" "10"
  :: zip_with task_finished task_stamps task_ids
  ++ [stage_finished "12:00:12" "0"].

End Logs.

(** * A cluster for the worked examples

    Two event files and three files in the log folder of the master; a
    node with two executors, whose files are all there except the ones
    listed as missing. The world is the list of the local folders made so
    far. *)

Module Testbed.
Import Download.

Definition master : instance := MkInstance "ec2-master" "10.0.0.4".
Definition slave : instance := MkInstance "ec2-slave" "10.0.0.5".

Definition settings : cluster_config :=
  ClusterConfig "/opt/spark/" (Config false 4).

Definition missing : list string :=
  ["/opt/spark/logs/spark-ubuntu-org.apache.spark.deploy.worker.Worker-1-ip-10-0-0-5.out"].

Definition listing (path : string) : outcome (list string) :=
  if String.eqb path "/opt/spark/spark-events/" then Done ["app-1"; "app-2"]
  else if String.eqb path "/var/log/bench" then
    Done ["app.dat"; "bench-report.dat"; "run:1.log"]
  else if String.eqb path "/opt/spark/work/app-2/" then Done ["0"; "1"]
  else Failed FileNotFoundError.

#[export] Instance cluster : Cluster (list string) := {|
  sshclient_from_instance i w := (Done tt, w);
  listdir i path w := (listing path, w);
  run i command w := (Done tt, w);
  get_file i src dst w :=
    (if Py.contains src missing then Failed FileNotFoundError else Done tt, w);
  makedirs path w :=
    if Py.contains path w then (Failed FileExistsError, w)
    else (Done tt, path :: w);
|}.

Definition start : @process (list string) := Process [] [] [].

End Testbed.

(** * Vocabulary of the specification *)


(** A line of the telemetry report that carries a sample: its first field
    [l0] has neither the word [Linux] nor a lone newline, its second field
    [l1] is not the column header, and [l0] is not [Average:]. *)
Definition data_line (l0 l1 : string) : bool :=
  negb (Py.contains "Linux" (Py.split " " l0)
        || Py.contains Py.nl (Py.split " " l0))
  && negb (String.eqb l1 " CPU")
  && negb (String.eqb l0 "Average:").

(** The lengths of the three series of an application, as the
    specification relates them. *)
Definition series_bounded {datetime} (p : @AppData.plot_series datetime) : Prop :=
  length (AppData.finishTimeStages p) ≤ length (AppData.startTimeStages p)
  ∧ length (AppData.startTimeStages p)
    ≤ length (AppData.dealineTimeStages p) + 1.

(** What the loop of [load_app_data] maintains: a start time and a
    deadline are appended together. *)
Definition series_in_step {datetime} (p : @AppData.plot_series datetime) : Prop :=
  length (AppData.finishTimeStages p) ≤ length (AppData.startTimeStages p)
  ∧ length (AppData.startTimeStages p) = length (AppData.dealineTimeStages p).

(** A line that [load_app_data] does not take for an event: at most 3
    tokens, or a component tag (the token of index 3) that is none of the
    four the parser knows. *)
Definition component_tags : list string :=
  ["TaskSetManager:"; "StandaloneSchedulerBackend:"; "DAGScheduler:";
   "ControllerJob:"].

Definition no_event (line : list string) : Prop :=
  length line ≤ 3 ∨ ∃ tag, line !! 3 = Some tag ∧ tag ∉ component_tags.

(** ** Further vocabulary *)

(** A registration line for [app], on the tokens of the line: the tag
    of the scheduler backend, then [Connected]; the application is the last
    token without the blanks at its end. *)
Definition registers (line : list string) (app : string) : Prop :=
  line !! 3 = Some "StandaloneSchedulerBackend:"
  ∧ line !! 4 = Some "Connected"
  ∧ Py.rstrip <$> last line = Some app.

(** What the scan keeps of every stage record: it has a task count, its
    start and its deadline are set together, and its list of task
    timestamps, once it exists, is not empty. *)
Definition stage_consistent {datetime} (s : @AppData.stage_info datetime)
    : Prop :=
  is_Some (AppData.tasks s)
  ∧ (is_Some (AppData.start s) ↔ is_Some (AppData.deadline s))
  ∧ AppData.tasktimestamps s ≠ Some [].

(** What every stage of a worker holds once its [Created] line is read: a
    core sample, a speed-up sample, and as many timestamps as progress
    samples. *)
Definition series_filled {datetime} (s : @WorkerData.stage_series datetime)
    : Prop :=
  length (WorkerData.time s) = length (WorkerData.sp s)
  ∧ 0 < length (WorkerData.sp s)
  ∧ 0 < length (WorkerData.cpu s)
  ∧ 0 < length (WorkerData.sp_real s).

(** The other events of the end-to-end scenario, on the tokens of a
    line. A submission line of [n] tasks for the stage [stage]: *)
Definition submits (line : list string) (stage n : Z) : Prop :=
  line !! 3 = Some "DAGScheduler:"
  ∧ line !! 4 = Some "Submitting"
  ∧ line !! 6 = Some "missing"
  ∧ Py.item line 10 ≫= Py.int = Ok stage
  ∧ Py.item line 5 ≫= Py.int = Ok n.

(** A task-finished line of the stage [stage], with timestamp [t]. *)
Definition finishes_task {datetime} `{!Clock datetime}
    (line : list string) (stage : Z) (t : datetime) : Prop :=
  line !! 3 = Some "TaskSetManager:"
  ∧ line !! 4 = Some "Finished"
  ∧ AppData.finished_stage_id line = Ok stage
  ∧ Py.item line 1 ≫= string_to_datetime = Ok t.

(** A stage-finished line of the stage [stage], with timestamp [t]: a
    line of the scheduler that is no submission line (its token 4 is not
    [Submitting], or its token 6 is there and is not [missing]) and whose
    fourth token from the end is [finished]. *)
Definition finishes_stage {datetime} `{!Clock datetime}
    (line : list string) (stage : Z) (t : datetime) : Prop :=
  line !! 3 = Some "DAGScheduler:"
  ∧ (line !! 4 ≠ Some "Submitting"
     ∨ ∃ l6, line !! 6 = Some l6 ∧ l6 ≠ "missing")
  ∧ Py.item line (-4) = Ok "finished"
  ∧ Py.item line 5 ≫= Py.int = Ok stage
  ∧ Py.item line 1 ≫= string_to_datetime = Ok t.



(** * Properties *)

(** ** The error monad *)

Lemma bind_Ok {A B} (m : result A) (f : A → result B) b :
  m ≫= f = Ok b ↔ ∃ a, m = Ok a ∧ f a = Ok b.
Proof.
  destruct m as [a|e]; simpl; split.
  - eauto.
  - by intros (? & [= <-] & ?).
  - discriminate.
  - by intros (? & [=] & ?).
Qed.

Lemma bind_Raise {A B} (m : result A) (f : A → result B) e :
  m = Raise e → m ≫= f = Raise e.
Proof. by intros ->. Qed.

Lemma and_then_Ok a b c :
  and_then a b = Ok c ↔ (a = false ∧ c = false) ∨ (a = true ∧ b = Ok c).
Proof.
  destruct a; simpl; split; auto.
  - intros [[[=] _]|[_ ?]]; done.
  - intros [= <-]. auto.
  - intros [[_ ->]|[[=] _]]; done.
Qed.

Lemma getitem_Ok {K V} `{Countable K} (d : gmap K V) k v :
  getitem d k = Ok v ↔ d !! k = Some v.
Proof. unfold getitem. destruct (d !! k); naive_solver. Qed.

(** Hypotheses [m ≫= f = Ok b] are split into their steps. *)
Ltac ok_steps :=
  repeat match goal with
  | H : Ok _ = Ok _ |- _ => injection H as H; try subst
  | H : Raise _ = Ok _ |- _ => discriminate H
  | H : _ ≫= _ = Ok _ |- _ =>
      apply bind_Ok in H; destruct H as (? & ? & H)
  | H : getitem _ _ = Ok _ |- _ => apply getitem_Ok in H
  end.

(** The same, with a case split at every conditional on the way. *)
Ltac ok_cases :=
  repeat (ok_steps;
          try match goal with
          | H : (if ?c then _ else _) = Ok _ |- _ => destruct c eqn:?
          end).

(** ** Indexing a line *)

Lemma item_ge {A} (l : list A) (i : Z) :
  (Z.of_nat (length l) <= i)%Z → Py.item l i = Raise IndexError.
Proof.
  intros Hi. unfold Py.item.
  destruct (Z.ltb_spec i 0) as [|_]; [lia|].
  destruct (Z.ltb_spec i 0) as [|_]; [lia|].
  rewrite (lookup_ge_None_2 l (Z.to_nat i)) by lia. done.
Qed.

Lemma item_lookup {A} (l : list A) (i : Z) x :
  (0 <= i)%Z → l !! Z.to_nat i = Some x → Py.item l i = Ok x.
Proof.
  intros Hi Hx. unfold Py.item.
  destruct (Z.ltb_spec i 0) as [|_]; [lia|].
  destruct (Z.ltb_spec i 0) as [|_]; [lia|].
  by rewrite Hx.
Qed.

Lemma item_Ok_lookup {A} (l : list A) (i : Z) x :
  (0 <= i)%Z → Py.item l i = Ok x → l !! Z.to_nat i = Some x.
Proof.
  intros Hi. unfold Py.item.
  destruct (Z.ltb_spec i 0) as [|_]; [lia|].
  destruct (Z.ltb_spec i 0) as [|_]; [lia|].
  destruct (l !! Z.to_nat i); [by intros [= ->]|done].
Qed.

Lemma more_than_three {A} (l : list A) (n : nat) x :
  l !! n = Some x → 3 ≤ n → (3 <? length l) = true.
Proof.
  intros Hx%lookup_lt_Some ?. apply Nat.ltb_lt. lia.
Qed.

(** ** Multiplying a float by one *)



(** ** Numerals *)

(** [int] and [float] do not skip the separators FS to US, which
    [str.rstrip] strips; they skip the newline and the space. *)
Lemma int_float_blanks :
  Py.int (String (ascii_of_nat 28) "5") = Raise ValueError
  ∧ Py.int ("0" +:+ String (ascii_of_nat 31) EmptyString) = Raise ValueError
  ∧ Py.float (String (ascii_of_nat 28) "-45.0") = Raise ValueError
  ∧ Py.rstrip ("5" +:+ String (ascii_of_nat 28) EmptyString) = "5"
  ∧ Py.int (" 5" +:+ Py.nl) = Ok 5%Z
  ∧ Py.float (" -45.0" +:+ Py.nl) = Py.float "-45.0".
Proof. split_and!; vm_compute; reflexivity. Qed.

(** [int] reads a numeral of 4300 digits and refuses one of 4301. *)
Lemma int_longest_numeral :
  Py.int (string_of_list_ascii (repeat "0"%char 4300)) = Ok 0%Z
  ∧ Py.int (string_of_list_ascii (repeat "0"%char 4301)) = Raise ValueError.
Proof. split; vm_compute; reflexivity. Qed.
























(** ** The scan of the worker log *)

Section worker_properties.
Context {datetime : Type} `{!Clock datetime}.
Import WorkerData.

Local Abbreviation worker_state := (@worker_state datetime).
Local Abbreviation stage_series := (@stage_series datetime).
Local Abbreviation entry := (@entry datetime).
Local Abbreviation worker_init := (@worker_init datetime).
Implicit Types (st : worker_state) (s : stage_series) (e : entry).
Implicit Types (d : gmap string entry) (stages : gmap Z stage_series).

Lemma worker_loop_app st pre post :
  worker_loop st (pre ++ post)
  = st' ← worker_loop st pre; worker_loop st' post.
Proof.
  revert st. induction pre as [|l pre IH]; intros st; simpl; [done|].
  destruct (worker_line st l); simpl; [apply IH|done].
Qed.

Lemma worker_tokens_four st (line : list string) :
  length line = 4 → worker_tokens st line = Raise IndexError.
Proof.
  intros Hlen. unfold worker_tokens. rewrite Hlen. simpl.
  rewrite (item_ge line 4) by lia. done.
Qed.

(** C10. A line of the worker log with more than 3 tokens has its token
    of index 4 read before any kind of event is matched: a line of
    exactly 4 tokens raises IndexError whatever the state, and the
    exception leaves the loop and [load_worker_data]. *)
Theorem worker_line_four_tokens st pre line post cpu_log cfg :
  length (Py.split " " line) = 4 →
  worker_scan pre = Ok st →
  worker_line st line = Raise IndexError
  ∧ worker_scan (pre ++ line :: post) = Raise IndexError
  ∧ load_worker_data (pre ++ line :: post) cpu_log cfg = Raise IndexError.
Proof.
  intros Hlen Hpre.
  assert (Hline : worker_line st line = Raise IndexError)
    by (by apply worker_tokens_four).
  assert (Hscan : worker_scan (pre ++ line :: post) = Raise IndexError).
  { unfold worker_scan in *. rewrite worker_loop_app, Hpre. simpl.
    by rewrite Hline. }
  split_and!; [done..|].
  unfold load_worker_data. by rewrite Hscan.
Qed.

Lemma prune_lookup (d : gmap string entry) k e :
  prune d !! k = Some e ↔ d !! k = Some e ∧ 0 < entry_len e.
Proof. unfold prune. by rewrite map_lookup_filter_Some. Qed.

(** C9. Every key of the dictionary that [load_worker_data] returns maps to
    a container of positive length, and a key that maps to an empty dict
    of stages when the two scans end is absent from it. *)
Theorem load_worker_data_pruned worker_log cpu_log cfg (d : gmap string entry) :
  load_worker_data worker_log cpu_log cfg = Ok d →
  ∃ st d0,
    worker_scan worker_log = Ok st
    ∧ cpu_loop cfg (worker_dict st) cpu_log = Ok d0
    ∧ (∀ k e, d !! k = Some e → 0 < entry_len e ∧ d0 !! k = Some e)
    ∧ (∀ app, d0 !! app = Some (App ∅) → d !! app = None).
Proof.
  unfold load_worker_data. intros Hd. ok_steps.
  eexists _, _. split_and!; [done..| |].
  - intros k e [? ?]%prune_lookup. done.
  - intros app Happ.
    destruct (prune _ !! app) as [e|] eqn:He; [|done].
    apply prune_lookup in He as [He Hlen].
    rewrite Happ in He. injection He as <-. simpl in Hlen.
    rewrite map_size_empty in Hlen. lia.
Qed.

Lemma progress_event_line st raw line stages s ts t (v : float) :
  line = Py.split " " raw →
  line !! 4 = Some "SP" →
  line !! 1 = Some ts →
  app_id st ≠ EmptyString →
  worker_dict st !! app_id st = Some (App stages) →
  stages !! sid st = Some s →
  string_to_datetime ts = Ok t →
  last_float line = Ok v →
  worker_line st raw
  = Ok (put_series st stages (sid st)
          (StageSeries (cpu s) (time s ++ [t]) (sp_real s)
             (sp s ++ [if (v <? 0)%float then (PrimFloat.abs v / 100)%float
                       else v]))).
Proof.
  intros -> H4 H1 Happ Hstages Hs Ht Hv.
  unfold worker_line, worker_tokens.
  rewrite (more_than_three _ _ _ H4) by lia.
  rewrite (item_lookup _ 4 _ ltac:(lia) H4). simpl.
  apply String.eqb_neq in Happ. rewrite Happ. simpl.
  unfold progress_event, app_stages, getitem.
  rewrite Hstages. simpl. rewrite Hs. simpl.
  rewrite (item_lookup _ 1 _ ltac:(lia) H1). simpl. rewrite Ht. simpl.
  rewrite Hv. done.
Qed.

(** C7. A progress line ([SP]) met with a current application and a
    current stage appends the timestamp and the progress value [v] of its
    last token: [abs(v) / 100] when [v < 0], and [v] otherwise. The text
    [-45.0] stores what [0.45] reads as, and [0.7] is stored as it is. *)
Theorem progress_event_stored :
  (∀ st raw line stages s ts t (v : float),
     line = Py.split " " raw →
     line !! 4 = Some "SP" →
     line !! 1 = Some ts →
     app_id st ≠ EmptyString →
     worker_dict st !! app_id st = Some (App stages) →
     stages !! sid st = Some s →
     string_to_datetime ts = Ok t →
     last_float line = Ok v →
     worker_line st raw
     = Ok (put_series st stages (sid st)
             (StageSeries (cpu s) (time s ++ [t]) (sp_real s)
                (sp s ++ [if (v <? 0)%float
                          then (PrimFloat.abs v / 100)%float else v]))))
  ∧ normalize <$> Py.float "-45.0" = Py.float "0.45"
  ∧ normalize <$> Py.float "0.7" = Py.float "0.7".
Proof.
  split; [|split; vm_compute; reflexivity].
  intros. by eapply progress_event_line.
Qed.

(** *** The telemetry log *)





End worker_properties.

(** ** The scan of the coordinator log *)

Section coordinator_properties.
Context {datetime : Type} `{!Clock datetime}.
Import AppData.

Local Abbreviation app_state := (@app_state datetime).
Local Abbreviation stage_info := (@stage_info datetime).
Local Abbreviation plot_series := (@plot_series datetime).
Local Abbreviation empty_plot := (@empty_plot datetime).
Local Abbreviation empty_stage := (@empty_stage datetime).
Local Abbreviation app_init := (@app_init datetime).
Implicit Types (st : app_state) (p plot : plot_series).
Implicit Types (stage : stage_info) (stages : gmap Z stage_info).

Lemma app_loop_app st pre post :
  app_loop st (pre ++ post) = st' ← app_loop st pre; app_loop st' post.
Proof.
  revert st. induction pre as [|l pre IH]; intros st; simpl; [done|].
  destruct (app_line st l); simpl; [apply IH|done].
Qed.

Lemma try_except_Ok {A} (body handler : result A) catches a :
  try_except body catches handler = Ok a → body = Ok a ∨ handler = Ok a.
Proof.
  unfold try_except. destruct body; [auto|]. destruct (catches e); [auto|done].
Qed.

(** *** The series of every application stay in step *)

Definition plots_in_step (st : app_state) : Prop :=
  ∀ app p, dict_to_plot st !! app = Some p → series_in_step p.

Lemma plots_in_step_insert st d app p :
  plots_in_step st → series_in_step p →
  dict_to_plot d = <[app := p]> (dict_to_plot st) →
  plots_in_step d.
Proof.
  intros Hst Hp Hd app' p'. rewrite Hd.
  destruct (decide (app = app')) as [->|Hne].
  - rewrite lookup_insert_eq. by intros [= <-].
  - rewrite lookup_insert_ne by done. apply Hst.
Qed.

Lemma plots_in_step_same st d :
  plots_in_step st → dict_to_plot d = dict_to_plot st → plots_in_step d.
Proof. intros Hst Hd app p. rewrite Hd. apply Hst. Qed.

Lemma empty_plot_in_step : series_in_step empty_plot.
Proof. split; simpl; lia. Qed.

Lemma append_tasktimestamp_plot st line st' :
  append_tasktimestamp st line = Ok st' → dict_to_plot st' = dict_to_plot st.
Proof. unfold append_tasktimestamp. intros Hst. by ok_steps. Qed.

Lemma reset_tasktimestamps_plot st line st' :
  reset_tasktimestamps st line = Ok st' → dict_to_plot st' = dict_to_plot st.
Proof. unfold reset_tasktimestamps. intros Hst. by ok_steps. Qed.

Lemma task_finished_plot st line st' :
  task_finished st line = Ok st' → dict_to_plot st' = dict_to_plot st.
Proof.
  unfold task_finished. intros [Hst|Hst]%try_except_Ok.
  - by eapply append_tasktimestamp_plot.
  - apply bind_Ok in Hst as (st1 & H1 & H2).
    apply reset_tasktimestamps_plot in H1.
    apply append_tasktimestamp_plot in H2. congruence.
Qed.

Lemma connected_in_step st line st' :
  connected st line = Ok st' → plots_in_step st → plots_in_step st'.
Proof.
  unfold connected. intros Hst Hinv. ok_steps.
  eapply plots_in_step_insert; [done|apply empty_plot_in_step|done].
Qed.

(** The last step of the three lemmas below: the plots are those of [st],
    or one of them is replaced by a plot that is in step. *)
Ltac in_step_finish Hinv :=
  simpl in *;
  first
    [ by eapply plots_in_step_same
    | eapply plots_in_step_insert; [exact Hinv| |done];
      first
        [ apply empty_plot_in_step
        | match goal with
          | Hp : dict_to_plot _ !! _ = Some _ |- _ =>
              destruct (Hinv _ _ Hp) as [? ?]
          end;
          repeat match goal with
          | E : (_ <? _) = true |- _ => apply Nat.ltb_lt in E
          end;
          split; simpl; rewrite ?length_app; simpl; lia ] ].

Lemma dag_scheduler_in_step st line st' :
  dag_scheduler st line = Ok st' → plots_in_step st → plots_in_step st'.
Proof.
  unfold dag_scheduler. intros Hst Hinv. ok_cases; in_step_finish Hinv.
Qed.

Lemma controller_job_in_step st line st' :
  controller_job st line = Ok st' → plots_in_step st → plots_in_step st'.
Proof.
  unfold controller_job. intros Hst Hinv. ok_cases; in_step_finish Hinv.
Qed.

Lemma app_tokens_in_step st line st' :
  app_tokens st line = Ok st' → plots_in_step st → plots_in_step st'.
Proof.
  unfold app_tokens. intros Hst Hinv. ok_cases;
    eauto using connected_in_step, dag_scheduler_in_step,
      controller_job_in_step.
  eapply plots_in_step_same; [done|by eapply task_finished_plot].
Qed.

Lemma app_loop_in_step st app_log st' :
  app_loop st app_log = Ok st' → plots_in_step st → plots_in_step st'.
Proof.
  revert st. induction app_log as [|l ls IH]; intros st; simpl.
  - by intros [= <-].
  - intros (st1 & H1 & H2)%bind_Ok Hinv.
    eapply IH; [done|]. by eapply app_tokens_in_step.
Qed.

Lemma app_init_in_step : plots_in_step app_init.
Proof. intros app p. simpl. by rewrite lookup_empty. Qed.

(** C3. After a parse of the coordinator log that did not raise, and after
    every line on the way, each application of the plot mapping has
    [len(finishTimeStages) <= len(startTimeStages)
     <= len(dealineTimeStages) + 1]. *)
Theorem app_scan_series_bounded pre post st :
  app_scan (pre ++ post) = Ok st →
  (∀ app p, dict_to_plot st !! app = Some p → series_bounded p)
  ∧ ∃ st_pre,
      app_scan pre = Ok st_pre
      ∧ ∀ app p, dict_to_plot st_pre !! app = Some p → series_bounded p.
Proof.
  unfold app_scan. rewrite app_loop_app.
  intros (st_pre & Hpre & Hpost)%bind_Ok.
  pose proof (app_loop_in_step _ _ _ Hpre app_init_in_step) as Hin_pre.
  pose proof (app_loop_in_step _ _ _ Hpost Hin_pre) as Hin.
  assert (Hweak : ∀ p, series_in_step p → series_bounded p).
  { intros p [? ?]. split; [done|lia]. }
  split; [|exists st_pre; split; [done|]]; intros app p Hp; eauto.
Qed.

(** *** Every application of [app_info] has plot series *)

Definition plots_cover (st : app_state) : Prop :=
  ∀ app, is_Some (app_info st !! app) → is_Some (dict_to_plot st !! app).

Lemma put_stage_cover st stages stage_id v :
  app_info st !! app_id st = Some stages →
  plots_cover st → plots_cover (put_stage st stages stage_id v).
Proof.
  intros Hstages Hst app. simpl.
  destruct (decide (app_id st = app)) as [<-|Hne].
  - intros _. apply Hst. by rewrite Hstages.
  - rewrite lookup_insert_ne by done. apply Hst.
Qed.

Lemma put_plot_cover st p : plots_cover st → plots_cover (put_plot st p).
Proof.
  intros Hst app Happ. simpl in *.
  destruct (decide (app_id st = app)) as [<-|Hne].
  - by rewrite lookup_insert_eq.
  - rewrite lookup_insert_ne by done. by apply Hst.
Qed.

Lemma append_tasktimestamp_cover st line st' :
  append_tasktimestamp st line = Ok st' → plots_cover st → plots_cover st'.
Proof.
  unfold append_tasktimestamp. intros Hst Hinv. ok_steps.
  by apply put_stage_cover.
Qed.

Lemma reset_tasktimestamps_cover st line st' :
  reset_tasktimestamps st line = Ok st' → plots_cover st → plots_cover st'.
Proof.
  unfold reset_tasktimestamps. intros Hst Hinv. ok_steps.
  by apply put_stage_cover.
Qed.

Lemma connected_cover st id p m id' :
  plots_cover st →
  plots_cover (AppState (<[id := p]> (dict_to_plot st))
                 (<[id := m]> (app_info st)) id').
Proof.
  intros Hst app. simpl.
  destruct (decide (id = app)) as [<-|Hne].
  - by rewrite !lookup_insert_eq.
  - rewrite !lookup_insert_ne by done. apply Hst.
Qed.

Lemma handoff_cover st id p id' :
  plots_cover st →
  plots_cover (AppState (<[id := p]> (dict_to_plot st)) (app_info st) id').
Proof.
  intros Hst app Happ. simpl in *.
  destruct (decide (id = app)) as [<-|Hne].
  - by rewrite lookup_insert_eq.
  - rewrite lookup_insert_ne by done. by apply Hst.
Qed.

Lemma app_tokens_cover st line st' :
  app_tokens st line = Ok st' → plots_cover st → plots_cover st'.
Proof.
  unfold app_tokens, task_finished, connected, dag_scheduler, controller_job.
  intros Hst Hinv. ok_cases;
    repeat match goal with
    | H : try_except _ _ _ = Ok _ |- _ =>
        apply try_except_Ok in H as [H|H]; ok_steps
    end;
    eauto 6 using append_tasktimestamp_cover, reset_tasktimestamps_cover,
      put_stage_cover, put_plot_cover, connected_cover, handoff_cover.
Qed.

Lemma app_loop_cover st app_log st' :
  app_loop st app_log = Ok st' → plots_cover st → plots_cover st'.
Proof.
  revert st. induction app_log as [|l ls IH]; intros st; simpl.
  - by intros [= <-].
  - intros (st1 & H1 & H2)%bind_Ok Hinv.
    eapply IH; [done|]. by eapply app_tokens_cover.
Qed.

(** C1, as amended. When the scan of the log does not raise,
    [load_app_data] has built the ApplicationRecord mapping and plot series
    for every application of it, and what it returns is the
    ApplicationRecord mapping alone. *)
Theorem load_app_data_returns_app_info app_log
    (r : gmap string (gmap Z stage_info)) :
  load_app_data app_log = Ok r
  ↔ ∃ st, app_scan app_log = Ok st
          ∧ r = app_info st
          ∧ ∀ app, is_Some (r !! app) → is_Some (dict_to_plot st !! app).
Proof.
  unfold load_app_data. split.
  - intros Hr. ok_steps. eexists. split_and!; [done..|].
    eapply app_loop_cover; [done|].
    intros app. simpl. rewrite lookup_empty. by intros [? ?].
  - intros (st & -> & -> & _). done.
Qed.

(** C2, as amended. A line that is no event is skipped and leaves the
    state as it is; an exception that a line raises is caught nowhere: it
    ends the scan and [load_app_data]. *)
Theorem app_line_skips_or_aborts pre line post st :
  app_scan pre = Ok st →
  (no_event (Py.split " " line) →
     app_line st line = Ok st ∧ app_scan (pre ++ [line]) = Ok st)
  ∧ (∀ e, app_line st line = Raise e →
       app_scan (pre ++ line :: post) = Raise e
       ∧ load_app_data (pre ++ line :: post) = Raise e).
Proof.
  intros Hpre. split.
  - intros Hno.
    assert (Hline : app_line st line = Ok st).
    { unfold app_line, app_tokens.
      destruct Hno as [Hlen|(tag & Htag & Hnot)].
      - by destruct (Nat.ltb_spec 3 (length (Py.split " " line))); [lia|].
      - rewrite (more_than_three _ _ _ Htag) by lia.
        rewrite (item_lookup _ 3 _ ltac:(lia) Htag). simpl.
        unfold component_tags in Hnot.
        rewrite !not_elem_of_cons in Hnot.
        destruct Hnot as (H1 & H2 & H3 & H4 & _).
        apply String.eqb_neq in H1, H2, H3, H4.
        by rewrite H1, H2, H3, H4. }
    split; [done|].
    unfold app_scan in *. rewrite app_loop_app, Hpre. simpl. by rewrite Hline.
  - intros e Hline.
    assert (Hscan : app_scan (pre ++ line :: post) = Raise e).
    { unfold app_scan in *. rewrite app_loop_app, Hpre. simpl.
      by rewrite Hline. }
    split; [done|]. unfold load_app_data. by rewrite Hscan.
Qed.

(** C6, as amended. A hand-off line ([ControllerJob: SEND NEEDED]) whose
    last token, newlines removed, differs from the current application
    makes it the current application and sets its plot series to three
    empty lists, whether or not it had series before; [app_info] is left
    alone. A hand-off to the current application changes nothing. *)
Theorem handoff_resets_series st raw line last :
  line = Py.split " " raw →
  line !! 3 = Some "ControllerJob:" →
  line !! 4 = Some "SEND" →
  line !! 5 = Some "NEEDED" →
  Py.item line (-1) = Ok last →
  app_line st raw
  = Ok (let next_app_id := Py.remove_char (ascii_of_nat 10) last in
        if decide (app_id st = next_app_id) then st
        else AppState (<[next_app_id := empty_plot]> (dict_to_plot st))
               (app_info st) next_app_id).
Proof.
  intros -> H3 H4 H5 Hlast.
  unfold app_line, app_tokens.
  rewrite (more_than_three _ _ _ H3) by lia.
  rewrite (item_lookup _ 3 _ ltac:(lia) H3). simpl.
  unfold controller_job.
  rewrite (item_lookup _ 5 _ ltac:(lia) H5). simpl.
  rewrite (item_lookup _ 4 _ ltac:(lia) H4). simpl.
  rewrite Hlast. simpl.
  destruct (decide _) as [Heq|Hne].
  - apply String.eqb_eq in Heq. by rewrite Heq.
  - apply String.eqb_neq in Hne. by rewrite Hne.
Qed.

(** *** Single events *)

(** A task-finished line for a stage that exists appends its timestamp; the
    list is created when the stage has none yet. *)
Lemma task_finished_line st raw line stages stage l9 x stage_id ts t :
  line = Py.split " " raw →
  line !! 3 = Some "TaskSetManager:" →
  line !! 4 = Some "Finished" →
  line !! 9 = Some l9 →
  Py.float l9 = Ok x →
  Py.int_of_float x = Ok stage_id →
  line !! 1 = Some ts →
  string_to_datetime ts = Ok t →
  app_info st !! app_id st = Some stages →
  stages !! stage_id = Some stage →
  app_line st raw
  = Ok (put_stage st stages stage_id
          (set_tasktimestamps (default [] (tasktimestamps stage) ++ [t]) stage)).
Proof.
  intros -> H3 H4 H9 Hx Hid H1 Ht Hstages Hstage.
  unfold app_line, app_tokens.
  rewrite (more_than_three _ _ _ H3) by lia.
  rewrite (item_lookup _ 3 _ ltac:(lia) H3). simpl.
  rewrite (item_lookup _ 4 _ ltac:(lia) H4). simpl.
  unfold task_finished, append_tasktimestamp, reset_tasktimestamps,
    finished_stage_id, getitem.
  rewrite Hstages. simpl.
  rewrite (item_lookup _ 9 _ ltac:(lia) H9). simpl.
  rewrite Hx. simpl. rewrite Hid. simpl. rewrite Hstage. simpl.
  rewrite (item_lookup _ 1 _ ltac:(lia) H1). simpl.
  destruct (tasktimestamps stage) as [stamps|] eqn:Hstamps; simpl.
  - by rewrite Ht.
  - rewrite !lookup_insert_eq. simpl. rewrite Ht. simpl.
    rewrite lookup_insert_eq. simpl.
    unfold put_stage. simpl. by rewrite !insert_insert_eq.
Qed.

(** A stage-finished line for a stage that exists sets its [end], and
    appends it to the finish times when a start is pending. *)
Lemma stage_finished_line st raw line l4 l5 stage_id ts t stages stage plot :
  line = Py.split " " raw →
  line !! 3 = Some "DAGScheduler:" →
  line !! 4 = Some l4 → l4 ≠ "Submitting" →
  Py.item line (-4) = Ok "finished" →
  app_id st ≠ EmptyString →
  line !! 5 = Some l5 →
  Py.int l5 = Ok stage_id →
  line !! 1 = Some ts →
  string_to_datetime ts = Ok t →
  app_info st !! app_id st = Some stages →
  stages !! stage_id = Some stage →
  dict_to_plot st !! app_id st = Some plot →
  app_line st raw
  = Ok (let st1 := put_stage st stages stage_id (set_end t stage) in
        if length (finishTimeStages plot) <? length (startTimeStages plot)
        then put_plot st1
               (PlotSeries (dealineTimeStages plot) (startTimeStages plot)
                  (finishTimeStages plot ++ [t]))
        else st1).
Proof.
  intros -> H3 H4 Hl4 Hfin Happ H5 Hid H1 Ht Hstages Hstage Hplot.
  unfold app_line, app_tokens.
  rewrite (more_than_three _ _ _ H3) by lia.
  rewrite (item_lookup _ 3 _ ltac:(lia) H3). simpl.
  unfold dag_scheduler.
  rewrite (item_lookup _ 4 _ ltac:(lia) H4). simpl.
  apply String.eqb_neq in Hl4. rewrite Hl4. simpl.
  rewrite Hfin. simpl.
  apply String.eqb_neq in Happ. rewrite Happ. simpl.
  rewrite (item_lookup _ 5 _ ltac:(lia) H5). simpl. rewrite Hid. simpl.
  rewrite (item_lookup _ 1 _ ltac:(lia) H1). simpl. rewrite Ht. simpl.
  unfold getitem. rewrite Hstages. simpl. rewrite Hstage. simpl.
  rewrite Hplot. simpl.
  by destruct (_ <? _).
Qed.

End coordinator_properties.

(** ** More of the coordinator log *)

Section coordinator_more.
Context {datetime : Type} `{!Clock datetime}.
Import AppData.

Local Abbreviation app_state := (@app_state datetime).
Local Abbreviation stage_info := (@stage_info datetime).
Local Abbreviation plot_series := (@plot_series datetime).
Local Abbreviation empty_plot := (@empty_plot datetime).
Local Abbreviation app_init := (@app_init datetime).
Implicit Types (st : app_state) (p plot : plot_series).
Implicit Types (stage : stage_info) (stages : gmap Z stage_info).

(** *** A predicate kept by every plot series *)

Section plots_all.
Variable P : plot_series → Prop.
Hypothesis P_empty : P empty_plot.
Hypothesis P_finish : ∀ p t,
  P p → length (finishTimeStages p) < length (startTimeStages p) →
  P (PlotSeries (dealineTimeStages p) (startTimeStages p)
       (finishTimeStages p ++ [t])).
Hypothesis P_init : ∀ p t d,
  P p → length (dealineTimeStages p) < length (finishTimeStages p) + 1 →
  P (PlotSeries (dealineTimeStages p ++ [d]) (startTimeStages p ++ [t])
       (finishTimeStages p)).

Definition plots_all st : Prop :=
  ∀ app p, dict_to_plot st !! app = Some p → P p.

Lemma plots_all_insert st st' app p :
  plots_all st → P p →
  dict_to_plot st' = <[app := p]> (dict_to_plot st) →
  plots_all st'.
Proof.
  intros Hst Hp Hd app' p'. rewrite Hd.
  destruct (decide (app = app')) as [->|Hne].
  - rewrite lookup_insert_eq. by intros [= <-].
  - rewrite lookup_insert_ne by done. apply Hst.
Qed.

Lemma plots_all_same st st' :
  plots_all st → dict_to_plot st' = dict_to_plot st → plots_all st'.
Proof. intros Hst Hd app p. rewrite Hd. apply Hst. Qed.

Ltac plots_all_finish Hinv :=
  simpl in *;
  first
    [ by eapply plots_all_same
    | eapply plots_all_insert; [exact Hinv| |done];
      first
        [ apply P_empty
        | match goal with
          | Hp : dict_to_plot _ !! _ = Some _ |- _ =>
              pose proof (Hinv _ _ Hp)
          end;
          repeat match goal with
          | E : (_ <? _) = true |- _ => apply Nat.ltb_lt in E
          end;
          first [ by apply P_finish | by apply P_init ] ] ].

Lemma app_tokens_plots_all st line st' :
  app_tokens st line = Ok st' → plots_all st → plots_all st'.
Proof.
  unfold app_tokens, task_finished, connected, dag_scheduler, controller_job,
    append_tasktimestamp, reset_tasktimestamps.
  intros Hst Hinv. ok_cases;
    repeat match goal with
    | H : try_except _ _ _ = Ok _ |- _ =>
        apply try_except_Ok in H as [H|H]; ok_steps
    end;
    plots_all_finish Hinv.
Qed.

Lemma app_loop_plots_all st app_log st' :
  app_loop st app_log = Ok st' → plots_all st → plots_all st'.
Proof.
  revert st. induction app_log as [|l ls IH]; intros st; simpl.
  - by intros [= <-].
  - intros (st1 & H1 & H2)%bind_Ok Hinv.
    eapply IH; [done|]. by eapply app_tokens_plots_all.
Qed.

End plots_all.

(** X1. When the scan ends, every application has as many start times as
    deadlines, at most as many finish times as start times, and at most
    one start time more than finish times: at most one stage is
    pending. *)
Theorem app_scan_one_pending app_log st :
  app_scan app_log = Ok st →
  ∀ app p, dict_to_plot st !! app = Some p →
    length (startTimeStages p) = length (dealineTimeStages p)
    ∧ length (finishTimeStages p) ≤ length (startTimeStages p)
    ∧ length (startTimeStages p) ≤ length (finishTimeStages p) + 1.
Proof.
  intros Hscan.
  apply (app_loop_plots_all
           (λ p, length (startTimeStages p) = length (dealineTimeStages p)
                 ∧ length (finishTimeStages p) ≤ length (startTimeStages p)
                 ∧ length (startTimeStages p) ≤ length (finishTimeStages p) + 1))
    with (st := app_init) (app_log := app_log); try done.
  - simpl. lia.
  - intros p t (? & ? & ?) ?. simpl. rewrite length_app. simpl. lia.
  - intros p t d (? & ? & ?) ?. simpl. rewrite !length_app. simpl. lia.
Qed.

(** *** The applications of [app_info] *)

Lemma item_last {A} (l : list A) x :
  last l = Some x → Py.item l (-1) = Ok x.
Proof.
  rewrite last_lookup. intros Hx.
  assert (0 < length l) by (apply lookup_lt_Some in Hx; lia).
  unfold Py.item. simpl.
  destruct (Z.ltb_spec (-1 + Z.of_nat (length l)) 0) as [|_]; [lia|].
  replace (Z.to_nat (-1 + Z.of_nat (length l))) with (pred (length l)) by lia.
  by rewrite Hx.
Qed.

Lemma item_last_inv {A} (l : list A) x :
  Py.item l (-1) = Ok x → last l = Some x.
Proof.
  rewrite last_lookup. unfold Py.item. simpl.
  destruct (Z.ltb_spec (-1 + Z.of_nat (length l)) 0) as [|Hn]; [done|].
  replace (Z.to_nat (-1 + Z.of_nat (length l))) with (pred (length l)) by lia.
  by destruct (l !! pred (length l)); intros [= ->].
Qed.

Lemma put_stage_keys st stages stage_id v app :
  app_info st !! app_id st = Some stages →
  is_Some (app_info (put_stage st stages stage_id v) !! app)
  ↔ is_Some (app_info st !! app).
Proof.
  intros Hstages. simpl.
  destruct (decide (app_id st = app)) as [<-|Hne].
  - rewrite lookup_insert_eq, Hstages. split; eauto.
  - by rewrite lookup_insert_ne.
Qed.

(** The branch that a line takes: the registration branch exactly when the
    line is a registration line. *)
Lemma app_tokens_branch st line st' :
  app_tokens st line = Ok st' →
  (line !! 3 = Some "StandaloneSchedulerBackend:"
   ∧ line !! 4 = Some "Connected"
   ∧ connected st line = Ok st')
  ∨ (¬ (line !! 3 = Some "StandaloneSchedulerBackend:"
        ∧ line !! 4 = Some "Connected")
     ∧ (st' = st
        ∨ task_finished st line = Ok st'
        ∨ dag_scheduler st line = Ok st'
        ∨ controller_job st line = Ok st')).
Proof.
  unfold app_tokens. intros Hst.
  destruct (Nat.ltb_spec 3 (length line)) as [Hlen|Hlen].
  2:{ injection Hst as <-. right. split; [|auto].
      intros [H3%lookup_lt_Some _]. lia. }
  apply bind_Ok in Hst as (l3 & H3 & Hst).
  apply item_Ok_lookup in H3; [|lia]. change (Z.to_nat 3) with 3 in H3.
  apply bind_Ok in Hst as (c1 & Hc1 & Hst).
  apply and_then_Ok in Hc1 as [[Ht ->]|[Ht Hc1]].
  2:{ apply String.eqb_eq in Ht as ->.
      right. split; [intros [? _]; congruence|].
      destruct c1; [auto|].
      apply bind_Ok in Hst as (c2 & Hc2 & Hst).
      simpl in Hc2. injection Hc2 as <-.
      simpl in Hst. injection Hst as <-. auto. }
  apply bind_Ok in Hst as (c2 & Hc2 & Hst).
  apply and_then_Ok in Hc2 as [[Hs ->]|[Hs Hc2]].
  - apply String.eqb_neq in Hs.
    right. split; [intros [? _]; congruence|].
    destruct (String.eqb l3 "DAGScheduler:"); [auto|].
    destruct (String.eqb l3 "ControllerJob:"); [auto|].
    injection Hst as <-. auto.
  - apply String.eqb_eq in Hs as ->.
    apply bind_Ok in Hc2 as (l4 & H4 & Hc2).
    apply item_Ok_lookup in H4; [|lia]. change (Z.to_nat 4) with 4 in H4.
    injection Hc2 as <-.
    destruct (String.eqb l4 "Connected") eqn:Hl4.
    + apply String.eqb_eq in Hl4 as ->. auto.
    + apply String.eqb_neq in Hl4. simpl in Hst. injection Hst as <-.
      right. split; [intros [_ ?]; congruence|auto].
Qed.

Lemma task_finished_keys st line st' app :
  task_finished st line = Ok st' →
  is_Some (app_info st' !! app) ↔ is_Some (app_info st !! app).
Proof.
  unfold task_finished, append_tasktimestamp, reset_tasktimestamps.
  intros [Hst|Hst]%try_except_Ok; ok_steps.
  - by apply put_stage_keys.
  - rewrite put_stage_keys by done. by apply put_stage_keys.
Qed.

Lemma dag_scheduler_keys st line st' app :
  dag_scheduler st line = Ok st' →
  is_Some (app_info st' !! app) ↔ is_Some (app_info st !! app).
Proof.
  unfold dag_scheduler. intros Hst. ok_cases; try done;
    by apply put_stage_keys.
Qed.

Lemma controller_job_keys st line st' app :
  controller_job st line = Ok st' →
  is_Some (app_info st' !! app) ↔ is_Some (app_info st !! app).
Proof.
  unfold controller_job. intros Hst. ok_cases; try done.
  by apply put_stage_keys.
Qed.

Lemma app_tokens_keys st line st' app :
  app_tokens st line = Ok st' →
  is_Some (app_info st' !! app)
  ↔ is_Some (app_info st !! app) ∨ registers line app.
Proof.
  intros [(H3 & H4 & Hst)|(Hno & Hst)]%app_tokens_branch.
  - unfold connected in Hst. ok_steps.
    match goal with H : Py.item _ _ = Ok _ |- _ =>
      apply item_last_inv in H; rename H into Hlast end.
    unfold registers. simpl. rewrite Hlast. simpl.
    destruct (decide (Py.rstrip x = app)) as [<-|Hne].
    + rewrite lookup_insert_eq. split; [auto|eauto].
    + rewrite lookup_insert_ne by done. split; [auto|].
      intros [?|(_ & _ & [=])]; done.
  - assert (is_Some (app_info st' !! app) ↔ is_Some (app_info st !! app))
      as ->.
    { destruct Hst as [->|[Hst|[Hst|Hst]]];
        eauto using task_finished_keys, dag_scheduler_keys,
          controller_job_keys. }
    split; [auto|]. intros [?|(? & ? & _)]; [done|]. destruct Hno; auto.
Qed.

(** X2. The applications of the mapping that [load_app_data] returns are
    those of the registration lines of the log. *)
Theorem load_app_data_keys app_log (r : gmap string (gmap Z stage_info)) app :
  load_app_data app_log = Ok r →
  is_Some (r !! app)
  ↔ ∃ raw, raw ∈ app_log ∧ registers (Py.split " " raw) app.
Proof.
  unfold load_app_data, app_scan. intros Hr. ok_steps.
  match goal with H : app_loop _ _ = Ok ?s |- _ =>
    rename H into Hloop; rename s into st end.
  assert (Hgen : ∀ (log : list string) st0 st1,
    app_loop st0 log = Ok st1 →
    is_Some (app_info st1 !! app)
    ↔ is_Some (app_info st0 !! app)
      ∨ ∃ raw, raw ∈ log ∧ registers (Py.split " " raw) app).
  { induction log as [|l ls IH]; intros st0 st1; simpl.
    - intros [= <-]. split; [auto|].
      intros [?|(raw & []%elem_of_nil & _)]; done.
    - intros (st2 & H1 & H2)%bind_Ok.
      rewrite (IH _ _ H2), (app_tokens_keys _ _ _ _ H1). split.
      + intros [[?|?]|(raw & ? & ?)]; [auto|right..].
        * exists l. split; [left|done].
        * exists raw. split; [by right|done].
      + intros [?|(raw & [->|?]%elem_of_cons & ?)]; [auto..|].
        right. by exists raw. }
  rewrite (Hgen _ _ _ Hloop). simpl. rewrite lookup_empty. split.
  - intros [[? [=]]|?]; done.
  - auto.
Qed.

(** *** Events of the coordinator log, one by one *)

Lemma item_from_end {A} (l : list A) (k : nat) :
  0 < k ≤ length l → ∃ x, Py.item l (- Z.of_nat k) = Ok x.
Proof.
  intros Hk. unfold Py.item.
  destruct (Z.ltb_spec (- Z.of_nat k) 0) as [_|]; [|lia].
  destruct (Z.ltb_spec (- Z.of_nat k + Z.of_nat (length l)) 0) as [|_]; [lia|].
  destruct (lookup_lt_is_Some_2 l
              (Z.to_nat (- Z.of_nat k + Z.of_nat (length l)))) as [x Hx];
    [lia|].
  rewrite Hx. eauto.
Qed.

(** X3. A task-finished line for a stage that exists appends its timestamp
    to the task timestamps of the stage; the list is created by the first
    such line. *)
Theorem task_finished_appends st raw line stages stage l9 x stage_id ts t :
  line = Py.split " " raw →
  line !! 3 = Some "TaskSetManager:" →
  line !! 4 = Some "Finished" →
  line !! 9 = Some l9 →
  Py.float l9 = Ok x →
  Py.int_of_float x = Ok stage_id →
  line !! 1 = Some ts →
  string_to_datetime ts = Ok t →
  app_info st !! app_id st = Some stages →
  stages !! stage_id = Some stage →
  app_line st raw
  = Ok (put_stage st stages stage_id
          (set_tasktimestamps (default [] (tasktimestamps stage) ++ [t]) stage)).
Proof. apply task_finished_line. Qed.

(** X4. A task-finished line for a stage that was not submitted, or met
    with a current application that is not registered, raises KeyError:
    the handler of lines 136-139 runs into the same missing key. *)
Theorem task_finished_unknown_stage st raw line l9 x stage_id :
  line = Py.split " " raw →
  line !! 3 = Some "TaskSetManager:" →
  line !! 4 = Some "Finished" →
  line !! 9 = Some l9 →
  Py.float l9 = Ok x →
  Py.int_of_float x = Ok stage_id →
  app_info st !! app_id st ≫= (.!! stage_id) = None →
  app_line st raw = Raise KeyError.
Proof.
  intros -> H3 H4 H9 Hx Hid Hnone.
  unfold app_line, app_tokens.
  rewrite (more_than_three _ _ _ H3) by lia.
  rewrite (item_lookup _ 3 _ ltac:(lia) H3). simpl.
  rewrite (item_lookup _ 4 _ ltac:(lia) H4). simpl.
  unfold task_finished, append_tasktimestamp, reset_tasktimestamps,
    finished_stage_id, getitem.
  destruct (app_info st !! app_id st) as [stages|]; simpl in *; [|done].
  rewrite (item_lookup _ 9 _ ltac:(lia) H9). simpl.
  rewrite Hx. simpl. rewrite Hid. simpl. by rewrite Hnone.
Qed.

(** X5. A [DAGScheduler:] line that is no submission is ignored as long as
    no application is current, whatever its other fields are. *)
Theorem dag_line_without_application st raw line l4 :
  line = Py.split " " raw →
  line !! 3 = Some "DAGScheduler:" →
  line !! 4 = Some l4 →
  l4 ≠ "Submitting" →
  app_id st = EmptyString →
  app_line st raw = Ok st.
Proof.
  intros -> H3 H4 Hl4 Happ.
  unfold app_line, app_tokens.
  rewrite (more_than_three _ _ _ H3) by lia.
  rewrite (item_lookup _ 3 _ ltac:(lia) H3). simpl.
  unfold dag_scheduler.
  rewrite (item_lookup _ 4 _ ltac:(lia) H4). simpl.
  apply String.eqb_neq in Hl4. rewrite Hl4. simpl.
  destruct (item_from_end (Py.split " " raw) 4) as [l Hl].
  { apply lookup_lt_Some in H4. lia. }
  change (- Z.of_nat 4)%Z with (-4)%Z in Hl. rewrite Hl. simpl. rewrite Happ.
  by destruct (String.eqb l "finished").
Qed.

(** X6. A submission line met with a current application that is not
    registered (as before the first registration line) raises KeyError. *)
Theorem submission_without_registration st raw line l10 stage_id :
  line = Py.split " " raw →
  line !! 3 = Some "DAGScheduler:" →
  line !! 4 = Some "Submitting" →
  line !! 6 = Some "missing" →
  line !! 10 = Some l10 →
  Py.int l10 = Ok stage_id →
  app_info st !! app_id st = None →
  app_line st raw = Raise KeyError.
Proof.
  intros -> H3 H4 H6 H10 Hid Hnone.
  unfold app_line, app_tokens.
  rewrite (more_than_three _ _ _ H3) by lia.
  rewrite (item_lookup _ 3 _ ltac:(lia) H3). simpl.
  unfold dag_scheduler.
  rewrite (item_lookup _ 4 _ ltac:(lia) H4). simpl.
  rewrite (item_lookup _ 6 _ ltac:(lia) H6). simpl.
  rewrite (item_lookup _ 10 _ ltac:(lia) H10). simpl.
  rewrite Hid. simpl. unfold getitem. by rewrite Hnone.
Qed.

(** X7. A controller INIT line is ignored, unread, while the current
    application has more deadlines than finish times, that is while a
    stage is pending. *)
Theorem init_ignored_while_pending st raw line plot :
  line = Py.split " " raw →
  line !! 3 = Some "ControllerJob:" →
  line !! 5 = Some "INIT" →
  dict_to_plot st !! app_id st = Some plot →
  length (finishTimeStages plot) < length (dealineTimeStages plot) →
  app_line st raw = Ok st.
Proof.
  intros -> H3 H5 Hplot Hlen.
  unfold app_line, app_tokens.
  rewrite (more_than_three _ _ _ H3) by lia.
  rewrite (item_lookup _ 3 _ ltac:(lia) H3). simpl.
  unfold controller_job.
  rewrite (item_lookup _ 5 _ ltac:(lia) H5). simpl.
  unfold getitem. rewrite Hplot. simpl.
  by destruct (Nat.ltb_spec (length (dealineTimeStages plot))
                 (length (finishTimeStages plot) + 1)); [lia|].
Qed.

(** X8. A controller INIT line that is taken sets the start of its stage to
    the timestamp of the line and the deadline to that start plus the
    milliseconds of the line, and appends both to the plot series. *)
Theorem init_sets_start_and_deadline
    st raw line plot l12 stage_id ts t l16 ms d stages stage :
  line = Py.split " " raw →
  line !! 3 = Some "ControllerJob:" →
  line !! 5 = Some "INIT" →
  dict_to_plot st !! app_id st = Some plot →
  length (dealineTimeStages plot) ≤ length (finishTimeStages plot) →
  line !! 12 = Some l12 →
  Py.int (Py.remove_char "," l12) = Ok stage_id →
  line !! 1 = Some ts →
  string_to_datetime ts = Ok t →
  app_info st !! app_id st = Some stages →
  stages !! stage_id = Some stage →
  line !! 16 = Some l16 →
  Py.float (Py.remove_char "," l16) = Ok ms →
  add_milliseconds t ms = Ok d →
  app_line st raw
  = Ok (put_plot
          (put_stage st stages stage_id (set_deadline d (set_start t stage)))
          (PlotSeries (dealineTimeStages plot ++ [d])
             (startTimeStages plot ++ [t]) (finishTimeStages plot))).
Proof.
  intros -> H3 H5 Hplot Hlen H12 Hid H1 Ht Hstages Hstage H16 Hms Hd.
  unfold app_line, app_tokens.
  rewrite (more_than_three _ _ _ H3) by lia.
  rewrite (item_lookup _ 3 _ ltac:(lia) H3). simpl.
  unfold controller_job.
  rewrite (item_lookup _ 5 _ ltac:(lia) H5). simpl.
  unfold getitem. rewrite Hplot. simpl.
  destruct (Nat.ltb_spec (length (dealineTimeStages plot))
              (length (finishTimeStages plot) + 1)); [|lia].
  rewrite (item_lookup _ 12 _ ltac:(lia) H12). simpl. rewrite Hid. simpl.
  rewrite (item_lookup _ 1 _ ltac:(lia) H1). simpl. rewrite Ht. simpl.
  rewrite Hstages. simpl. rewrite Hstage. simpl.
  rewrite (item_lookup _ 16 _ ltac:(lia) H16). simpl. rewrite Hms. simpl.
  rewrite (item_last (startTimeStages plot ++ [t]) t)
    by apply last_snoc.
  simpl. by rewrite Hd.
Qed.

(** X9. A registration line makes its application the current one and sets
    both its stage records and its plot series to empty ones: what an
    earlier registration of the same application had collected is
    dropped. *)
Theorem registration_resets st raw line l :
  line = Py.split " " raw →
  line !! 3 = Some "StandaloneSchedulerBackend:" →
  line !! 4 = Some "Connected" →
  last line = Some l →
  app_line st raw
  = Ok (AppState (<[Py.rstrip l := empty_plot]> (dict_to_plot st))
          (<[Py.rstrip l := ∅]> (app_info st)) (Py.rstrip l)).
Proof.
  intros -> H3 H4 Hlast.
  unfold app_line, app_tokens.
  rewrite (more_than_three _ _ _ H3) by lia.
  rewrite (item_lookup _ 3 _ ltac:(lia) H3). simpl.
  rewrite (item_lookup _ 4 _ ltac:(lia) H4). simpl.
  unfold connected. by rewrite (item_last _ _ Hlast).
Qed.

(** *** The stage records of [app_info] *)

Definition stages_consistent st : Prop :=
  ∀ app stages k stage,
    app_info st !! app = Some stages → stages !! k = Some stage →
    stage_consistent stage.

Lemma stages_consistent_put st stages k v :
  stages_consistent st →
  app_info st !! app_id st = Some stages →
  stage_consistent v →
  stages_consistent (put_stage st stages k v).
Proof.
  intros Hst Hstages Hv app stages' j stage. simpl.
  destruct (decide (app_id st = app)) as [<-|Hne].
  - rewrite lookup_insert_eq. intros [= <-].
    destruct (decide (k = j)) as [<-|Hkj].
    + rewrite lookup_insert_eq. by intros [= <-].
    + rewrite lookup_insert_ne by done. intros Hj. by eapply Hst.
  - rewrite lookup_insert_ne by done. apply Hst.
Qed.

(** What a task-finished line does when it does not raise. *)
Lemma task_finished_Ok st line st' :
  task_finished st line = Ok st' →
  ∃ stages k stage t,
    app_info st !! app_id st = Some stages ∧ stages !! k = Some stage
    ∧ st' = put_stage st stages k
              (set_tasktimestamps (default [] (tasktimestamps stage) ++ [t])
                 stage).
Proof.
  unfold task_finished, append_tasktimestamp, reset_tasktimestamps, getitem,
    getkey.
  intros Hst.
  destruct (app_info st !! app_id st) as [stages|] eqn:Hstages;
    simpl in Hst; [|done].
  destruct (finished_stage_id line) as [k|e] eqn:Hk;
    simpl in Hst; [|by destruct e; simpl in Hst].
  destruct (stages !! k) as [stage|] eqn:Hstage; simpl in Hst; [|done].
  exists stages, k, stage.
  do 2 (rewrite ?lookup_insert_eq in Hst; simpl in Hst).
  destruct (tasktimestamps stage) as [stamps|] eqn:Hstamps; simpl in Hst.
  - destruct (Py.item line 1) as [l1|e]; simpl in Hst; [|by destruct e; simpl in Hst].
    destruct (string_to_datetime l1) as [t|e]; simpl in Hst;
      [|by destruct e; simpl in Hst].
    injection Hst as <-. by exists t.
  - destruct (Py.item line 1) as [l1|e]; simpl in Hst; [|done].
    destruct (string_to_datetime l1) as [t|e]; simpl in Hst; [|done].
    injection Hst as <-. exists t. split_and!; [done..|].
    unfold put_stage. simpl. by rewrite !insert_insert_eq.
Qed.

Lemma task_finished_consistent st line st' :
  task_finished st line = Ok st' →
  stages_consistent st → stages_consistent st'.
Proof.
  intros (stages & k & stage & t & Hstages & Hstage & ->)%task_finished_Ok
    Hinv.
  apply stages_consistent_put; [done..|].
  destruct (Hinv _ _ _ _ Hstages Hstage) as (? & ? & ?).
  split_and!; [done..|]. simpl. intros [= []%app_eq_nil]. done.
Qed.

Lemma connected_consistent st line st' :
  connected st line = Ok st' →
  stages_consistent st → stages_consistent st'.
Proof.
  unfold connected. intros Hst Hinv. ok_steps.
  intros app stages k stage. simpl.
  match goal with
  | |- <[?a := _]> _ !! _ = _ → _ =>
      destruct (decide (a = app)) as [<-|Hne]
  end.
  - rewrite lookup_insert_eq. intros [= <-]. by rewrite lookup_empty.
  - rewrite lookup_insert_ne by done. apply Hinv.
Qed.

Lemma stages_consistent_same st st' :
  app_info st' = app_info st → stages_consistent st → stages_consistent st'.
Proof. intros Heq Hst app stages k stage. rewrite Heq. apply Hst. Qed.

(** The record that an event stores is consistent when the one it
    updates is. *)
Ltac consistent_put Hinv :=
  try match goal with
  | |- stages_consistent (put_plot ?s _) =>
      apply (stages_consistent_same s); [done|]
  end;
  apply stages_consistent_put; [done..|];
  try match goal with
  | Hs : app_info _ !! _ = Some ?m, Hk : ?m !! _ = Some _ |- _ =>
      destruct (Hinv _ _ _ _ Hs Hk) as (? & ? & ?)
  end;
  split_and!; simpl;
  [ eauto
  | first [ done | split; by eauto | split; intros []; done ]
  | done ].

Lemma dag_scheduler_consistent st line st' :
  dag_scheduler st line = Ok st' →
  stages_consistent st → stages_consistent st'.
Proof.
  unfold dag_scheduler. intros Hst Hinv. ok_cases; try done;
    consistent_put Hinv.
Qed.

Lemma controller_job_consistent st line st' :
  controller_job st line = Ok st' →
  stages_consistent st → stages_consistent st'.
Proof.
  unfold controller_job. intros Hst Hinv. ok_cases; try done;
    first [ by eapply stages_consistent_same | consistent_put Hinv ].
Qed.

Lemma app_tokens_consistent st line st' :
  app_tokens st line = Ok st' →
  stages_consistent st → stages_consistent st'.
Proof.
  intros [(_ & _ & Hst)|(_ & [->|[Hst|[Hst|Hst]]])]%app_tokens_branch;
    eauto using connected_consistent, task_finished_consistent,
      dag_scheduler_consistent, controller_job_consistent.
Qed.

(** X10. Every stage record of the mapping that [load_app_data] returns has
    a task count; its start and its deadline are both set or both unset;
    and its list of task timestamps, when it has one, is not empty. *)
Theorem load_app_data_stages_consistent app_log
    (r : gmap string (gmap Z stage_info)) app stages k stage :
  load_app_data app_log = Ok r →
  r !! app = Some stages → stages !! k = Some stage →
  stage_consistent stage.
Proof.
  unfold load_app_data, app_scan. intros Hr. ok_steps.
  match goal with H : app_loop _ _ = Ok ?s |- _ =>
    rename H into Hloop; rename s into st end.
  assert (Hgen : ∀ (log : list string) st0 st1,
    app_loop st0 log = Ok st1 →
    stages_consistent st0 → stages_consistent st1).
  { induction log as [|l ls IH]; intros st0 st1; simpl.
    - by intros [= <-].
    - intros (st2 & H1 & H2)%bind_Ok Hinv.
      eapply IH; [done|]. by eapply app_tokens_consistent. }
  apply (Hgen _ _ _ Hloop). intros ? ? ? ?. simpl. by rewrite lookup_empty.
Qed.

(** X11. A submission line sets the record of its stage to one that holds
    the task count alone: a stage that is submitted again loses its
    start, deadline, end and task timestamps. *)
Theorem submission_replaces_stage st raw line l10 stage_id l5 n stages :
  line = Py.split " " raw →
  line !! 3 = Some "DAGScheduler:" →
  line !! 4 = Some "Submitting" →
  line !! 6 = Some "missing" →
  line !! 10 = Some l10 →
  Py.int l10 = Ok stage_id →
  line !! 5 = Some l5 →
  Py.int l5 = Ok n →
  app_info st !! app_id st = Some stages →
  app_line st raw
  = Ok (put_stage st stages stage_id
          (StageInfo (Some n) None None None None)).
Proof.
  intros -> H3 H4 H6 H10 Hid H5 Hn Hstages.
  unfold app_line, app_tokens.
  rewrite (more_than_three _ _ _ H3) by lia.
  rewrite (item_lookup _ 3 _ ltac:(lia) H3). simpl.
  unfold dag_scheduler.
  rewrite (item_lookup _ 4 _ ltac:(lia) H4). simpl.
  rewrite (item_lookup _ 6 _ ltac:(lia) H6). simpl.
  rewrite (item_lookup _ 10 _ ltac:(lia) H10). simpl.
  rewrite Hid. simpl. unfold getitem. rewrite Hstages. simpl.
  rewrite (item_lookup _ 5 _ ltac:(lia) H5). simpl. by rewrite Hn.
Qed.

(** X12. A stage-finished line for a stage that exists sets the [end] of the
    stage to the timestamp of the line, and appends that timestamp to the
    finish times of the application exactly when a start is pending. *)
Theorem stage_finished_records_end
    st raw line l4 l5 stage_id ts t stages stage plot :
  line = Py.split " " raw →
  line !! 3 = Some "DAGScheduler:" →
  line !! 4 = Some l4 → l4 ≠ "Submitting" →
  Py.item line (-4) = Ok "finished" →
  app_id st ≠ EmptyString →
  line !! 5 = Some l5 →
  Py.int l5 = Ok stage_id →
  line !! 1 = Some ts →
  string_to_datetime ts = Ok t →
  app_info st !! app_id st = Some stages →
  stages !! stage_id = Some stage →
  dict_to_plot st !! app_id st = Some plot →
  app_line st raw
  = Ok (let st1 := put_stage st stages stage_id (set_end t stage) in
        if length (finishTimeStages plot) <? length (startTimeStages plot)
        then put_plot st1
               (PlotSeries (dealineTimeStages plot) (startTimeStages plot)
                  (finishTimeStages plot ++ [t]))
        else st1).
Proof. apply stage_finished_line. Qed.

End coordinator_more.

(** ** The end-to-end scenario *)

Section coordinator_scenario.
Context {datetime : Type} `{!Clock datetime}.
Import AppData.

Local Abbreviation app_state := (@app_state datetime).
Local Abbreviation stage_info := (@stage_info datetime).
Local Abbreviation plot_series := (@plot_series datetime).
Local Abbreviation empty_plot := (@empty_plot datetime).
Local Abbreviation empty_stage := (@empty_stage datetime).
Local Abbreviation app_init := (@app_init datetime).
Implicit Types (st : app_state) (p plot : plot_series).
Implicit Types (stage : stage_info) (stages : gmap Z stage_info).

Lemma item_bind_Ok {A} (line : list string) (i : Z) (f : string → result A) a :
  (0 <= i)%Z →
  Py.item line i ≫= f = Ok a →
  ∃ l, line !! Z.to_nat i = Some l ∧ f l = Ok a.
Proof.
  intros Hi (l & Hl & Hf)%bind_Ok. exists l. split; [|done].
  by apply item_Ok_lookup.
Qed.

Lemma registration_line st raw line app :
  line = Py.split " " raw →
  registers line app →
  app_line st raw
  = Ok (AppState (<[app := empty_plot]> (dict_to_plot st))
          (<[app := ∅]> (app_info st)) app).
Proof.
  intros -> (H3 & H4 & Hlast).
  destruct (last (Py.split " " raw)) as [l|] eqn:Hl; [|done].
  injection Hlast as <-.
  unfold app_line, app_tokens.
  rewrite (more_than_three _ _ _ H3) by lia.
  rewrite (item_lookup _ 3 _ ltac:(lia) H3). simpl.
  rewrite (item_lookup _ 4 _ ltac:(lia) H4). simpl.
  unfold connected. by rewrite (item_last _ _ Hl).
Qed.

Lemma submission_line st raw line stage_id n stages :
  line = Py.split " " raw →
  submits line stage_id n →
  app_info st !! app_id st = Some stages →
  app_line st raw
  = Ok (put_stage st stages stage_id (set_tasks n empty_stage)).
Proof.
  intros -> (H3 & H4 & H6 & H10 & H5) Hstages.
  apply item_bind_Ok in H10 as (l10 & H10 & Hid); [|lia].
  apply item_bind_Ok in H5 as (l5 & H5 & Hn); [|lia].
  change (Z.to_nat 10) with 10 in H10. change (Z.to_nat 5) with 5 in H5.
  unfold app_line, app_tokens.
  rewrite (more_than_three _ _ _ H3) by lia.
  rewrite (item_lookup _ 3 _ ltac:(lia) H3). simpl.
  unfold dag_scheduler.
  rewrite (item_lookup _ 4 _ ltac:(lia) H4). simpl.
  rewrite (item_lookup _ 6 _ ltac:(lia) H6). simpl.
  rewrite (item_lookup _ 10 _ ltac:(lia) H10). simpl.
  rewrite Hid. simpl. unfold getitem. rewrite Hstages. simpl.
  rewrite (item_lookup _ 5 _ ltac:(lia) H5). simpl. by rewrite Hn.
Qed.

Lemma task_line st raw line stage_id t stages stage :
  line = Py.split " " raw →
  finishes_task line stage_id t →
  app_info st !! app_id st = Some stages →
  stages !! stage_id = Some stage →
  app_line st raw
  = Ok (put_stage st stages stage_id
          (set_tasktimestamps (default [] (tasktimestamps stage) ++ [t]) stage)).
Proof.
  intros Hline (H3 & H4 & Hid & H1) Hstages Hstage.
  unfold finished_stage_id in Hid.
  apply item_bind_Ok in Hid as (l9 & H9 & Hid); [|lia].
  apply bind_Ok in Hid as (x & Hx & Hid).
  apply item_bind_Ok in H1 as (ts & H1 & Ht); [|lia].
  change (Z.to_nat 9) with 9 in H9. change (Z.to_nat 1) with 1 in H1.
  by eapply task_finished_line.
Qed.

Lemma finished_line st raw line stage_id t stages stage plot :
  line = Py.split " " raw →
  finishes_stage line stage_id t →
  app_id st ≠ EmptyString →
  app_info st !! app_id st = Some stages →
  stages !! stage_id = Some stage →
  dict_to_plot st !! app_id st = Some plot →
  app_line st raw
  = Ok (let st1 := put_stage st stages stage_id (set_end t stage) in
        if length (finishTimeStages plot) <? length (startTimeStages plot)
        then put_plot st1
               (PlotSeries (dealineTimeStages plot) (startTimeStages plot)
                  (finishTimeStages plot ++ [t]))
        else st1).
Proof.
  intros -> (H3 & Hnot & Hfin & H5 & H1) Happ Hstages Hstage Hplot.
  apply item_bind_Ok in H5 as (l5 & H5 & Hid); [|lia].
  apply item_bind_Ok in H1 as (ts & H1 & Ht); [|lia].
  change (Z.to_nat 5) with 5 in H5. change (Z.to_nat 1) with 1 in H1.
  destruct (Py.split " " raw !! 4) as [l4|] eqn:H4.
  2:{ apply lookup_ge_None in H4. apply lookup_lt_Some in H5. lia. }
  unfold app_line, app_tokens.
  rewrite (more_than_three _ _ _ H3) by lia.
  rewrite (item_lookup _ 3 _ ltac:(lia) H3). simpl.
  unfold dag_scheduler.
  rewrite (item_lookup _ 4 _ ltac:(lia) H4). simpl.
  assert (Hsub : and_then (String.eqb l4 "Submitting")
                   (Py.item (Py.split " " raw) 6
                    ≫= λ l6, Ok (String.eqb l6 "missing"))
                 = Ok false).
  { destruct (String.eqb_spec l4 "Submitting") as [->|Hl4]; [|done].
    destruct Hnot as [Hnot|(l6 & H6 & Hl6)]; [done|].
    simpl. rewrite (item_lookup _ 6 _ ltac:(lia) H6). simpl.
    apply String.eqb_neq in Hl6. by rewrite Hl6. }
  rewrite Hsub. simpl. rewrite Hfin. simpl.
  apply String.eqb_neq in Happ. rewrite Happ. simpl.
  rewrite (item_lookup _ 5 _ ltac:(lia) H5). simpl. rewrite Hid. simpl.
  rewrite (item_lookup _ 1 _ ltac:(lia) H1). simpl. rewrite Ht. simpl.
  unfold getitem. rewrite Hstages. simpl. rewrite Hstage. simpl.
  rewrite Hplot. simpl.
  by destruct (_ <? _).
Qed.

(** The task-finished lines of one stage, one after the other. *)
Lemma task_lines lines (stamps : list datetime) stage_id :
  Forall2 (λ raw t, finishes_task (Py.split " " raw) stage_id t)
    lines stamps →
  ∀ st stages stage,
    app_info st !! app_id st = Some stages →
    stages !! stage_id = Some stage →
    ∃ st' stages',
      app_loop st lines = Ok st'
      ∧ app_id st' = app_id st
      ∧ dict_to_plot st' = dict_to_plot st
      ∧ app_info st' !! app_id st = Some stages'
      ∧ stages' !! stage_id
        = Some (match stamps with
                | [] => stage
                | _ => set_tasktimestamps
                         (default [] (tasktimestamps stage) ++ stamps) stage
                end).
Proof.
  induction 1 as [|raw t lines stamps Hraw _ IH]; intros st stages stage
    Hstages Hstage.
  { exists st, stages. split_and!; done. }
  pose proof (task_line st raw _ _ _ _ _ eq_refl Hraw Hstages Hstage) as Hline.
  set (stage1 := set_tasktimestamps
                    (default [] (tasktimestamps stage) ++ [t]) stage) in Hline.
  destruct (IH (put_stage st stages stage_id stage1)
              (<[stage_id := stage1]> stages) stage1)
    as (st' & stages' & Hloop & Happ & Hplot & Hinfo & Hlast).
  { cbn [app_info app_id put_stage]. apply lookup_insert_eq. }
  { apply lookup_insert_eq. }
  exists st', stages'. cbn [app_loop]. rewrite Hline.
  split_and!; [done..|].
  rewrite Hlast. f_equal.
  destruct stamps as [|t' stamps]; [done|].
  unfold stage1, set_tasktimestamps. simpl. by rewrite <- app_assoc.
Qed.

(** C4, as amended. A log of one registration line of [app-1], one
    submission line of stage 0 with 10 tasks, 10 task-finished lines of
    stage 0 and one stage-finished line of stage 0, in this order, whatever
    the text of the lines is otherwise: [app_info["app-1"][0]] has 10
    tasks, the 10 task timestamps in order and, as [end], the timestamp of
    the stage-finished line; no controller line recorded a start time, so
    the three plot series of [app-1] are empty. *)
Theorem scenario_parsed reg sub lines fin
    (stamps : list datetime) (t_end : datetime) :
  registers (Py.split " " reg) "app-1" →
  submits (Py.split " " sub) 0 10 →
  Forall2 (λ raw t, finishes_task (Py.split " " raw) 0 t) lines stamps →
  length lines = 10 →
  finishes_stage (Py.split " " fin) 0 t_end →
  ∃ st stages,
    app_scan (reg :: sub :: lines ++ [fin]) = Ok st
    ∧ load_app_data (reg :: sub :: lines ++ [fin]) = Ok (app_info st)
    ∧ app_info st !! "app-1" = Some stages
    ∧ stages !! 0%Z
      = Some (StageInfo (Some 10%Z) None None (Some t_end) (Some stamps))
    ∧ length stamps = 10
    ∧ dict_to_plot st !! "app-1" = Some (PlotSeries [] [] []).
Proof.
  intros Hreg Hsub Htasks Hlen Hfin.
  pose proof (Forall2_length _ _ _ Htasks) as Hstamps.
  pose proof (registration_line app_init reg _ _ eq_refl Hreg) as Hline1.
  set (st1 := AppState (<["app-1" := empty_plot]> (dict_to_plot app_init))
                (<["app-1" := ∅]> (app_info app_init)) "app-1") in Hline1.
  pose proof (submission_line st1 sub _ _ _ ∅ eq_refl Hsub
                ltac:(apply lookup_insert_eq)) as Hline2.
  set (st2 := put_stage st1 ∅ 0 (set_tasks 10 empty_stage)) in Hline2.
  destruct (task_lines _ _ _ Htasks st2
              (<[0%Z := set_tasks 10 empty_stage]> ∅)
              (set_tasks 10 empty_stage))
    as (st3 & stages3 & Hloop3 & Happ3 & Hplot3 & Hinfo3 & Hstage3).
  { apply lookup_insert_eq. }
  { apply lookup_insert_eq. }
  change (app_id st2) with "app-1" in Happ3, Hinfo3.
  assert (Hplot : dict_to_plot st3 !! "app-1" = Some empty_plot).
  { rewrite Hplot3. apply lookup_insert_eq. }
  set (stage3 := match stamps with
                 | [] => set_tasks 10 empty_stage
                 | _ :: _ =>
                     set_tasktimestamps
                       (default [] (tasktimestamps (set_tasks 10 empty_stage))
                        ++ stamps)
                       (set_tasks 10 empty_stage)
                 end) in Hstage3.
  assert (Hline4 := finished_line st3 fin _ 0%Z t_end stages3 stage3
                      empty_plot eq_refl Hfin).
  rewrite Happ3 in Hline4.
  specialize (Hline4 ltac:(done) Hinfo3 Hstage3 Hplot).
  cbn [empty_plot finishTimeStages startTimeStages length Nat.ltb Nat.leb]
    in Hline4.
  assert (Hscan : app_scan (reg :: sub :: lines ++ [fin])
                  = Ok (put_stage st3 stages3 0 (set_end t_end stage3))).
  { unfold app_scan. cbn [app_loop]. rewrite Hline1. cbn [mbind result_bind].
    rewrite Hline2. cbn [mbind result_bind].
    rewrite app_loop_app, Hloop3. cbn [mbind result_bind app_loop].
    by rewrite Hline4. }
  eexists _, _. split; [exact Hscan|].
  split_and!.
  - unfold load_app_data. by rewrite Hscan.
  - cbn [app_info put_stage]. rewrite Happ3. apply lookup_insert_eq.
  - rewrite lookup_insert_eq. unfold stage3.
    destruct stamps as [|t stamps]; [simpl in Hstamps; lia|]. done.
  - lia.
  - cbn [dict_to_plot put_stage]. exact Hplot.
Qed.

End coordinator_scenario.

(** ** More of the worker log *)

Section worker_more.
Context {datetime : Type} `{!Clock datetime}.
Import WorkerData.

Local Abbreviation worker_state := (@worker_state datetime).
Local Abbreviation stage_series := (@stage_series datetime).
Local Abbreviation entry := (@entry datetime).
Local Abbreviation worker_init := (@worker_init datetime).
Implicit Types (st : worker_state) (s : stage_series) (e : entry).
Implicit Types (d : gmap string entry) (stages : gmap Z stage_series).

(** *** Events of the worker log, one by one *)

Lemma worker_tokens_item4 st line l4 :
  line !! 4 = Some l4 →
  worker_tokens st line
  = st1 ← (if String.eqb l4 "Created" && negb (String.eqb (app_id st) EmptyString)
           then created st line else Ok st);
    st2 ← (if String.eqb l4 "Scaled" then scaled st1 line else Ok st1);
    if negb (String.eqb (app_id st2) EmptyString) then
      st3 ← (if String.eqb l4 "CoreToAllocate:"
             then core_to_allocate st2 line else Ok st2);
      st4 ← (if String.eqb l4 "Real:" then real_speedup st3 line else Ok st3);
      if String.eqb l4 "SP" then progress_event st4 line else Ok st4
    else Ok st2.
Proof.
  intros H4. unfold worker_tokens.
  rewrite (more_than_three _ _ _ H4) by lia.
  by rewrite (item_lookup _ 4 _ ltac:(lia) H4).
Qed.

(** X13. Before the first scale event no application is current, and a line
    of at least 5 tokens that is no scale event is ignored. *)
Theorem ignored_without_application st raw line l4 :
  line = Py.split " " raw →
  line !! 4 = Some l4 →
  l4 ≠ "Scaled" →
  app_id st = EmptyString →
  worker_line st raw = Ok st.
Proof.
  intros -> H4 Hl4 Happ. unfold worker_line.
  rewrite (worker_tokens_item4 _ _ _ H4), Happ.
  apply String.eqb_neq in Hl4. rewrite Hl4, andb_false_r. simpl.
  by rewrite Happ.
Qed.

(** X14. A scale line of fewer than 11 tokens raises IndexError in every
    state: the token of index 10 is read whether or not an application is
    current. *)
Theorem scaled_short_line st raw line :
  line = Py.split " " raw →
  line !! 4 = Some "Scaled" →
  length line ≤ 10 →
  worker_line st raw = Raise IndexError.
Proof.
  intros -> H4 Hlen. unfold worker_line.
  rewrite (worker_tokens_item4 _ _ _ H4). simpl.
  unfold scaled. rewrite (item_ge _ 10) by lia.
  by destruct (String.eqb (app_id st) EmptyString).
Qed.

(** X15. A scale line that names another application than the current one,
    or that is met with no current application, makes the named
    application current and stores an empty dict under it, dropping every
    stage that the worker had recorded for it; the current stage id stays.
    A scale line that names the current application changes nothing. *)
Theorem scaled_switches_application st raw line next_app_id :
  line = Py.split " " raw →
  line !! 4 = Some "Scaled" →
  line !! 10 = Some next_app_id →
  worker_line st raw
  = Ok (if decide (app_id st ≠ EmptyString ∧ app_id st = next_app_id)
        then st
        else WorkerState (<[next_app_id := App ∅]> (worker_dict st))
               next_app_id (sid st) (stdout st)).
Proof.
  intros -> H4 H10. unfold worker_line.
  rewrite (worker_tokens_item4 _ _ _ H4). simpl.
  unfold scaled. rewrite (item_lookup _ 10 _ ltac:(lia) H10). simpl.
  destruct (String.eqb_spec (app_id st) EmptyString) as [He|He]; simpl.
  - rewrite decide_False by (intros [? _]; done). simpl.
    by destruct (String.eqb next_app_id EmptyString).
  - destruct (String.eqb_spec (app_id st) next_app_id) as [Hn|Hn]; simpl.
    + rewrite decide_True by done.
      apply String.eqb_neq in He. by rewrite He.
    + rewrite decide_False by (intros [_ ?]; done). simpl.
      by destruct (String.eqb next_app_id EmptyString).
Qed.

(** X16. A core, speed-up or progress line met with a current application
    that has no entry for the current stage id raises KeyError; this is so
    before the first [Created] line, where the stage id is -1, and after a
    scale event for a new application. *)
Theorem sample_without_stage st raw line l4 stages :
  line = Py.split " " raw →
  line !! 4 = Some l4 →
  l4 ∈ ["CoreToAllocate:"; "Real:"; "SP"] →
  app_id st ≠ EmptyString →
  worker_dict st !! app_id st = Some (App stages) →
  stages !! sid st = None →
  worker_line st raw = Raise KeyError.
Proof.
  intros -> H4 Hl4 Happ Hstages Hnone. unfold worker_line.
  rewrite (worker_tokens_item4 _ _ _ H4).
  apply String.eqb_neq in Happ.
  assert (Hget : app_stages st ≫= (λ m, getitem m (sid st))
                 = Raise KeyError).
  { unfold app_stages, getitem. rewrite Hstages. simpl. by rewrite Hnone. }
  unfold app_stages, getitem in Hget. rewrite Hstages in Hget. simpl in Hget.
  rewrite !elem_of_cons in Hl4.
  destruct Hl4 as [->|[->|[->|[]%elem_of_nil]]]; simpl; rewrite Happ; simpl;
    unfold core_to_allocate, real_speedup, progress_event, app_stages, getitem;
    rewrite Hstages; simpl; by rewrite Hnone.
Qed.

(** X17. The current stage id outlives a change of application: a [Created]
    line whose stage id is the current one does not create the stage, and
    raises KeyError when the current application has no such stage. *)
Theorem created_same_stage_id_missing st raw line l8 stages :
  line = Py.split " " raw →
  line !! 4 = Some "Created" →
  line !! 8 = Some l8 →
  Py.int l8 = Ok (sid st) →
  app_id st ≠ EmptyString →
  worker_dict st !! app_id st = Some (App stages) →
  stages !! sid st = None →
  worker_line st raw = Raise KeyError.
Proof.
  intros -> H4 H8 Hid Happ Hstages Hnone. unfold worker_line.
  rewrite (worker_tokens_item4 _ _ _ H4).
  apply String.eqb_neq in Happ. simpl. rewrite Happ. simpl.
  unfold created. rewrite (item_lookup _ 8 _ ltac:(lia) H8). simpl.
  rewrite Hid. simpl. rewrite Z.eqb_refl. simpl.
  unfold app_stages, getitem. rewrite Hstages. simpl. by rewrite Hnone.
Qed.

(** X18. A [Created] line for another stage id than the current one starts
    that stage for the current application with one core sample, one
    timestamp and 0.0 as first speed-up and progress, whatever was
    recorded under that stage id before. *)
Theorem created_starts_stage st raw line l8 n stages x ts t :
  line = Py.split " " raw →
  line !! 4 = Some "Created" →
  line !! 8 = Some l8 →
  Py.int l8 = Ok n →
  n ≠ sid st →
  app_id st ≠ EmptyString →
  worker_dict st !! app_id st = Some (App stages) →
  last_float line = Ok x →
  line !! 1 = Some ts →
  string_to_datetime ts = Ok t →
  worker_line st raw
  = Ok (WorkerState
          (<[app_id st
             := App (<[n := StageSeries [x] [t] [0%float] [0%float]]> stages)]>
             (worker_dict st))
          (app_id st) n (stdout st)).
Proof.
  intros -> H4 H8 Hid Hn Happ Hstages Hx H1 Ht. unfold worker_line.
  rewrite (worker_tokens_item4 _ _ _ H4).
  apply String.eqb_neq in Happ. simpl. rewrite Happ. simpl.
  unfold created. rewrite (item_lookup _ 8 _ ltac:(lia) H8). simpl.
  rewrite Hid. simpl.
  destruct (Z.eqb_spec (sid st) n) as [|_]; [done|]. simpl.
  unfold app_stages, getitem. rewrite Hstages. simpl.
  rewrite !lookup_insert_eq. simpl. rewrite Hx. simpl.
  rewrite (item_lookup _ 1 _ ltac:(lia) H1). simpl. rewrite Ht. simpl.
  rewrite lookup_insert_eq. simpl. rewrite Happ. simpl.
  unfold put_series. simpl. by rewrite !insert_insert_eq.
Qed.

(** *** What the scan of the worker log keeps *)

Lemma app_stages_Ok st stages :
  app_stages st = Ok stages ↔ worker_dict st !! app_id st = Some (App stages).
Proof.
  unfold app_stages, getitem.
  destruct (worker_dict st !! app_id st) as [[]|]; simpl; naive_solver.
Qed.

Lemma worker_tokens_stdout st line st' :
  worker_tokens st line = Ok st' → stdout st' = stdout st.
Proof.
  unfold worker_tokens, created, scaled, core_to_allocate, real_speedup,
    progress_event.
  intros Hst. ok_cases; simpl in *; ok_cases; simpl in *; congruence.
Qed.

(** X19. The scan of the worker log prints nothing: the message of line 231
    is out of reach, since the assignment that its handler guards cannot
    raise KeyError. *)
Theorem worker_scan_prints_nothing worker_log st :
  worker_scan worker_log = Ok st → stdout st = [].
Proof.
  unfold worker_scan.
  assert (Hgen : ∀ (log : list string) st0 st1,
    worker_loop st0 log = Ok st1 → stdout st1 = stdout st0).
  { induction log as [|l ls IH]; intros st0 st1; simpl.
    - by intros [= <-].
    - intros (st2 & H1 & H2)%bind_Ok.
      rewrite (IH _ _ H2). by eapply worker_tokens_stdout. }
  intros Hscan. by rewrite (Hgen _ _ _ Hscan).
Qed.

(** Every value that the scan stores is the dict of an application. *)
Lemma worker_tokens_stores_dicts st line st' k :
  worker_tokens st line = Ok st' →
  worker_dict st' !! k = worker_dict st !! k
  ∨ ∃ m, worker_dict st' !! k = Some (App m).
Proof.
  assert (Hput : ∀ st1 st2 stages j v,
    worker_dict st2 !! k = worker_dict st1 !! k
    ∨ (∃ m, worker_dict st2 !! k = Some (App m)) →
    worker_dict (put_series st2 stages j v) !! k = worker_dict st1 !! k
    ∨ ∃ m, worker_dict (put_series st2 stages j v) !! k = Some (App m)).
  { intros st1 st2 stages j v H12. simpl.
    destruct (decide (app_id st2 = k)) as [<-|Hne].
    - rewrite lookup_insert_eq. eauto.
    - by rewrite lookup_insert_ne. }
  unfold worker_tokens, created, scaled, core_to_allocate, real_speedup,
    progress_event.
  intros Hst. ok_cases; simpl in *; ok_cases; simpl in *;
    repeat match goal with
    | |- context [<[?a := _]> _ !! k] =>
        destruct (decide (a = k)) as [<-|?];
        [rewrite lookup_insert_eq|rewrite lookup_insert_ne by done]
    end; eauto.
Qed.

(** The stages of every application are filled. *)
Definition stages_filled (d : gmap string entry) : Prop :=
  ∀ app m k s, d !! app = Some (App m) → m !! k = Some s → series_filled s.

Lemma stages_filled_insert d app stages k v :
  stages_filled d →
  (∀ j s, j ≠ k → stages !! j = Some s → series_filled s) →
  series_filled v →
  stages_filled (<[app := App (<[k := v]> stages)]> d).
Proof.
  intros Hd Hstages Hv app' m j s.
  destruct (decide (app = app')) as [<-|Hne].
  - rewrite lookup_insert_eq. intros [= <-].
    destruct (decide (k = j)) as [<-|Hkj].
    + rewrite lookup_insert_eq. by intros [= <-].
    + rewrite lookup_insert_ne by done. by apply Hstages.
  - rewrite lookup_insert_ne by done. apply Hd.
Qed.

Lemma stages_filled_empty d app :
  stages_filled d → stages_filled (<[app := App ∅]> d).
Proof.
  intros Hd app' m j s.
  destruct (decide (app = app')) as [<-|Hne].
  - rewrite lookup_insert_eq. intros [= <-]. by rewrite lookup_empty.
  - rewrite lookup_insert_ne by done. apply Hd.
Qed.

Lemma created_filled st line st' :
  created st line = Ok st' →
  stages_filled (worker_dict st) → stages_filled (worker_dict st').
Proof.
  unfold created. intros Hst Hinv. ok_cases.
  - (* a new stage id *)
    repeat match goal with
    | H : app_stages _ = Ok _ |- _ => apply app_stages_Ok in H; simpl in H
    end.
    rewrite lookup_insert_eq in *. simplify_eq.
    rewrite lookup_insert_eq in *. simplify_eq.
    simpl. rewrite !insert_insert_eq.
    apply stages_filled_insert; [done| |].
    + intros j s Hj Hs. by eapply Hinv.
    + repeat split; simpl; lia.
  - (* the current stage id *)
    repeat match goal with
    | H : app_stages _ = Ok _ |- _ => apply app_stages_Ok in H; simpl in H
    end.
    simpl.
    match goal with
    | Hd : worker_dict _ !! _ = Some (App ?m), Hs : ?m !! _ = Some ?s |- _ =>
        pose proof (Hinv _ _ _ _ Hd Hs) as (? & ? & ? & ?)
    end.
    apply stages_filled_insert; [done| |].
    + intros j s Hj Hs. by eapply Hinv.
    + repeat split; simpl; rewrite ?length_app; simpl; lia.
Qed.

Lemma scaled_filled st line st' :
  scaled st line = Ok st' →
  stages_filled (worker_dict st) → stages_filled (worker_dict st').
Proof.
  unfold scaled. intros Hst Hinv. ok_cases; simpl in *; ok_cases; try done;
    by apply stages_filled_empty.
Qed.

(** An event that appends to the series of the current stage. *)
Ltac sample_filled Hinv :=
  intros Hst Hinv; ok_steps;
  match goal with
  | H : app_stages _ = Ok _ |- _ => apply app_stages_Ok in H
  end;
  simpl;
  match goal with
  | Hd : worker_dict _ !! _ = Some (App ?m), Hs : ?m !! _ = Some ?s |- _ =>
      pose proof (Hinv _ _ _ _ Hd Hs) as (? & ? & ? & ?)
  end;
  apply stages_filled_insert;
  [ done
  | intros j s Hj Hs; by eapply Hinv
  | repeat split; simpl; rewrite ?length_app; simpl; lia ].

Lemma core_to_allocate_filled st line st' :
  core_to_allocate st line = Ok st' →
  stages_filled (worker_dict st) → stages_filled (worker_dict st').
Proof. unfold core_to_allocate. sample_filled Hinv. Qed.

Lemma real_speedup_filled st line st' :
  real_speedup st line = Ok st' →
  stages_filled (worker_dict st) → stages_filled (worker_dict st').
Proof. unfold real_speedup. sample_filled Hinv. Qed.

Lemma progress_event_filled st line st' :
  progress_event st line = Ok st' →
  stages_filled (worker_dict st) → stages_filled (worker_dict st').
Proof. unfold progress_event. sample_filled Hinv. Qed.

Lemma worker_tokens_filled st line st' :
  worker_tokens st line = Ok st' →
  stages_filled (worker_dict st) → stages_filled (worker_dict st').
Proof.
  unfold worker_tokens. intros Hst Hinv. ok_cases;
    eauto 8 using created_filled, scaled_filled, core_to_allocate_filled,
      real_speedup_filled, progress_event_filled.
Qed.

Lemma worker_loop_filled st worker_log st' :
  worker_loop st worker_log = Ok st' →
  stages_filled (worker_dict st) → stages_filled (worker_dict st').
Proof.
  revert st. induction worker_log as [|l ls IH]; intros st; simpl.
  - by intros [= <-].
  - intros (st1 & H1 & H2)%bind_Ok Hinv.
    eapply IH; [done|]. by eapply worker_tokens_filled.
Qed.

(** *** The telemetry log *)

Lemma cpu_line_lookup cfg d raw d' k :
  cpu_line cfg d raw = Ok d' →
  d' !! k = d !! k
  ∨ (k = "cpu_real" ∧ ∃ c x, d !! k = Some (CpuReal c)
                             ∧ d' !! k = Some (CpuReal (c ++ [x])))
  ∨ (k = "time_cpu" ∧ ∃ l t, d !! k = Some (TimeCpu l)
                             ∧ d' !! k = Some (TimeCpu (l ++ [t]))).
Proof.
  unfold cpu_line, append_time_cpu, append_cpu_real.
  intros Hd. ok_cases; auto.
  repeat match goal with
  | H : match ?e with CpuReal _ => _ | TimeCpu _ => _ | App _ => _ end = Ok _
    |- _ => destruct e; try discriminate H; ok_steps
  end.
  match goal with
  | H : <["time_cpu" := _]> _ !! "cpu_real" = _ |- _ =>
      rewrite lookup_insert_ne in H by done
  end.
  destruct (decide (k = "cpu_real")) as [->|Hc].
  { right; left. split; [done|]. rewrite lookup_insert_eq. eauto. }
  rewrite lookup_insert_ne by done.
  destruct (decide (k = "time_cpu")) as [->|Ht].
  { right; right. split; [done|]. rewrite lookup_insert_eq. eauto. }
  rewrite lookup_insert_ne by done. auto.
Qed.

(** A sample is stored together with its timestamp. *)
Lemma cpu_line_both cfg d raw d' :
  cpu_line cfg d raw = Ok d' →
  d' = d
  ∨ ∃ c x l t,
      d !! "cpu_real" = Some (CpuReal c) ∧ d !! "time_cpu" = Some (TimeCpu l)
      ∧ d' !! "cpu_real" = Some (CpuReal (c ++ [x]))
      ∧ d' !! "time_cpu" = Some (TimeCpu (l ++ [t])).
Proof.
  unfold cpu_line, append_time_cpu, append_cpu_real.
  intros Hd. ok_cases; auto.
  repeat match goal with
  | H : match ?e with CpuReal _ => _ | TimeCpu _ => _ | App _ => _ end = Ok _
    |- _ => destruct e; try discriminate H; ok_steps
  end.
  match goal with
  | H : <["time_cpu" := _]> _ !! "cpu_real" = _ |- _ =>
      rewrite lookup_insert_ne in H by done
  end.
  right. eexists _, _, _, _. split_and!; [done..| |].
  - by rewrite lookup_insert_eq.
  - rewrite lookup_insert_ne by done. by rewrite lookup_insert_eq.
Qed.

(** X20. The telemetry log leaves every key of the worker dictionary other
    than [cpu_real] and [time_cpu] as the scan of the worker log left
    it. *)
Theorem cpu_loop_frame cfg d cpu_log d' k :
  cpu_loop cfg d cpu_log = Ok d' →
  k ≠ "cpu_real" → k ≠ "time_cpu" →
  d' !! k = d !! k.
Proof.
  intros Hloop Hc Ht. revert d Hloop.
  induction cpu_log as [|l ls IH]; intros d; simpl.
  - by intros [= <-].
  - intros (d1 & H1 & H2)%bind_Ok. rewrite (IH _ H2).
    destruct (cpu_line_lookup _ _ _ _ k H1) as [?|[[? _]|[? _]]]; done.
Qed.

(** The two telemetry lists grow together: one that holds a sample has
    the other beside it, of the same length. *)
Definition telemetry_paired (d : gmap string entry) : Prop :=
  (∀ c, d !! "cpu_real" = Some (CpuReal c) → c ≠ [] →
        ∃ l, d !! "time_cpu" = Some (TimeCpu l) ∧ length l = length c)
  ∧ (∀ l, d !! "time_cpu" = Some (TimeCpu l) → l ≠ [] →
          ∃ c, d !! "cpu_real" = Some (CpuReal c) ∧ length c = length l).

(** During the scan of the worker log the two lists hold no sample. *)
Definition telemetry_empty (d : gmap string entry) : Prop :=
  (∀ c, d !! "cpu_real" = Some (CpuReal c) → c = [])
  ∧ (∀ l, d !! "time_cpu" = Some (TimeCpu l) → l = []).

Lemma worker_tokens_telemetry st line st' :
  worker_tokens st line = Ok st' →
  telemetry_empty (worker_dict st) → telemetry_empty (worker_dict st').
Proof.
  intros Hst [Hc0 Hl0].
  pose proof (worker_tokens_stores_dicts _ _ _ "cpu_real" Hst) as Hc.
  pose proof (worker_tokens_stores_dicts _ _ _ "time_cpu" Hst) as Ht.
  split; intros x Hx.
  - destruct Hc as [Hc|[m Hc]]; [|congruence]. apply Hc0. by rewrite <- Hc.
  - destruct Ht as [Ht|[m Ht]]; [|congruence]. apply Hl0. by rewrite <- Ht.
Qed.

Lemma worker_scan_telemetry worker_log st :
  worker_scan worker_log = Ok st → telemetry_empty (worker_dict st).
Proof.
  unfold worker_scan.
  assert (Hgen : ∀ (log : list string) st0 st1,
    worker_loop st0 log = Ok st1 →
    telemetry_empty (worker_dict st0) → telemetry_empty (worker_dict st1)).
  { induction log as [|l ls IH]; intros st0 st1; simpl.
    - by intros [= <-].
    - intros (st2 & H1 & H2)%bind_Ok Hinv.
      eapply IH; [done|]. by eapply worker_tokens_telemetry. }
  intros Hscan. eapply Hgen; [done|]. simpl. split; intros x.
  - rewrite lookup_insert_ne by done. rewrite lookup_insert_eq. congruence.
  - rewrite lookup_insert_eq. congruence.
Qed.

Lemma cpu_line_paired cfg d raw d' :
  cpu_line cfg d raw = Ok d' → telemetry_paired d → telemetry_paired d'.
Proof.
  intros [->|(c & x & l & t & Hc & Hl & Hc' & Hl')]%cpu_line_both Hinv;
    [done|].
  destruct Hinv as [Hcl Hlc].
  assert (Hlen : length l = length c).
  { destruct c as [|c0 c].
    - destruct l as [|l0 l]; [done|].
      destruct (Hlc _ Hl) as (c2 & Hc2 & Hlen); [done|].
      rewrite Hc in Hc2. by injection Hc2 as <-.
    - destruct (Hcl _ Hc) as (l2 & Hl2 & Hlen); [done|].
      rewrite Hl in Hl2. by injection Hl2 as <-. }
  split.
  - intros c2 Hc2 _. rewrite Hc' in Hc2. injection Hc2 as <-.
    eexists. split; [done|]. rewrite !length_app. simpl. lia.
  - intros l2 Hl2 _. rewrite Hl' in Hl2. injection Hl2 as <-.
    eexists. split; [done|]. rewrite !length_app. simpl. lia.
Qed.

Lemma cpu_loop_paired cfg d cpu_log d' :
  cpu_loop cfg d cpu_log = Ok d' → telemetry_paired d → telemetry_paired d'.
Proof.
  revert d. induction cpu_log as [|l ls IH]; intros d; simpl.
  - by intros [= <-].
  - intros (d1 & H1 & H2)%bind_Ok Hinv.
    eapply IH; [done|]. by eapply cpu_line_paired.
Qed.

(** X21. In the dictionary that [load_worker_data] returns, the list under
    [cpu_real] and the list under [time_cpu] come together and have the
    same length: every sample has its timestamp. *)
Theorem load_worker_data_telemetry_paired worker_log cpu_log cfg d :
  load_worker_data worker_log cpu_log cfg = Ok d →
  (∀ c, d !! "cpu_real" = Some (CpuReal c) →
        ∃ l, d !! "time_cpu" = Some (TimeCpu l) ∧ length l = length c)
  ∧ (∀ l, d !! "time_cpu" = Some (TimeCpu l) →
          ∃ c, d !! "cpu_real" = Some (CpuReal c) ∧ length c = length l).
Proof.
  unfold load_worker_data. intros Hd. ok_steps.
  match goal with
  | Hs : worker_scan _ = Ok ?st, Hl : cpu_loop _ _ _ = Ok ?d0 |- _ =>
      assert (Hinv : telemetry_paired d0)
  end.
  { eapply cpu_loop_paired; [done|].
    match goal with
    | Hs : worker_scan _ = Ok _ |- _ =>
        destruct (worker_scan_telemetry _ _ Hs) as [Hc Hl]
    end.
    split; intros samples Hx Hne; [by apply Hc in Hx|by apply Hl in Hx]. }
  destruct Hinv as [Hcl Hlc]. split.
  - intros c [Hc Hlen]%prune_lookup. simpl in Hlen.
    destruct (Hcl c Hc) as (l & Hl & Heq); [intros ->; simpl in Hlen; lia|].
    exists l. split; [|done]. apply prune_lookup. split; [done|].
    simpl. lia.
  - intros l [Hl Hlen]%prune_lookup. simpl in Hlen.
    destruct (Hlc l Hl) as (c & Hc & Heq); [intros ->; simpl in Hlen; lia|].
    exists c. split; [|done]. apply prune_lookup. split; [done|].
    simpl. lia.
Qed.

Lemma cpu_loop_keeps_apps cfg d cpu_log d' app m :
  cpu_loop cfg d cpu_log = Ok d' →
  d' !! app = Some (App m) → d !! app = Some (App m).
Proof.
  revert d. induction cpu_log as [|l ls IH]; intros d; simpl.
  - by intros [= <-].
  - intros (d1 & H1 & H2)%bind_Ok Hm. specialize (IH _ H2 Hm).
    destruct (cpu_line_lookup _ _ _ _ app H1)
      as [<-|[(_ & ? & ? & _ & ?)|(_ & ? & ? & _ & ?)]]; [done|congruence..].
Qed.

(** X22. In the dictionary that [load_worker_data] returns, every stage of
    every application has at least one core sample, one speed-up sample
    and one progress sample, and as many timestamps as progress
    samples. *)
Theorem load_worker_data_stages_filled worker_log cpu_log cfg d app m k s :
  load_worker_data worker_log cpu_log cfg = Ok d →
  d !! app = Some (App m) → m !! k = Some s →
  series_filled s.
Proof.
  unfold load_worker_data, worker_scan. intros Hd Hm Hs. ok_steps.
  apply prune_lookup in Hm as [Hm _].
  eapply cpu_loop_keeps_apps in Hm; [|done].
  match goal with
  | Hl : worker_loop _ _ = Ok _ |- _ =>
      eapply (worker_loop_filled _ _ _ Hl); [|done..]
  end.
  intros app' m' k' s'. simpl.
  destruct (decide (app' = "time_cpu")) as [->|?];
    [by rewrite lookup_insert_eq|rewrite lookup_insert_ne by done].
  destruct (decide (app' = "cpu_real")) as [->|?];
    [by rewrite lookup_insert_eq|rewrite lookup_insert_ne by done].
  by rewrite lookup_empty.
Qed.

(** X23. A line of the telemetry log that is no data line (the banner with
    [Linux], a blank line, the column header or the average) is skipped:
    its other fields are not read. *)
Theorem cpu_line_skipped cfg d raw line l0 l1 :
  line = Py.split "    " raw →
  line !! 0 = Some l0 → line !! 1 = Some l1 →
  data_line l0 l1 = false →
  cpu_line cfg d raw = Ok d.
Proof.
  intros -> H0 H1 Hdata. unfold data_line in Hdata. unfold cpu_line.
  rewrite (item_lookup _ 0 _ ltac:(lia) H0). simpl.
  destruct (Py.contains "Linux" _ || Py.contains Py.nl _); simpl; [done|].
  rewrite (item_lookup _ 1 _ ltac:(lia) H1). simpl.
  simpl in Hdata.
  destruct (String.eqb l1 " CPU"); simpl in *; [done|]. by rewrite Hdata.
Qed.

(** X24. A line of the telemetry log without four spaces in a row has one
    field only; unless that field has the word [Linux] or is a lone
    newline among its words, the second field is read and the line raises
    IndexError. *)
Theorem cpu_line_one_field cfg d raw l0 :
  Py.split "    " raw = [l0] →
  Py.contains "Linux" (Py.split " " l0) = false →
  Py.contains Py.nl (Py.split " " l0) = false →
  cpu_line cfg d raw = Raise IndexError.
Proof.
  intros Hline Hlinux Hnl. unfold cpu_line. rewrite Hline. simpl.
  by rewrite Hlinux, Hnl.
Qed.

End worker_more.

(** ** The downloads *)

Section download_properties.
Import Download.
Context {W : Type} `{!Cluster W}.

Local Abbreviation process := (@process W).
Local Abbreviation io := (@io W).
Implicit Types (p : process) (i : instance) (cfg : cluster_config).
Implicit Types (files events logs : list string).

Lemma io_bind_Done {A B} (m : io A) (f : A → io B) p b p' :
  (m ≫= f) p = (Done b, p')
  ↔ ∃ a p1, m p = (Done a, p1) ∧ f a p1 = (Done b, p').
Proof.
  unfold mbind, io_bind. destruct (m p) as [[a|e] p1]; split.
  - eauto.
  - by intros (? & ? & [= <- <-] & ?).
  - discriminate.
  - by intros (? & ? & [=] & ?).
Qed.

Lemma perform_Done {A} (c : call) (op : W → outcome A * W) p a p' :
  perform c op p = (Done a, p')
  ↔ ∃ w, op (world p) = (Done a, w)
         ∧ p' = Process w (calls p ++ [c]) (stdout p).
Proof.
  unfold perform. destruct (op (world p)) as [r w]. split.
  - intros [= -> <-]. eauto.
  - by intros (? & [= -> <-] & ->).
Qed.

Lemma print_Done s p (u : unit) p' :
  print s p = (Done u, p')
  ↔ p' = Process (world p) (calls p) (stdout p ++ [s]).
Proof. unfold print. destruct u. split; [by intros [= <-]|by intros ->]. Qed.

Lemma try_io_Done {A} (body handler : io A) catches p a p' :
  try_io body catches handler p = (Done a, p') →
  body p = (Done a, p')
  ∨ ∃ e p1, body p = (Failed e, p1) ∧ catches e = true
            ∧ handler p1 = (Done a, p').
Proof.
  unfold try_io. destruct (body p) as [[b|e] p1]; [auto|].
  destruct (catches e) eqn:He; [|done]. right. eauto.
Qed.

(** The steps of a run that ends well, one hypothesis each. *)
Ltac io_steps :=
  repeat match goal with
  | H : (let _ := _ in _) _ = (Done _, _) |- _ => cbv zeta in H
  | H : try_io _ _ _ _ = (Done _, _) |- _ =>
      apply try_io_Done in H; destruct H as [H|(? & ? & _ & _ & H)]
  | H : (_ ≫= _) _ = (Done _, _) |- _ =>
      apply io_bind_Done in H; destruct H as (? & ? & ? & H)
  | H : perform _ _ _ = (Done _, _) |- _ =>
      apply perform_Done in H; destruct H as (? & H & ->)
  | H : print _ _ = (Done _, _) |- _ => apply print_Done in H; subst
  | H : mret _ _ = (Done _, _) |- _ =>
      unfold mret, io_ret in H; simplify_eq
  end.

Lemma fetch_events_cons i log cfg file rest out app :
  fetch_events i log cfg (file :: rest) out app
  = (print ("BENCHMARK: " +:+ file);;
     print ("LOG FOLDER: " +:+ log);;
     print ("OUTPUT FOLDER: " +:+ out);;
     let out' := if negb (String.eqb log out) then out +:+ file else out in
     try_io (perform (Makedirs out') (makedirs out'))
       catches_exists (print "Output folder already exists");;
     print "Bzipping event log...";;
     perform
       (Run i ("pbzip2 -9 -p" +:+ str (CoreVM (Node cfg)) +:+ " -c "
               +:+ (SparkHome cfg +:+ "spark-events/" +:+ file) +:+ " > "
               +:+ ((SparkHome cfg +:+ "spark-events/" +:+ file) +:+ ".bz")))
       (run i ("pbzip2 -9 -p" +:+ str (CoreVM (Node cfg)) +:+ " -c "
               +:+ (SparkHome cfg +:+ "spark-events/" +:+ file) +:+ " > "
               +:+ ((SparkHome cfg +:+ "spark-events/" +:+ file) +:+ ".bz")));;
     perform
       (GetFile i ((SparkHome cfg +:+ "spark-events/" +:+ file) +:+ ".bz")
          (out' +:+ "/" +:+ file +:+ ".bz"))
       (get_file i ((SparkHome cfg +:+ "spark-events/" +:+ file) +:+ ".bz")
          (out' +:+ "/" +:+ file +:+ ".bz"));;
     fetch_events i log cfg rest out' file).
Proof. reflexivity. Qed.

Lemma last_cons_default {A} (x a : A) (l : list A) :
  default a (last (x :: l)) = default x (last l).
Proof. rewrite last_cons. by destruct (last l). Qed.

(** What the loop over the event files computes, whatever the node and
    the disk answer. *)
Lemma fetch_events_result i log cfg files out app p r p' :
  fetch_events i log cfg files out app p = (Done r, p') →
  r.2 = default app (last files)
  ∧ r.1 = foldl (λ o f, if negb (String.eqb log o) then o +:+ f else o)
            out files.
Proof.
  revert out app p. induction files as [|file rest IH]; intros out app p.
  - intros [= <- _]. done.
  - rewrite fetch_events_cons. intros Hrun. io_steps;
      apply IH in Hrun as [-> ->]; by rewrite last_cons_default.
Qed.

Lemma download_master_events i out log cfg p folder app p' w1 w2 events :
  sshclient_from_instance i (world p) = (Done tt, w1) →
  listdir i (SparkHome cfg +:+ "spark-events/") w1 = (Done events, w2) →
  download_master i out log cfg p = (Done (folder, app), p') →
  app = default EmptyString (last events)
  ∧ folder = foldl (λ o f, if negb (String.eqb log o) then o +:+ f else o)
               out events.
Proof.
  intros Hconnect Hlist. unfold download_master. intros Hrun. io_steps.
  simpl in *.
  repeat match goal with
  | H1 : ?f ?x = _, H2 : ?f ?x = _ |- _ =>
      rewrite H1 in H2; injection H2 as H2; try subst
  end.
  match goal with
  | H : fetch_events _ _ _ _ _ _ _ = _ |- _ =>
      apply fetch_events_result in H as [? ?]
  end.
  by simplify_eq.
Qed.

(** X25. The application id that [download_master] returns is the name of
    the last event file that the master lists, and the empty string when
    it lists none. *)
Theorem download_master_app_id i out log cfg p folder app p' w1 w2 events :
  sshclient_from_instance i (world p) = (Done tt, w1) →
  listdir i (SparkHome cfg +:+ "spark-events/") w1 = (Done events, w2) →
  download_master i out log cfg p = (Done (folder, app), p') →
  app = default EmptyString (last events).
Proof.
  intros Hconnect Hlist Hrun.
  by destruct (download_master_events _ _ _ _ _ _ _ _ _ _ _
                 Hconnect Hlist Hrun).
Qed.

(** X26. The folder that [download_master] returns: the output folder as it
    is when it equals the log folder; else the output folder followed by
    the name of the event file, and by the names of both event files when
    there are two, unless the first name makes it the log folder. *)
Theorem download_master_folder i out log cfg p folder app p' w1 w2 events :
  sshclient_from_instance i (world p) = (Done tt, w1) →
  listdir i (SparkHome cfg +:+ "spark-events/") w1 = (Done events, w2) →
  download_master i out log cfg p = (Done (folder, app), p') →
  (log = out → folder = out)
  ∧ (events = [] → folder = out)
  ∧ (∀ f, events = [f] → log ≠ out → folder = out +:+ f)
  ∧ (∀ f1 f2, events = [f1; f2] → log ≠ out → log ≠ out +:+ f1 →
       folder = (out +:+ f1) +:+ f2).
Proof.
  intros Hconnect Hlist Hrun.
  destruct (download_master_events _ _ _ _ _ _ _ _ _ _ _
              Hconnect Hlist Hrun) as [_ ->].
  split_and!.
  - intros ->. clear. induction events as [|f rest IH]; [done|].
    simpl. by rewrite String.eqb_refl.
  - by intros ->.
  - intros f -> Hne%String.eqb_neq. simpl. by rewrite Hne.
  - intros f1 f2 -> Hne%String.eqb_neq Hne1%String.eqb_neq. simpl.
    rewrite Hne. simpl. by rewrite Hne1.
Qed.

Lemma fetch_logs_calls i log folder logs p (u : unit) p' :
  fetch_logs i log folder logs p = (Done u, p') →
  calls p'
  = calls p
    ++ ((λ f, GetFile i (log +:+ "/" +:+ f)
                (replace ":" "-" (folder +:+ "/" +:+ f)))
        <$> filter (λ f, f ≠ "bench-report.dat") logs).
Proof.
  revert p. induction logs as [|file rest IH]; intros p.
  - intros [= _ <-]. simpl. by rewrite app_nil_r.
  - change (fetch_logs i log folder (file :: rest))
      with (print file;;
            (if negb (String.eqb file "bench-report.dat") return io unit then
               perform
                 (GetFile i (log +:+ "/" +:+ file)
                    (replace ":" "-" (folder +:+ "/" +:+ file)))
                 (get_file i (log +:+ "/" +:+ file)
                    (replace ":" "-" (folder +:+ "/" +:+ file)))
             else mret tt);;
            fetch_logs i log folder rest).
    intros Hrun. io_steps.
    destruct (String.eqb_spec file "bench-report.dat") as [->|Hne];
      simpl in *; io_steps.
    + rewrite filter_cons_False by (intros ?; done).
      by rewrite (IH _ Hrun).
    + rewrite filter_cons_True by done.
      rewrite (IH _ Hrun). simpl. by rewrite <- app_assoc.
Qed.

Lemma replace_has_char (a b : ascii) (s : string) :
  a ≠ b → has_char a (replace a b s) = false.
Proof.
  intros Hab. induction s as [|c s IH]; [done|]. simpl. rewrite IH.
  destruct (Ascii.eqb_spec c a) as [->|Hc].
  - rewrite orb_false_r. apply Ascii.eqb_neq. congruence.
  - rewrite orb_false_r. by apply Ascii.eqb_neq.
Qed.

(** X27. When [download_master] returns, the last thing it did was to list
    the log folder and to fetch every file of that listing other than
    [bench-report.dat], in the order of the listing, to the returned
    folder, the colons of the whole local path, folder included, replaced
    by dashes: no file is saved under a name with a colon. *)
Theorem download_master_log_files i out log cfg p folder app p' :
  download_master i out log cfg p = (Done (folder, app), p') →
  ∃ before w w' logs,
    listdir i log w = (Done logs, w')
    ∧ calls p'
      = before
        ++ Listdir i log
           :: ((λ f, GetFile i (log +:+ "/" +:+ f)
                       (replace ":" "-" (folder +:+ "/" +:+ f)))
               <$> filter (λ f, f ≠ "bench-report.dat") logs)
    ∧ ∀ f, has_char ":" (replace ":" "-" (folder +:+ "/" +:+ f)) = false.
Proof.
  unfold download_master. intros Hrun. io_steps.
  cbn [world calls stdout fst snd] in *.
  match goal with
  | H : fetch_logs _ _ _ _ _ = _ |- _ =>
      apply fetch_logs_calls in H; cbn [calls] in H; rename H into Hcalls
  end.
  eexists _, _, _, _. split_and!; [|by rewrite Hcalls, <- app_assoc|].
  - eassumption.
  - intros f. by apply replace_has_char.
Qed.

Lemma io_bind_run {A B} (m : io A) (f : A → io B) p a p1 :
  m p = (Done a, p1) → (m ≫= f) p = f a p1.
Proof. unfold mbind, io_bind. by intros ->. Qed.

Lemma io_bind_stop {A B} (m : io A) (f : A → io B) p e p1 :
  m p = (Failed e, p1) → (m ≫= f) p = (Failed e, p1).
Proof. unfold mbind, io_bind. by intros ->. Qed.

Lemma perform_run {A} (c : call) (op : W → outcome A * W) p r w :
  op (world p) = (r, w) →
  perform c op p = (r, Process w (calls p ++ [c]) (stdout p)).
Proof. unfold perform. by intros ->. Qed.

Lemma print_run s p :
  print s p = (Done tt, Process (world p) (calls p) (stdout p ++ [s])).
Proof. done. Qed.

Lemma try_io_caught {A} (body handler : io A) catches p e p1 :
  body p = (Failed e, p1) → catches e = true →
  try_io body catches handler p = handler p1.
Proof. unfold try_io. by intros -> ->. Qed.

Lemma io_bind_outcome {A B} (m : io A) (f : A → io B) p r p' :
  (m ≫= f) p = (r, p') →
  (∃ e, m p = (Failed e, p') ∧ r = Failed e)
  ∨ ∃ a p1, m p = (Done a, p1) ∧ f a p1 = (r, p').
Proof.
  unfold mbind, io_bind. destruct (m p) as [[a|e] p1].
  - right. eauto.
  - intros [= <- <-]. left. eauto.
Qed.

Lemma try_io_not_found (body : io unit) s p e p' :
  try_io body catches_not_found (print s) p = (Failed e, p') →
  e ≠ FileNotFoundError.
Proof.
  unfold try_io. destruct (body p) as [[b|e'] p1]; [done|].
  destruct e'; simpl; [|done|]; intros [= <- _]; done.
Qed.

(** X28. Once the client of the node is there, [download_slave] does not
    raise FileNotFoundError, whatever file or folder is missing on the
    node: it returns, and what it returns is the output folder it was
    given, or it raises another exception. *)
Theorem download_slave_returns i out app cfg p r p' :
  (sshclient_from_instance i (world p)).1 ≠ Failed FileNotFoundError →
  download_slave i out app cfg p = (r, p') →
  r = Done out ∨ ∃ e, r = Failed e ∧ e ≠ FileNotFoundError.
Proof.
  intros Hconnect. unfold download_slave. intros Hrun.
  apply io_bind_outcome in Hrun as [(e & Hm & ->)|(? & p1 & _ & Hrun)].
  { right. exists e. split; [done|]. intros ->.
    unfold perform in Hm.
    destruct (sshclient_from_instance i (world p)) as [r1 w1].
    simpl in Hconnect. by injection Hm as -> _. }
  apply io_bind_outcome in Hrun as [(e & Hm & ->)|(? & p2 & _ & Hrun)].
  { discriminate Hm. }
  apply io_bind_outcome in Hrun as [(e & Hm & ->)|(? & p3 & _ & Hrun)].
  { right. exists e. split; [done|]. by eapply try_io_not_found. }
  apply io_bind_outcome in Hrun as [(e & Hm & ->)|(? & p4 & _ & Hrun)].
  { right. exists e. split; [done|]. by eapply try_io_not_found. }
  left. by injection Hrun as <- _.
Qed.

(** X29. When the worker log is missing on the node, [download_slave] gives
    up the telemetry log with it: after the three calls that end in the
    FileNotFoundError it prints [worker log not found] and goes on with the
    executors; the [sar] file is not asked for. *)
Theorem missing_worker_log_skips_sar i out app cfg p w1 w2 w3 :
  sshclient_from_instance i (world p) = (Done tt, w1) →
  run i kill_screens w1 = (Done tt, w2) →
  get_file i
    (SparkHome cfg +:+ "logs/"
     +:+ worker_log_name (replace "." "-" (private_ip_address i)))
    (out +:+ "/" +:+ worker_log_name (private_ip_address i)) w2
  = (Failed FileNotFoundError, w3) →
  download_slave i out app cfg p
  = (try_io (fetch_stderr i out app cfg) catches_not_found
       (print "stderr not found");;
     mret out)
      (Process w3
         (calls p
          ++ [Connect i; Run i kill_screens;
              GetFile i
                (SparkHome cfg +:+ "logs/"
                 +:+ worker_log_name (replace "." "-" (private_ip_address i)))
                (out +:+ "/" +:+ worker_log_name (private_ip_address i))])
         (stdout p
          ++ ["Downloading log from slave: " +:+ public_dns_name i;
              SparkHome cfg +:+ "logs/"
              +:+ worker_log_name (replace "." "-" (private_ip_address i));
              "worker log not found"])).
Proof.
  intros Hconnect Hrun Hget.
  assert (Hbody : ∀ q, world q = w1 →
    fetch_worker_log i out cfg q
    = (Failed FileNotFoundError,
       Process w3
         (calls q
          ++ [Run i kill_screens;
              GetFile i
                (SparkHome cfg +:+ "logs/"
                 +:+ worker_log_name (replace "." "-" (private_ip_address i)))
                (out +:+ "/" +:+ worker_log_name (private_ip_address i))])
         (stdout q
          ++ [SparkHome cfg +:+ "logs/"
              +:+ worker_log_name
                    (replace "." "-" (private_ip_address i))]))).
  { intros q Hq. unfold fetch_worker_log. cbv zeta.
    erewrite io_bind_run; [|apply print_run].
    erewrite io_bind_run;
      [|apply perform_run; cbn [world]; rewrite Hq; exact Hrun].
    erewrite io_bind_stop; [|apply perform_run; cbn [world]; exact Hget].
    cbn [world calls stdout]. by rewrite <- app_assoc. }
  unfold download_slave.
  erewrite io_bind_run; [|apply perform_run; exact Hconnect].
  erewrite io_bind_run; [|apply print_run].
  erewrite io_bind_run;
    [|erewrite try_io_caught; [apply print_run|by apply Hbody|done]].
  cbn [world calls stdout]. by rewrite <- !app_assoc.
Qed.

End download_properties.

(** * Worked examples, on the wall clock *)

Section coordinator_examples.
Import AppData WallClock.

(** The state in which a scan ends is computed, and named [st]. *)
Ltac scan_to st log :=
  let r := eval vm_compute in (app_scan log) in
  match r with Ok ?v => pose (st := v) end.

(** C1, counterexample. The empty log and a log of one hand-off line make
    [load_app_data] return the same value, and the plot series they build
    differ: the plot series are not part of what is returned. *)
Lemma load_app_data_drops_plot_series :
  load_app_data [] = load_app_data [Logs.needed "app-2"]
  ∧ plot_series_of [] "app-2" = Raise KeyError
  ∧ plot_series_of [Logs.needed "app-2"] "app-2" = Ok empty_plot.
Proof. split_and!; vm_compute; reflexivity. Qed.

Lemma load_app_data_returns_app_info_witness :
  ∃ st, app_scan Logs.scenario = Ok st
        ∧ load_app_data Logs.scenario = Ok (app_info st).
Proof.
  scan_to st Logs.scenario.
  destruct (proj1 (load_app_data_returns_app_info Logs.scenario (app_info st)))
    as (st' & Hscan & Hr & _); [vm_compute; reflexivity|].
  exists st. split; vm_compute; reflexivity.
Defined.

(** C2, counterexample. After the registration of [app-1], a submission
    line that stops after the task count raises IndexError, one whose stage
    id is no number raises ValueError, and a stage-finished line for a
    stage that was never submitted raises KeyError; [load_app_data] ends
    with the exception. *)
Lemma malformed_line_aborts :
  app_scan [Logs.connected "app-1";
            Logs.line "17/03/01 12:00:01 INFO DAGScheduler: Submitting 10"]
  = Raise IndexError
  ∧ app_scan [Logs.connected "app-1"; Logs.submitting "zero" "10"]
    = Raise ValueError
  ∧ app_scan [Logs.connected "app-1"; Logs.stage_finished "12:00:12" "0"]
    = Raise KeyError
  ∧ load_app_data
      [Logs.connected "app-1";
       Logs.line "17/03/01 12:00:01 INFO DAGScheduler: Submitting 10";
       Logs.submitting "0" "10"]
    = Raise IndexError.
Proof. split_and!; vm_compute; reflexivity. Qed.

Lemma app_line_skips_or_aborts_witness :
  ∃ st,
    app_scan [Logs.connected "app-1"] = Ok st
    ∧ (app_line st (Logs.line "17/03/01 12:00:01 INFO BlockManager: Registered")
       = Ok st)
    ∧ load_app_data
        [Logs.connected "app-1"; Logs.submitting "zero" "10";
         Logs.submitting "0" "10"]
      = Raise ValueError.
Proof.
  scan_to st [Logs.connected "app-1"]. exists st.
  assert (Hpre : app_scan [Logs.connected "app-1"] = Ok st)
    by (vm_compute; reflexivity).
  split; [done|]. split.
  - apply (app_line_skips_or_aborts [Logs.connected "app-1"]
             (Logs.line "17/03/01 12:00:01 INFO BlockManager: Registered")
             [] st Hpre).
    right. exists "BlockManager:". split; [vm_compute; reflexivity|].
    unfold component_tags. rewrite !not_elem_of_cons.
    split_and!; [discriminate..|apply not_elem_of_nil].
  - apply (app_line_skips_or_aborts [Logs.connected "app-1"]
             (Logs.submitting "zero" "10") [Logs.submitting "0" "10"] st Hpre).
    vm_compute; reflexivity.
Defined.

Lemma app_scan_series_bounded_witness :
  ∃ st,
    app_scan ([Logs.connected "app-1"; Logs.submitting "0" "10";
               Logs.init "12:00:02" "0" "1000"]
              ++ [Logs.stage_finished "12:00:12" "0"]) = Ok st
    ∧ ∀ app p, dict_to_plot st !! app = Some p → series_bounded p.
Proof.
  scan_to st ([Logs.connected "app-1"; Logs.submitting "0" "10";
               Logs.init "12:00:02" "0" "1000"]
              ++ [Logs.stage_finished "12:00:12" "0"]).
  exists st. split; [vm_compute; reflexivity|].
  apply (app_scan_series_bounded
           [Logs.connected "app-1"; Logs.submitting "0" "10";
            Logs.init "12:00:02" "0" "1000"]
           [Logs.stage_finished "12:00:12" "0"] st).
  vm_compute; reflexivity.
Defined.

(** C4, counterexample. In the scenario the finish times of [app-1] are
    the empty list, not the list of the timestamp 12:00:12 of the
    stage-finished line. *)
Lemma scenario_finish_times_empty :
  finishTimeStages <$> plot_series_of Logs.scenario "app-1" = Ok []
  ∧ string_to_datetime "12:00:12" = Ok 43212000000%Z
  ∧ finishTimeStages <$> plot_series_of Logs.scenario "app-1"
    ≠ Ok [43212000000%Z].
Proof.
  split_and!; [vm_compute; reflexivity..|].
  intros Heq. vm_compute in Heq. discriminate Heq.
Qed.

Lemma scenario_parsed_witness :
  ∃ st stages,
    app_scan Logs.scenario = Ok st
    ∧ load_app_data Logs.scenario = Ok (app_info st)
    ∧ app_info st !! "app-1" = Some stages
    ∧ stages !! 0%Z
      = Some (StageInfo (Some 10%Z) None None (Some 43212000000%Z)
                (Some [43202000000; 43203000000; 43204000000; 43205000000;
                       43206000000; 43207000000; 43208000000; 43209000000;
                       43210000000; 43211000000]%Z))
    ∧ length [43202000000; 43203000000; 43204000000; 43205000000;
              43206000000; 43207000000; 43208000000; 43209000000;
              43210000000; 43211000000]%Z = 10
    ∧ dict_to_plot st !! "app-1" = Some (PlotSeries [] [] []).
Proof.
  apply (scenario_parsed (Logs.connected "app-1")
           (Logs.submitting "0" "10")
           (zip_with Logs.task_finished Logs.task_stamps Logs.task_ids)
           (Logs.stage_finished "12:00:12" "0")
           [43202000000; 43203000000; 43204000000; 43205000000; 43206000000;
            43207000000; 43208000000; 43209000000; 43210000000;
            43211000000]%Z 43212000000%Z).
  - split_and!; vm_compute; reflexivity.
  - split_and!; vm_compute; reflexivity.
  - unfold Logs.task_stamps, Logs.task_ids. cbn [zip_with].
    repeat (constructor; [split_and!; vm_compute; reflexivity|]).
    constructor.
  - reflexivity.
  - split_and!; [vm_compute; reflexivity|left; discriminate
                |vm_compute; reflexivity..].
Defined.

(** C6, counterexample. [app-B] has one start and one deadline recorded
    when [app-A] registers; the hand-off back to [app-B] leaves it with
    three empty series. *)
Lemma handoff_discards_existing_series :
  plot_series_of
    [Logs.connected "app-B"; Logs.submitting "0" "10";
     Logs.init "12:00:02" "0" "1000"; Logs.connected "app-A"] "app-B"
  = Ok (PlotSeries [43203000000%Z] [43202000000%Z] [])
  ∧ plot_series_of
      [Logs.connected "app-B"; Logs.submitting "0" "10";
       Logs.init "12:00:02" "0" "1000"; Logs.connected "app-A";
       Logs.needed "app-B"] "app-B"
    = Ok (PlotSeries [] [] []).
Proof. split; vm_compute; reflexivity. Qed.

Lemma handoff_resets_series_witness :
  ∃ st,
    app_scan [Logs.connected "app-B"; Logs.connected "app-A"] = Ok st
    ∧ app_line st (Logs.needed "app-B")
      = Ok (AppState (<["app-B" := empty_plot]> (dict_to_plot st))
              (app_info st) "app-B").
Proof.
  scan_to st [Logs.connected "app-B"; Logs.connected "app-A"].
  exists st. split; [vm_compute; reflexivity|].
  apply (handoff_resets_series st (Logs.needed "app-B")
           (Py.split " " (Logs.needed "app-B")) (Logs.line "app-B") eq_refl);
    vm_compute; reflexivity.
Defined.

End coordinator_examples.

Section worker_examples.
Import WorkerData WallClock.

(** C5, at the failing input. A worker log whose only line is a scale
    event for [app-9], an application that nothing registered: the scan
    goes on, an empty dict is stored under [app-9], [app-9] becomes the
    current application, and nothing is printed. *)
Theorem scaled_unseen_app_creates_entry :
  ∃ st,
    worker_scan [Logs.scaled "app-9"] = Ok st
    ∧ worker_dict st !! "app-9" = Some (App ∅)
    ∧ app_id st = "app-9"
    ∧ stdout st = [].
Proof.
  let r := eval vm_compute in (worker_scan [Logs.scaled "app-9"]) in
  match r with Ok ?v => exists v end.
  split_and!; vm_compute; reflexivity.
Qed.

Lemma worker_line_four_tokens_witness :
  worker_line worker_init (Logs.line "17/03/01 12:00:00 INFO Worker:")
  = Raise IndexError
  ∧ worker_scan ([] ++ [Logs.line "17/03/01 12:00:00 INFO Worker:"])
    = Raise IndexError
  ∧ load_worker_data ([] ++ [Logs.line "17/03/01 12:00:00 INFO Worker:"])
      [] (Config false 4)
    = Raise IndexError.
Proof.
  apply (worker_line_four_tokens worker_init []
           (Logs.line "17/03/01 12:00:00 INFO Worker:") [] [] (Config false 4));
    vm_compute; reflexivity.
Defined.

Lemma load_worker_data_pruned_witness :
  ∃ d,
    load_worker_data [Logs.scaled "app-9"] [Logs.sar "12:00:01 PM" "50.00"]
      (Config false 4) = Ok d
    ∧ (∀ k e, d !! k = Some e → 0 < entry_len e)
    ∧ d !! "app-9" = None.
Proof.
  let r := eval vm_compute in
    (load_worker_data [Logs.scaled "app-9"] [Logs.sar "12:00:01 PM" "50.00"]
       (Config false 4)) in
  match r with Ok ?v => pose (d := v) end.
  assert (Hd : load_worker_data [Logs.scaled "app-9"]
                 [Logs.sar "12:00:01 PM" "50.00"] (Config false 4) = Ok d)
    by (vm_compute; reflexivity).
  exists d. split; [exact Hd|].
  destruct (load_worker_data_pruned _ _ _ d Hd) as (st & d0 & _ & _ & Hpos & _).
  split; [|vm_compute; reflexivity].
  intros k e Hk. exact (proj1 (Hpos k e Hk)).
Defined.

Lemma progress_event_stored_witness :
  ∃ st stages s,
    worker_scan [Logs.scaled "app-9"; Logs.created "12:00:01" "1" "8"] = Ok st
    ∧ worker_line st (Logs.progress "12:00:02" "-45.0")
      = Ok (put_series st stages (sid st)
              (StageSeries (cpu s) (time s ++ [43202000000%Z]) (sp_real s)
                 (sp s ++ [(PrimFloat.abs (-45) / 100)%float]))).
Proof.
  let r := eval vm_compute in
    (worker_scan [Logs.scaled "app-9"; Logs.created "12:00:01" "1" "8"]) in
  match r with Ok ?v => pose (st := v) end.
  let r := eval vm_compute in (app_stages st) in
  match r with Ok ?m => pose (stages := m) end.
  let r := eval vm_compute in (stages !! sid st) in
  match r with Some ?v => pose (s := v) end.
  exists st, stages, s. split; [vm_compute; reflexivity|].
  apply (proj1 progress_event_stored st (Logs.progress "12:00:02" "-45.0")
           (Py.split " " (Logs.progress "12:00:02" "-45.0")) stages s
           "12:00:02" 43202000000%Z (-45)%float eq_refl);
    try (vm_compute; reflexivity).
  discriminate.
Defined.


End worker_examples.

Section coordinator_more_examples.
Import AppData WallClock.

Ltac scan_to st log :=
  let r := eval vm_compute in (app_scan log) in
  match r with Ok ?v => pose (st := v) end.

(** A hypothesis at a concrete input is settled by evaluation. *)
Ltac evaluated :=
  first [ vm_compute; reflexivity | discriminate | vm_compute; lia ].

Lemma app_scan_one_pending_witness :
  ∃ st,
    app_scan [Logs.connected "app-1"; Logs.submitting "0" "10";
              Logs.init "12:00:02" "0" "1000"] = Ok st
    ∧ ∀ app p, dict_to_plot st !! app = Some p →
        length (startTimeStages p) = length (dealineTimeStages p)
        ∧ length (finishTimeStages p) ≤ length (startTimeStages p)
        ∧ length (startTimeStages p) ≤ length (finishTimeStages p) + 1.
Proof.
  scan_to st [Logs.connected "app-1"; Logs.submitting "0" "10";
              Logs.init "12:00:02" "0" "1000"].
  exists st. split; [vm_compute; reflexivity|].
  apply (app_scan_one_pending
           [Logs.connected "app-1"; Logs.submitting "0" "10";
            Logs.init "12:00:02" "0" "1000"] st).
  vm_compute; reflexivity.
Defined.

Lemma load_app_data_keys_witness :
  ∃ r,
    load_app_data [Logs.connected "app-1"] = Ok r
    ∧ (is_Some (r !! "app-1")
       ↔ ∃ raw, raw ∈ [Logs.connected "app-1"]
                ∧ registers (Py.split " " raw) "app-1").
Proof.
  let r := eval vm_compute in (load_app_data [Logs.connected "app-1"]) in
  match r with Ok ?v => exists v end.
  split; [vm_compute; reflexivity|].
  apply (load_app_data_keys [Logs.connected "app-1"]).
  vm_compute; reflexivity.
Defined.

Lemma task_finished_appends_witness :
  ∃ st stages stage,
    app_scan [Logs.connected "app-1"; Logs.submitting "0" "10"] = Ok st
    ∧ app_line st (Logs.task_finished "12:00:02" "0.0")
      = Ok (put_stage st stages 0
              (set_tasktimestamps
                 (default [] (tasktimestamps stage) ++ [43202000000%Z]) stage)).
Proof.
  scan_to st [Logs.connected "app-1"; Logs.submitting "0" "10"].
  let r := eval vm_compute in (app_info st !! app_id st) in
  match r with Some ?m => pose (stages := m) end.
  let r := eval vm_compute in (stages !! 0%Z) in
  match r with Some ?v => pose (stage := v) end.
  exists st, stages, stage. split; [vm_compute; reflexivity|].
  apply (task_finished_appends st (Logs.task_finished "12:00:02" "0.0")
           (Py.split " " (Logs.task_finished "12:00:02" "0.0"))
           stages stage "0.0" 0%float 0%Z "12:00:02" 43202000000%Z eq_refl);
    evaluated.
Defined.

Lemma task_finished_unknown_stage_witness :
  app_line app_init (Logs.task_finished "12:00:02" "0.0") = Raise KeyError.
Proof.
  apply (task_finished_unknown_stage app_init
           (Logs.task_finished "12:00:02" "0.0")
           (Py.split " " (Logs.task_finished "12:00:02" "0.0"))
           "0.0" 0%float 0%Z eq_refl);
    evaluated.
Defined.

Lemma dag_line_without_application_witness :
  app_line app_init (Logs.stage_finished "12:00:12" "0") = Ok app_init.
Proof.
  apply (dag_line_without_application app_init
           (Logs.stage_finished "12:00:12" "0")
           (Py.split " " (Logs.stage_finished "12:00:12" "0"))
           "ResultStage" eq_refl);
    evaluated.
Defined.

Lemma submission_without_registration_witness :
  app_line app_init (Logs.submitting "0" "10") = Raise KeyError.
Proof.
  apply (submission_without_registration app_init (Logs.submitting "0" "10")
           (Py.split " " (Logs.submitting "0" "10")) "0" 0%Z eq_refl);
    evaluated.
Defined.

Lemma init_ignored_while_pending_witness :
  ∃ st,
    app_scan [Logs.connected "app-1"; Logs.submitting "0" "10";
              Logs.init "12:00:02" "0" "1000"] = Ok st
    ∧ app_line st (Logs.init "12:00:05" "1" "1000") = Ok st.
Proof.
  scan_to st [Logs.connected "app-1"; Logs.submitting "0" "10";
              Logs.init "12:00:02" "0" "1000"].
  let r := eval vm_compute in (dict_to_plot st !! app_id st) in
  match r with Some ?v => pose (plot := v) end.
  exists st. split; [vm_compute; reflexivity|].
  apply (init_ignored_while_pending st (Logs.init "12:00:05" "1" "1000")
           (Py.split " " (Logs.init "12:00:05" "1" "1000")) plot eq_refl);
    evaluated.
Defined.

Lemma init_sets_start_and_deadline_witness :
  ∃ st stages stage,
    app_scan [Logs.connected "app-1"; Logs.submitting "0" "10"] = Ok st
    ∧ app_line st (Logs.init "12:00:02" "0" "1000")
      = Ok (put_plot
              (put_stage st stages 0
                 (set_deadline 43203000000%Z (set_start 43202000000%Z stage)))
              (PlotSeries [43203000000%Z] [43202000000%Z] [])).
Proof.
  scan_to st [Logs.connected "app-1"; Logs.submitting "0" "10"].
  let r := eval vm_compute in (app_info st !! app_id st) in
  match r with Some ?m => pose (stages := m) end.
  let r := eval vm_compute in (stages !! 0%Z) in
  match r with Some ?v => pose (stage := v) end.
  exists st, stages, stage. split; [vm_compute; reflexivity|].
  apply (init_sets_start_and_deadline st (Logs.init "12:00:02" "0" "1000")
           (Py.split " " (Logs.init "12:00:02" "0" "1000"))
           (PlotSeries [] [] []) "0," 0%Z "12:00:02" 43202000000%Z
           "1000," 1000%float 43203000000%Z stages stage eq_refl);
    evaluated.
Defined.

Lemma registration_resets_witness :
  app_line app_init (Logs.connected "app-1")
  = Ok (AppState
          (<[Py.rstrip (Logs.line "app-1") := empty_plot]>
             (dict_to_plot app_init))
          (<[Py.rstrip (Logs.line "app-1") := ∅]> (app_info app_init))
          (Py.rstrip (Logs.line "app-1"))).
Proof.
  apply (registration_resets app_init (Logs.connected "app-1")
           (Py.split " " (Logs.connected "app-1")) (Logs.line "app-1")
           eq_refl);
    evaluated.
Defined.

Lemma load_app_data_stages_consistent_witness :
  ∃ r stages stage,
    load_app_data Logs.scenario = Ok r
    ∧ r !! "app-1" = Some stages
    ∧ stages !! 0%Z = Some stage
    ∧ stage_consistent stage.
Proof.
  let r := eval vm_compute in (load_app_data Logs.scenario) in
  match r with Ok ?v => pose (r' := v) end.
  let r := eval vm_compute in (r' !! "app-1") in
  match r with Some ?m => pose (stages := m) end.
  let r := eval vm_compute in (stages !! 0%Z) in
  match r with Some ?v => pose (stage := v) end.
  exists r', stages, stage.
  split_and!; [vm_compute; reflexivity..|].
  apply (load_app_data_stages_consistent Logs.scenario r' "app-1" stages 0%Z
           stage);
    vm_compute; reflexivity.
Defined.

Lemma submission_replaces_stage_witness :
  ∃ st stages,
    app_scan [Logs.connected "app-1"; Logs.submitting "0" "10";
              Logs.init "12:00:02" "0" "1000"] = Ok st
    ∧ is_Some (stages !! 0%Z ≫= start)
    ∧ app_line st (Logs.submitting "0" "12")
      = Ok (put_stage st stages 0 (StageInfo (Some 12%Z) None None None None)).
Proof.
  scan_to st [Logs.connected "app-1"; Logs.submitting "0" "10";
              Logs.init "12:00:02" "0" "1000"].
  let r := eval vm_compute in (app_info st !! app_id st) in
  match r with Some ?m => pose (stages := m) end.
  exists st, stages. split; [vm_compute; reflexivity|].
  split; [vm_compute; eauto|].
  apply (submission_replaces_stage st (Logs.submitting "0" "12")
           (Py.split " " (Logs.submitting "0" "12")) "0" 0%Z "12" 12%Z stages
           eq_refl);
    evaluated.
Defined.

Lemma stage_finished_records_end_witness :
  ∃ st stages stage,
    app_scan [Logs.connected "app-1"; Logs.submitting "0" "10";
              Logs.init "12:00:02" "0" "1000"] = Ok st
    ∧ app_line st (Logs.stage_finished "12:00:12" "0")
      = Ok (put_plot (put_stage st stages 0 (set_end 43212000000%Z stage))
              (PlotSeries [43203000000%Z] [43202000000%Z] [43212000000%Z])).
Proof.
  scan_to st [Logs.connected "app-1"; Logs.submitting "0" "10";
              Logs.init "12:00:02" "0" "1000"].
  let r := eval vm_compute in (app_info st !! app_id st) in
  match r with Some ?m => pose (stages := m) end.
  let r := eval vm_compute in (stages !! 0%Z) in
  match r with Some ?v => pose (stage := v) end.
  exists st, stages, stage. split; [vm_compute; reflexivity|].
  etransitivity.
  - apply (stage_finished_records_end st (Logs.stage_finished "12:00:12" "0")
             (Py.split " " (Logs.stage_finished "12:00:12" "0"))
             "ResultStage" "0" 0%Z "12:00:12" 43212000000%Z stages stage
             (PlotSeries [43203000000%Z] [43202000000%Z] []) eq_refl);
      evaluated.
  - vm_compute; reflexivity.
Defined.

End coordinator_more_examples.

Section worker_more_examples.
Import WorkerData WallClock.

Ltac evaluated :=
  first [ vm_compute; reflexivity | discriminate | vm_compute; lia ].

Ltac worker_scan_to st log :=
  let r := eval vm_compute in (worker_scan log) in
  match r with Ok ?v => pose (st := v) end.

Lemma ignored_without_application_witness :
  worker_line worker_init (Logs.created "12:00:01" "1" "8") = Ok worker_init.
Proof.
  apply (ignored_without_application worker_init
           (Logs.created "12:00:01" "1" "8")
           (Py.split " " (Logs.created "12:00:01" "1" "8")) "Created" eq_refl);
    evaluated.
Defined.

Lemma scaled_short_line_witness :
  worker_line worker_init
    (Logs.line "17/03/01 12:00:00 INFO Worker: Scaled executorId 0")
  = Raise IndexError.
Proof.
  apply (scaled_short_line worker_init
           (Logs.line "17/03/01 12:00:00 INFO Worker: Scaled executorId 0")
           (Py.split " "
              (Logs.line "17/03/01 12:00:00 INFO Worker: Scaled executorId 0"))
           eq_refl);
    evaluated.
Defined.

Lemma scaled_switches_application_witness :
  worker_line (@worker_init Z) (Logs.scaled "app-9")
  = Ok (if decide (app_id (@worker_init Z) ≠ EmptyString
                   ∧ app_id (@worker_init Z) = "app-9")
        then worker_init
        else WorkerState (<["app-9" := App ∅]> (worker_dict worker_init))
               "app-9" (sid (@worker_init Z)) (stdout (@worker_init Z))).
Proof.
  apply (scaled_switches_application worker_init (Logs.scaled "app-9")
           (Py.split " " (Logs.scaled "app-9")) "app-9" eq_refl);
    evaluated.
Defined.

Lemma sample_without_stage_witness :
  ∃ st,
    worker_scan [Logs.scaled "app-9"] = Ok st
    ∧ worker_line st (Logs.progress "12:00:02" "0.7") = Raise KeyError.
Proof.
  worker_scan_to st [Logs.scaled "app-9"].
  exists st. split; [vm_compute; reflexivity|].
  apply (sample_without_stage st (Logs.progress "12:00:02" "0.7")
           (Py.split " " (Logs.progress "12:00:02" "0.7")) "SP" ∅ eq_refl);
    first [ evaluated | set_solver ].
Defined.

Lemma created_same_stage_id_missing_witness :
  ∃ st,
    worker_scan [Logs.scaled "app-8"; Logs.created "12:00:01" "1" "8";
                 Logs.scaled "app-9"] = Ok st
    ∧ worker_line st (Logs.created "12:00:03" "1" "8") = Raise KeyError.
Proof.
  worker_scan_to st [Logs.scaled "app-8"; Logs.created "12:00:01" "1" "8";
                     Logs.scaled "app-9"].
  exists st. split; [vm_compute; reflexivity|].
  apply (created_same_stage_id_missing st (Logs.created "12:00:03" "1" "8")
           (Py.split " " (Logs.created "12:00:03" "1" "8")) "1" ∅ eq_refl);
    evaluated.
Defined.

Lemma created_starts_stage_witness :
  ∃ st,
    worker_scan [Logs.scaled "app-9"] = Ok st
    ∧ worker_line st (Logs.created "12:00:01" "1" "8")
      = Ok (WorkerState
              (<[app_id st
                 := App (<[1%Z := StageSeries [8%float] [43201000000%Z]
                                    [0%float] [0%float]]> ∅)]>
                 (worker_dict st))
              (app_id st) 1 (stdout st)).
Proof.
  worker_scan_to st [Logs.scaled "app-9"].
  exists st. split; [vm_compute; reflexivity|].
  apply (created_starts_stage st (Logs.created "12:00:01" "1" "8")
           (Py.split " " (Logs.created "12:00:01" "1" "8")) "1" 1%Z ∅
           8%float "12:00:01" 43201000000%Z eq_refl);
    evaluated.
Defined.

Lemma worker_scan_prints_nothing_witness :
  ∃ st,
    worker_scan [Logs.scaled "app-9"; Logs.scaled "app-8"] = Ok st
    ∧ stdout st = [].
Proof.
  worker_scan_to st [Logs.scaled "app-9"; Logs.scaled "app-8"].
  exists st. split; [vm_compute; reflexivity|].
  apply (worker_scan_prints_nothing [Logs.scaled "app-9"; Logs.scaled "app-8"]).
  vm_compute; reflexivity.
Defined.

Lemma cpu_loop_frame_witness :
  ∃ st d,
    worker_scan [Logs.scaled "app-9"; Logs.created "12:00:01" "1" "8"] = Ok st
    ∧ cpu_loop (Config false 4) (worker_dict st)
        [Logs.sar "12:00:01 PM" "50.00"] = Ok d
    ∧ d !! "app-9" = worker_dict st !! "app-9".
Proof.
  worker_scan_to st [Logs.scaled "app-9"; Logs.created "12:00:01" "1" "8"].
  let r := eval vm_compute in
    (cpu_loop (Config false 4) (worker_dict st)
       [Logs.sar "12:00:01 PM" "50.00"]) in
  match r with Ok ?v => pose (d := v) end.
  exists st, d. split_and!; [vm_compute; reflexivity..|].
  apply (cpu_loop_frame (Config false 4) (worker_dict st)
           [Logs.sar "12:00:01 PM" "50.00"] d "app-9");
    evaluated.
Defined.

Lemma load_worker_data_telemetry_paired_witness :
  ∃ d,
    load_worker_data [Logs.scaled "app-9"]
      [Logs.sar "12:00:01 PM" "50.00"; Logs.sar "12:00:02 PM" "60.00"]
      (Config false 4) = Ok d
    ∧ (∀ c, d !! "cpu_real" = Some (CpuReal c) →
            ∃ l, d !! "time_cpu" = Some (TimeCpu l) ∧ length l = length c)
    ∧ (∀ l, d !! "time_cpu" = Some (TimeCpu l) →
            ∃ c, d !! "cpu_real" = Some (CpuReal c) ∧ length c = length l).
Proof.
  let r := eval vm_compute in
    (load_worker_data [Logs.scaled "app-9"]
       [Logs.sar "12:00:01 PM" "50.00"; Logs.sar "12:00:02 PM" "60.00"]
       (Config false 4)) in
  match r with Ok ?v => exists v end.
  split; [vm_compute; reflexivity|].
  apply (load_worker_data_telemetry_paired [Logs.scaled "app-9"]
           [Logs.sar "12:00:01 PM" "50.00"; Logs.sar "12:00:02 PM" "60.00"]
           (Config false 4)).
  vm_compute; reflexivity.
Defined.

Lemma load_worker_data_stages_filled_witness :
  ∃ d m s,
    load_worker_data [Logs.scaled "app-9"; Logs.created "12:00:01" "1" "8"]
      [] (Config false 4) = Ok d
    ∧ d !! "app-9" = Some (App m)
    ∧ m !! 1%Z = Some s
    ∧ series_filled s.
Proof.
  let r := eval vm_compute in
    (load_worker_data [Logs.scaled "app-9"; Logs.created "12:00:01" "1" "8"]
       [] (Config false 4)) in
  match r with Ok ?v => pose (d := v) end.
  let r := eval vm_compute in (d !! "app-9") in
  match r with Some (App ?v) => pose (m := v) end.
  let r := eval vm_compute in (m !! 1%Z) in
  match r with Some ?v => pose (s := v) end.
  exists d, m, s. split_and!; [vm_compute; reflexivity..|].
  apply (load_worker_data_stages_filled
           [Logs.scaled "app-9"; Logs.created "12:00:01" "1" "8"] []
           (Config false 4) d "app-9" m 1%Z s);
    vm_compute; reflexivity.
Defined.

Lemma cpu_line_skipped_witness :
  cpu_line (Config false 4) (worker_dict worker_init)
    (Logs.line "Average:    all    50.00    0.00")
  = Ok (worker_dict worker_init).
Proof.
  apply (cpu_line_skipped (Config false 4) (worker_dict worker_init)
           (Logs.line "Average:    all    50.00    0.00")
           (Py.split "    " (Logs.line "Average:    all    50.00    0.00"))
           "Average:" "all" eq_refl);
    evaluated.
Defined.

Lemma cpu_line_one_field_witness :
  cpu_line (Config false 4) (worker_dict worker_init)
    (Logs.line "12:00:01 PM all 50.00")
  = Raise IndexError.
Proof.
  apply (cpu_line_one_field (Config false 4) (worker_dict worker_init)
           (Logs.line "12:00:01 PM all 50.00")
           (Logs.line "12:00:01 PM all 50.00"));
    evaluated.
Defined.

End worker_more_examples.

Section download_examples.
Import Download Testbed.

(** The state in which a run ends is computed, and named [q]. *)
Ltac run_to q run :=
  let r := eval vm_compute in run in
  match r with (_, ?v) => pose (q := v) end.

Lemma download_master_app_id_witness :
  ∃ q,
    download_master master "/tmp/out/" "/var/log/bench" settings start
    = (Done ("/tmp/out/app-1app-2", "app-2"), q)
    ∧ "app-2" = default EmptyString (last ["app-1"; "app-2"]).
Proof.
  run_to q (download_master master "/tmp/out/" "/var/log/bench" settings start).
  exists q. split; [vm_compute; reflexivity|].
  apply (download_master_app_id master "/tmp/out/" "/var/log/bench" settings
           start "/tmp/out/app-1app-2" "app-2" q [] [] ["app-1"; "app-2"]);
    vm_compute; reflexivity.
Defined.

Lemma download_master_folder_witness :
  ∃ q,
    download_master master "/tmp/out/" "/var/log/bench" settings start
    = (Done ("/tmp/out/app-1app-2", "app-2"), q)
    ∧ "/tmp/out/app-1app-2" = ("/tmp/out/" +:+ "app-1") +:+ "app-2".
Proof.
  run_to q (download_master master "/tmp/out/" "/var/log/bench" settings start).
  exists q. split; [vm_compute; reflexivity|].
  destruct (download_master_folder master "/tmp/out/" "/var/log/bench"
              settings start "/tmp/out/app-1app-2" "app-2" q [] []
              ["app-1"; "app-2"])
    as (_ & _ & _ & Htwo); [vm_compute; reflexivity..|].
  apply (Htwo "app-1" "app-2"); first [ reflexivity | discriminate ].
Defined.

Lemma download_master_log_files_witness :
  ∃ q before,
    download_master master "/tmp/out/" "/var/log/bench" settings start
    = (Done ("/tmp/out/app-1app-2", "app-2"), q)
    ∧ calls q
      = before
        ++ [Listdir master "/var/log/bench";
            GetFile master "/var/log/bench/app.dat"
              "/tmp/out/app-1app-2/app.dat";
            GetFile master "/var/log/bench/run:1.log"
              "/tmp/out/app-1app-2/run-1.log"].
Proof.
  run_to q (download_master master "/tmp/out/" "/var/log/bench" settings start).
  assert (Hrun : download_master master "/tmp/out/" "/var/log/bench" settings
                   start
                 = (Done ("/tmp/out/app-1app-2", "app-2"), q))
    by (vm_compute; reflexivity).
  destruct (download_master_log_files _ _ _ _ _ _ _ _ Hrun)
    as (before & w & w' & logs & Hlogs & Hcalls & _).
  exists q, before. split; [exact Hrun|].
  rewrite Hcalls. injection Hlogs as <- _. reflexivity.
Defined.

Lemma download_slave_returns_witness :
  ∃ q,
    download_slave slave "/tmp/out/app-2" "app-2" settings start
    = (Done "/tmp/out/app-2", q).
Proof.
  run_to q (download_slave slave "/tmp/out/app-2" "app-2" settings start).
  exists q.
  destruct (download_slave_returns slave "/tmp/out/app-2" "app-2" settings
              start
              (download_slave slave "/tmp/out/app-2" "app-2" settings start).1
              q)
    as [Hdone|(e & He & _)].
  - vm_compute. discriminate.
  - vm_compute; reflexivity.
  - vm_compute; reflexivity.
  - vm_compute in He. discriminate He.
Defined.

Lemma missing_worker_log_skips_sar_witness :
  download_slave slave "/tmp/out/app-2" "app-2" settings start
  = (try_io (fetch_stderr slave "/tmp/out/app-2" "app-2" settings)
       catches_not_found (print "stderr not found");;
     mret "/tmp/out/app-2")
      (Process (world start)
         (calls start
          ++ [Connect slave; Run slave kill_screens;
              GetFile slave
                (SparkHome settings +:+ "logs/"
                 +:+ worker_log_name
                       (replace "." "-" (private_ip_address slave)))
                ("/tmp/out/app-2" +:+ "/"
                 +:+ worker_log_name (private_ip_address slave))])
         (stdout start
          ++ ["Downloading log from slave: " +:+ public_dns_name slave;
              SparkHome settings +:+ "logs/"
              +:+ worker_log_name
                    (replace "." "-" (private_ip_address slave));
              "worker log not found"])).
Proof.
  apply (missing_worker_log_skips_sar slave "/tmp/out/app-2" "app-2" settings
           start [] [] []);
    vm_compute; reflexivity.
Defined.

End download_examples.
